(** * Soulbound-token system: issuer registry, templates, sessions, ledger

    A shallow embedding of the four Solidity contracts
    [IssuerRegistry], [SBTTemplate], [SBTSession] and [SBTToken]
    (the template/session based ledger), followed by the properties of
    the system that the specification states about them.

    Conventions of the embedding:
    - [uint256], [bytes32] and [address] values are binary naturals;
      Solidity 0.8 arithmetic is checked, so [+] and [++] revert once the
      result would leave the 256-bit range ([checked_add]);
    - a [mapping] is a finite map read with the all-zero default value;
      a [mapping] to [bool] is the finite set of the keys mapped to [true];
    - an external or public function is a function from the state(s) it
      touches to a [result]: [Ok] with the new state, or [Revert] with the
      reason, in which case the EVM discards every write of the call;
    - a modifier is the check it performs, run in the order in which the
      function lists its modifiers;
    - the calls come in two groups: [Call], the entry points for
      issuers, holders and pausing, and [OwnerCall], the owners'
      re-configuration calls ([setSBTTokenContract] after the deployment
      and the [transferOwnership] and [renounceOwnership] inherited from
      [Ownable]); [reachable] follows the first group alone, that is the
      system while its owners leave wiring and ownership as deployed,
      and [reaches] follows both; the ERC721 transfer and approval
      functions, which the ledger overrides to revert, are in neither;
    - [nonReentrant] has no effect in a model without callbacks, and the
      receiver callback of [_safeMint] is reduced to its verdict;
    - events are not modelled, and neither is the enumeration bookkeeping
      of [ERC721Enumerable], which no function below reads. *)

From stdpp Require Import gmap strings list.
From Stdlib Require Import NArith.

Local Open Scope string_scope.
Local Open Scope N_scope.

(** ** Values, failures and the call environment *)

Abbreviation address := N (only parsing).
Abbreviation uint256 := N (only parsing).
Abbreviation bytes32 := N (only parsing).

Definition MAX_UINT256 : N := 2 ^ 256 - 1.

Inductive result (A : Type) : Type :=
| Ok (a : A)
| Revert (reason : string).
Arguments Ok {A} a.
Arguments Revert {A} reason.

#[global] Instance result_ret : MRet result := fun A a => Ok a.
#[global] Instance result_bind : MBind result := fun A B f m =>
  match m with
  | Ok a => f a
  | Revert r => Revert r
  end.

#[global] Instance result_fmap : FMap result := fun A B f m =>
  match m with
  | Ok a => Ok (f a)
  | Revert r => Revert r
  end.

Definition is_ok {A} (r : result A) : bool :=
  match r with Ok _ => true | Revert _ => false end.

(** [require(cond, reason)] *)
Definition require (cond : bool) (reason : string) : result unit :=
  if cond then Ok tt else Revert reason.

(** Checked addition of Solidity 0.8: panic 0x11 on overflow. *)
Definition checked_add (a b : uint256) : result uint256 :=
  if a + b <=? MAX_UINT256 then Ok (a + b) else Revert "Panic(0x11)".

(** [bytes(s).length > 0] *)
Definition nonempty (s : string) : bool := negb (String.eqb s EmptyString).

(** What a call sees of the transaction and the block.
    [receiver_accepts a] is the outcome of the ERC721 receiver check that
    [_safeMint] performs on the recipient: [true] for an account without
    code, and for a contract whose [onERC721Received] answers the magic
    value (such a callback is assumed not to call back into the system;
    the mint paths are [nonReentrant]). *)
Record Env := mkEnv {
  msg_sender : address;
  block_timestamp : uint256;
  block_prevrandao : uint256;
  receiver_accepts : address -> bool
}.

Definition as_sender (a : address) (e : Env) : Env :=
  mkEnv a (block_timestamp e) (block_prevrandao e) (receiver_accepts e).

(** ** IssuerRegistry *)

Module IssuerRegistry.

Record IssuerInfo := mkIssuerInfo {
  name : string;
  organization : string;
  authorized : bool;
  addedAt : uint256
}.

Definition noIssuer : IssuerInfo := mkIssuerInfo EmptyString EmptyString false 0.

Record state := mkState {
  owner : address;
  paused : bool;
  issuers : gmap N IssuerInfo;
  issuerAddresses : list address;
  isInArray : gset N
}.

(** [issuers[a]] *)
Definition issuerAt (s : state) (a : address) : IssuerInfo :=
  default noIssuer (issuers s !! a).

Definition set_paused (b : bool) (s : state) : state :=
  mkState (owner s) b (issuers s) (issuerAddresses s) (isInArray s).

Definition set_issuer (a : address) (i : IssuerInfo) (s : state) : state :=
  mkState (owner s) (paused s) (<[a := i]> (issuers s))
          (issuerAddresses s) (isInArray s).

Definition onlyOwner (e : Env) (s : state) : result unit :=
  require (msg_sender e =? owner s) "OwnableUnauthorizedAccount".

Definition whenNotPaused (s : state) : result unit :=
  require (negb (paused s)) "EnforcedPause".

Definition whenPaused (s : state) : result unit :=
  require (paused s) "ExpectedPause".

Definition _addIssuerInternal (e : Env) (issuer : address)
    (nm org : string) (s : state) : state :=
  let s1 := set_issuer issuer (mkIssuerInfo nm org true (block_timestamp e)) s in
  if bool_decide (issuer ∈ isInArray s1) then s1
  else mkState (owner s1) (paused s1) (issuers s1)
               (issuerAddresses s1 ++ [issuer])%list
               ({[ issuer ]} ∪ isInArray s1).

(** [constructor(address _owner) Ownable(_owner)]: [Ownable] rejects the
    zero address, then the owner becomes the first authorized issuer. *)
Definition constructor (e : Env) (_owner : address) : result state :=
  require (negb (_owner =? 0)) "OwnableInvalidOwner";;
  Ok (_addIssuerInternal e _owner "System Admin" "SBT System"
        (mkState _owner false ∅ [] ∅)).

Definition addIssuer (e : Env) (issuer : address) (nm org : string)
    (s : state) : result state :=
  onlyOwner e s;;
  whenNotPaused s;;
  require (negb (issuer =? 0)) "IssuerRegistry: Invalid issuer address";;
  require (nonempty nm) "IssuerRegistry: Name cannot be empty";;
  require (negb (authorized (issuerAt s issuer)))
          "IssuerRegistry: Issuer already exists";;
  Ok (_addIssuerInternal e issuer nm org s).

Definition removeIssuer (e : Env) (issuer : address) (s : state)
    : result state :=
  onlyOwner e s;;
  whenNotPaused s;;
  require (negb (issuer =? 0)) "IssuerRegistry: Invalid issuer address";;
  require (authorized (issuerAt s issuer)) "IssuerRegistry: Issuer not found";;
  require (negb (issuer =? owner s)) "IssuerRegistry: Cannot remove owner";;
  let i := issuerAt s issuer in
  Ok (set_issuer issuer
        (mkIssuerInfo (name i) (organization i) false (addedAt i)) s).

Definition updateIssuer (e : Env) (issuer : address) (nm org : string)
    (s : state) : result state :=
  onlyOwner e s;;
  whenNotPaused s;;
  require (negb (issuer =? 0)) "IssuerRegistry: Invalid issuer address";;
  require (authorized (issuerAt s issuer)) "IssuerRegistry: Issuer not found";;
  require (nonempty nm) "IssuerRegistry: Name cannot be empty";;
  let i := issuerAt s issuer in
  Ok (set_issuer issuer (mkIssuerInfo nm org (authorized i) (addedAt i)) s).

Definition isAuthorizedIssuer (s : state) (issuer : address) : bool :=
  authorized (issuerAt s issuer).

Definition getIssuerInfo (s : state) (issuer : address) : IssuerInfo :=
  issuerAt s issuer.

(** The counting loop shared by [getAllIssuers] and
    [getAuthorizedIssuerCount]: [count++] for every authorized entry of
    the array, from left to right. *)
Fixpoint count_loop (s : state) (l : list address) (count : uint256)
    : result uint256 :=
  match l with
  | [] => Ok count
  | a :: rest =>
      if authorized (issuerAt s a)
      then c ← checked_add count 1; count_loop s rest c
      else count_loop s rest count
  end.

(** The second loop of [getAllIssuers]:
    [authorizedIssuers[index] = issuerAddresses[i]; index++]. A write
    past the end of the memory array panics. *)
Fixpoint fill_loop (s : state) (l : list address) (out : list address)
    (index : uint256) : result (list address) :=
  match l with
  | [] => Ok out
  | a :: rest =>
      if authorized (issuerAt s a)
      then require (index <? N.of_nat (length out)) "Panic(0x32)";;
           i ← checked_add index 1;
           fill_loop s rest (<[N.to_nat index := a]> out) i
      else fill_loop s rest out index
  end.

Definition getAllIssuers (s : state) : result (list address) :=
  authorizedCount ← count_loop s (issuerAddresses s) 0;
  fill_loop s (issuerAddresses s) (replicate (N.to_nat authorizedCount) 0) 0.

Definition getAuthorizedIssuerCount (s : state) : result uint256 :=
  count_loop s (issuerAddresses s) 0.

(** [pause]/[unpause]: [_pause] is itself [whenNotPaused] and [_unpause]
    is [whenPaused] in [Pausable]. *)
Definition pause (e : Env) (s : state) : result state :=
  onlyOwner e s;;
  whenNotPaused s;;
  Ok (set_paused true s).

Definition unpause (e : Env) (s : state) : result state :=
  onlyOwner e s;;
  whenPaused s;;
  Ok (set_paused false s).

(** [transferOwnership] and [renounceOwnership], which the contract
    inherits from OpenZeppelin's [Ownable] and does not override. *)
Definition set_owner (a : address) (s : state) : state :=
  mkState a (paused s) (issuers s) (issuerAddresses s) (isInArray s).

Definition transferOwnership (e : Env) (newOwner : address) (s : state)
    : result state :=
  onlyOwner e s;;
  require (negb (newOwner =? 0)) "OwnableInvalidOwner";;
  Ok (set_owner newOwner s).

Definition renounceOwnership (e : Env) (s : state) : result state :=
  onlyOwner e s;;
  Ok (set_owner 0 s).

End IssuerRegistry.

(** ** SBTTemplate *)

Module SBTTemplate.

Record Template := mkTemplate {
  templateId : uint256;
  name : string;
  description : string;
  issuer : address;
  createdAt : uint256;
  active : bool
}.

Definition noTemplate : Template := mkTemplate 0 EmptyString EmptyString 0 0 false.

Record state := mkState {
  owner : address;
  paused : bool;
  _templateIdCounter : uint256;
  templates : gmap N Template;
  issuerTemplates : gmap N (list uint256)
}.

(** [templates[id]] *)
Definition templateAt (s : state) (id : uint256) : Template :=
  default noTemplate (templates s !! id).

Definition set_paused (b : bool) (s : state) : state :=
  mkState (owner s) b (_templateIdCounter s) (templates s) (issuerTemplates s).

Definition set_template (id : uint256) (t : Template) (s : state) : state :=
  mkState (owner s) (paused s) (_templateIdCounter s)
          (<[id := t]> (templates s)) (issuerTemplates s).

Definition onlyOwner (e : Env) (s : state) : result unit :=
  require (msg_sender e =? owner s) "OwnableUnauthorizedAccount".

Definition whenNotPaused (s : state) : result unit :=
  require (negb (paused s)) "EnforcedPause".

Definition whenPaused (s : state) : result unit :=
  require (paused s) "ExpectedPause".

Definition onlyAuthorizedIssuer (e : Env) (reg : IssuerRegistry.state)
    : result unit :=
  require (IssuerRegistry.isAuthorizedIssuer reg (msg_sender e))
          "SBTTemplate: caller is not an authorized issuer".

Definition templateExists (id : uint256) (s : state) : result unit :=
  require ((id <=? _templateIdCounter s) && (0 <? id))
          "SBTTemplate: template does not exist".

Definition onlyTemplateIssuer (e : Env) (id : uint256) (s : state)
    : result unit :=
  require (issuer (templateAt s id) =? msg_sender e)
          "SBTTemplate: not template issuer".

(** [constructor(address _issuerRegistry) Ownable(msg.sender)] *)
Definition constructor (e : Env) : result state :=
  require (negb (msg_sender e =? 0)) "OwnableInvalidOwner";;
  Ok (mkState (msg_sender e) false 0 ∅ ∅).

Definition createTemplate (e : Env) (reg : IssuerRegistry.state)
    (nm desc : string) (s : state) : result (state * uint256) :=
  onlyAuthorizedIssuer e reg;;
  whenNotPaused s;;
  require (nonempty nm) "SBTTemplate: name cannot be empty";;
  require (nonempty desc) "SBTTemplate: description cannot be empty";;
  id ← checked_add (_templateIdCounter s) 1;
  Ok (mkState (owner s) (paused s) id
        (<[id := mkTemplate id nm desc (msg_sender e) (block_timestamp e) true]>
           (templates s))
        (<[msg_sender e :=
             (default [] (issuerTemplates s !! msg_sender e) ++ [id])%list]>
           (issuerTemplates s)),
      id).

Definition updateTemplate (e : Env) (id : uint256) (nm desc : string)
    (s : state) : result state :=
  templateExists id s;;
  onlyTemplateIssuer e id s;;
  whenNotPaused s;;
  require (nonempty nm) "SBTTemplate: name cannot be empty";;
  require (nonempty desc) "SBTTemplate: description cannot be empty";;
  require (active (templateAt s id)) "SBTTemplate: template is not active";;
  let t := templateAt s id in
  Ok (set_template id
        (mkTemplate (templateId t) nm desc (issuer t) (createdAt t) (active t)) s).

Definition set_active (b : bool) (t : Template) : Template :=
  mkTemplate (templateId t) (name t) (description t) (issuer t) (createdAt t) b.

Definition deactivateTemplate (e : Env) (id : uint256) (s : state)
    : result state :=
  templateExists id s;;
  onlyTemplateIssuer e id s;;
  whenNotPaused s;;
  require (active (templateAt s id)) "SBTTemplate: template already inactive";;
  Ok (set_template id (set_active false (templateAt s id)) s).

Definition reactivateTemplate (e : Env) (id : uint256) (s : state)
    : result state :=
  templateExists id s;;
  onlyTemplateIssuer e id s;;
  whenNotPaused s;;
  require (negb (active (templateAt s id)))
          "SBTTemplate: template already active";;
  Ok (set_template id (set_active true (templateAt s id)) s).

Definition getTemplate (id : uint256) (s : state) : result Template :=
  templateExists id s;;
  Ok (templateAt s id).

Definition getIssuerTemplates (s : state) (a : address) : list uint256 :=
  default [] (issuerTemplates s !! a).

Definition getTotalTemplates (s : state) : uint256 := _templateIdCounter s.

Definition isTemplateActive (s : state) (id : uint256) : bool :=
  if (_templateIdCounter s <? id) || (id =? 0) then false
  else active (templateAt s id).

Definition pause (e : Env) (s : state) : result state :=
  onlyOwner e s;;
  whenNotPaused s;;
  Ok (set_paused true s).

Definition unpause (e : Env) (s : state) : result state :=
  onlyOwner e s;;
  whenPaused s;;
  Ok (set_paused false s).

(** [transferOwnership] and [renounceOwnership], which the contract
    inherits from OpenZeppelin's [Ownable] and does not override. *)
Definition set_owner (a : address) (s : state) : state :=
  mkState a (paused s) (_templateIdCounter s) (templates s) (issuerTemplates s).

Definition transferOwnership (e : Env) (newOwner : address) (s : state)
    : result state :=
  onlyOwner e s;;
  require (negb (newOwner =? 0)) "OwnableInvalidOwner";;
  Ok (set_owner newOwner s).

Definition renounceOwnership (e : Env) (s : state) : result state :=
  onlyOwner e s;;
  Ok (set_owner 0 s).

End SBTTemplate.

(** ** SBTSession *)

(** [keccak256(abi.encodePacked(msg.sender, templateId, maxMints,
    endTimestamp, title, block.timestamp, block.prevrandao, _sessionNonce))]
    as a function of the eight packed values. *)
Definition SessionHash : Type :=
  address -> uint256 -> uint256 -> uint256 -> string ->
  uint256 -> uint256 -> uint256 -> bytes32.

Module SBTSession.

Record Session := mkSession {
  sessionId : bytes32;
  templateId : uint256;
  maxMints : uint256;
  currentMints : uint256;
  endTimestamp : uint256;
  issuer : address;
  active : bool;
  title : string
}.

Definition noSession : Session := mkSession 0 0 0 0 0 0 false EmptyString.

(** The [hasClaimed] mapping of the contract is declared but written by
    no function, so it is left out. *)
Record state := mkState {
  owner : address;
  paused : bool;
  sessions : gmap N Session;
  issuerSessions : gmap N (list bytes32);
  _sessionNonce : uint256;
  sbtTokenContract : address
}.

(** [sessions[id]] *)
Definition sessionAt (s : state) (id : bytes32) : Session :=
  default noSession (sessions s !! id).

Definition set_paused (b : bool) (s : state) : state :=
  mkState (owner s) b (sessions s) (issuerSessions s) (_sessionNonce s)
          (sbtTokenContract s).

Definition set_session (id : bytes32) (x : Session) (s : state) : state :=
  mkState (owner s) (paused s) (<[id := x]> (sessions s)) (issuerSessions s)
          (_sessionNonce s) (sbtTokenContract s).

Definition set_nonce (n : uint256) (s : state) : state :=
  mkState (owner s) (paused s) (sessions s) (issuerSessions s) n
          (sbtTokenContract s).

Definition onlyOwner (e : Env) (s : state) : result unit :=
  require (msg_sender e =? owner s) "OwnableUnauthorizedAccount".

Definition whenNotPaused (s : state) : result unit :=
  require (negb (paused s)) "EnforcedPause".

Definition whenPaused (s : state) : result unit :=
  require (paused s) "ExpectedPause".

Definition onlyAuthorizedIssuer (e : Env) (reg : IssuerRegistry.state)
    : result unit :=
  require (IssuerRegistry.isAuthorizedIssuer reg (msg_sender e))
          "SBTSession: caller is not an authorized issuer".

Definition sessionExists (id : bytes32) (s : state) : result unit :=
  require (negb (issuer (sessionAt s id) =? 0))
          "SBTSession: session does not exist".

Definition onlySessionIssuer (e : Env) (id : bytes32) (s : state)
    : result unit :=
  require (issuer (sessionAt s id) =? msg_sender e)
          "SBTSession: not session issuer".

Definition onlySBTToken (e : Env) (s : state) : result unit :=
  require (msg_sender e =? sbtTokenContract s)
          "SBTSession: caller is not the SBT token contract".

(** [constructor(...) Ownable(msg.sender)] *)
Definition constructor (e : Env) : result state :=
  require (negb (msg_sender e =? 0)) "OwnableInvalidOwner";;
  Ok (mkState (msg_sender e) false ∅ ∅ 0 0).

Definition setSBTTokenContract (e : Env) (_sbtTokenContract : address)
    (s : state) : result state :=
  onlyOwner e s;;
  require (negb (_sbtTokenContract =? 0))
          "SBTSession: invalid SBT token contract address";;
  Ok (mkState (owner s) (paused s) (sessions s) (issuerSessions s)
        (_sessionNonce s) _sbtTokenContract).

Section SessionIds.

Variable keccak256_packed : SessionHash.

Definition generateUniqueSessionId (e : Env) (tid mx endTs : uint256)
    (ttl : string) (s : state) : result (state * bytes32) :=
  nonce ← checked_add (_sessionNonce s) 1;
  Ok (set_nonce nonce s,
      keccak256_packed (msg_sender e) tid mx endTs ttl
        (block_timestamp e) (block_prevrandao e) nonce).

Definition createSession (e : Env) (reg : IssuerRegistry.state)
    (tpl : SBTTemplate.state) (tid mx durationInSeconds : uint256)
    (ttl : string) (s : state) : result (state * bytes32) :=
  onlyAuthorizedIssuer e reg;;
  whenNotPaused s;;
  require (SBTTemplate.isTemplateActive tpl tid)
          "SBTSession: template is not active";;
  require (0 <? mx) "SBTSession: max mints must be greater than 0";;
  require (0 <? durationInSeconds)
          "SBTSession: duration must be greater than 0";;
  template ← SBTTemplate.getTemplate tid tpl;
  require (SBTTemplate.issuer template =? msg_sender e)
          "SBTSession: not template owner";;
  endTs ← checked_add (block_timestamp e) durationInSeconds;
  '(s1, sid) ← generateUniqueSessionId e tid mx endTs ttl s;
  require (issuer (sessionAt s1 sid) =? 0)
          "SBTSession: session ID collision";;
  let s2 := set_session sid
              (mkSession sid tid mx 0 endTs (msg_sender e) true ttl) s1 in
  Ok (mkState (owner s2) (paused s2) (sessions s2)
        (<[msg_sender e :=
             (default [] (issuerSessions s2 !! msg_sender e) ++ [sid])%list]>
           (issuerSessions s2))
        (_sessionNonce s2) (sbtTokenContract s2),
      sid).

End SessionIds.

Definition set_currentMints (n : uint256) (x : Session) : Session :=
  mkSession (sessionId x) (templateId x) (maxMints x) n (endTimestamp x)
            (issuer x) (active x) (title x).

Definition set_active (b : bool) (x : Session) : Session :=
  mkSession (sessionId x) (templateId x) (maxMints x) (currentMints x)
            (endTimestamp x) (issuer x) b (title x).

(** [sessions[sessionId].currentMints++] behind [onlySBTToken] and
    [sessionExists]; there is no capacity check and no pause check. *)
Definition incrementMintCount (e : Env) (id : bytes32) (s : state)
    : result state :=
  onlySBTToken e s;;
  sessionExists id s;;
  n ← checked_add (currentMints (sessionAt s id)) 1;
  Ok (set_session id (set_currentMints n (sessionAt s id)) s).

Definition endSession (e : Env) (id : bytes32) (s : state) : result state :=
  sessionExists id s;;
  onlySessionIssuer e id s;;
  whenNotPaused s;;
  require (active (sessionAt s id)) "SBTSession: session already ended";;
  Ok (set_session id (set_active false (sessionAt s id)) s).

Definition getSession (id : bytes32) (s : state) : result Session :=
  sessionExists id s;;
  Ok (sessionAt s id).

Definition getIssuerSessions (s : state) (a : address) : list bytes32 :=
  default [] (issuerSessions s !! a).

Definition isSessionClaimable (e : Env) (id : bytes32) (s : state) : bool :=
  if issuer (sessionAt s id) =? 0 then false
  else if negb (active (sessionAt s id)) then false
  else if endTimestamp (sessionAt s id) <? block_timestamp e then false
  else if maxMints (sessionAt s id) <=? currentMints (sessionAt s id) then false
  else true.

(** Returns [(currentMints, maxMints, remainingMints, timeRemaining)]. *)
Definition getSessionStats (e : Env) (id : bytes32) (s : state)
    : result (uint256 * uint256 * uint256 * uint256) :=
  sessionExists id s;;
  let x := sessionAt s id in
  Ok (currentMints x,
      maxMints x,
      (if currentMints x <? maxMints x
       then maxMints x - currentMints x else 0),
      (if block_timestamp e <? endTimestamp x
       then endTimestamp x - block_timestamp e else 0)).

Definition pause (e : Env) (s : state) : result state :=
  onlyOwner e s;;
  whenNotPaused s;;
  Ok (set_paused true s).

Definition unpause (e : Env) (s : state) : result state :=
  onlyOwner e s;;
  whenPaused s;;
  Ok (set_paused false s).

(** [transferOwnership] and [renounceOwnership], which the contract
    inherits from OpenZeppelin's [Ownable] and does not override. *)
Definition set_owner (a : address) (s : state) : state :=
  mkState a (paused s) (sessions s) (issuerSessions s) (_sessionNonce s)
          (sbtTokenContract s).

Definition transferOwnership (e : Env) (newOwner : address) (s : state)
    : result state :=
  onlyOwner e s;;
  require (negb (newOwner =? 0)) "OwnableInvalidOwner";;
  Ok (set_owner newOwner s).

Definition renounceOwnership (e : Env) (s : state) : result state :=
  onlyOwner e s;;
  Ok (set_owner 0 s).

End SBTSession.

(** ** SBTToken *)

Module SBTToken.

Record SBTData := mkSBTData {
  name : string;
  description : string;
  issuer : address;
  mintedAt : uint256;
  templateId : uint256;
  sessionId : bytes32;
  revoked : bool
}.

Definition noData : SBTData := mkSBTData EmptyString EmptyString 0 0 0 0 false.

(** [_owners] is the owner table of [ERC721]. *)
Record state := mkState {
  owner : address;
  paused : bool;
  _nextTokenId : uint256;
  sbtData : gmap N SBTData;
  hasTokenFromTemplate : gset (N * N);
  hasTokenFromSession : gset (N * N);
  _owners : gmap N N
}.

(** [sbtData[id]] *)
Definition dataAt (s : state) (id : uint256) : SBTData :=
  default noData (sbtData s !! id).

Definition _ownerOf (s : state) (id : uint256) : address :=
  default 0 (_owners s !! id).

Definition set_paused (b : bool) (s : state) : state :=
  mkState (owner s) b (_nextTokenId s) (sbtData s) (hasTokenFromTemplate s)
          (hasTokenFromSession s) (_owners s).

Definition set_nextTokenId (n : uint256) (s : state) : state :=
  mkState (owner s) (paused s) n (sbtData s) (hasTokenFromTemplate s)
          (hasTokenFromSession s) (_owners s).

Definition set_sbtData (id : uint256) (d : SBTData) (s : state) : state :=
  mkState (owner s) (paused s) (_nextTokenId s) (<[id := d]> (sbtData s))
          (hasTokenFromTemplate s) (hasTokenFromSession s) (_owners s).

(** [hasTokenFromTemplate[a][t] = b] *)
Definition set_hasTokenFromTemplate (a : address) (t : uint256) (b : bool)
    (s : state) : state :=
  mkState (owner s) (paused s) (_nextTokenId s) (sbtData s)
          (if b then {[ (a, t) ]} ∪ hasTokenFromTemplate s
           else hasTokenFromTemplate s ∖ {[ (a, t) ]})
          (hasTokenFromSession s) (_owners s).

(** [hasTokenFromSession[a][sid] = b] *)
Definition set_hasTokenFromSession (a : address) (sid : bytes32) (b : bool)
    (s : state) : state :=
  mkState (owner s) (paused s) (_nextTokenId s) (sbtData s)
          (hasTokenFromTemplate s)
          (if b then {[ (a, sid) ]} ∪ hasTokenFromSession s
           else hasTokenFromSession s ∖ {[ (a, sid) ]})
          (_owners s).

Definition set_owner_of (id : uint256) (a : address) (s : state) : state :=
  mkState (owner s) (paused s) (_nextTokenId s) (sbtData s)
          (hasTokenFromTemplate s) (hasTokenFromSession s)
          (<[id := a]> (_owners s)).

Definition onlyOwner (e : Env) (s : state) : result unit :=
  require (msg_sender e =? owner s) "OwnableUnauthorizedAccount".

Definition whenNotPaused (s : state) : result unit :=
  require (negb (paused s)) "EnforcedPause".

Definition whenPaused (s : state) : result unit :=
  require (paused s) "ExpectedPause".

Definition onlyAuthorizedIssuer (e : Env) (reg : IssuerRegistry.state)
    : result unit :=
  require (IssuerRegistry.isAuthorizedIssuer reg (msg_sender e))
          "SBTToken: Not an authorized issuer".

Definition validToken (id : uint256) (s : state) : result unit :=
  require (negb (_ownerOf s id =? 0)) "SBTToken: Token does not exist";;
  require (negb (revoked (dataAt s id))) "SBTToken: Token has been revoked".

(** [constructor(_owner, ...) ERC721(...) Ownable(_owner)]. The three
    contract references are fixed by the deployment; the checks that
    they are not the zero address are about that wiring and left out. *)
Definition constructor (_owner : address) : result state :=
  require (negb (_owner =? 0)) "OwnableInvalidOwner";;
  Ok (mkState _owner false 1 ∅ ∅ ∅ ∅).

(** The overridden [_update]: only minting and burning pass. It returns
    the previous owner. *)
Definition _update (to : address) (id : uint256) (s : state)
    : result (state * address) :=
  let from := _ownerOf s id in
  if negb (from =? 0) && negb (to =? 0)
  then Revert "SBTToken: Soulbound tokens cannot be transferred"
  else Ok (set_owner_of id to s, from).

(** [_safeMint(to, id)] of [ERC721]: [_mint], then the receiver check. *)
Definition _safeMint (e : Env) (to : address) (id : uint256) (s : state)
    : result state :=
  require (negb (to =? 0)) "ERC721InvalidReceiver";;
  '(s1, previousOwner) ← _update to id s;
  require (previousOwner =? 0) "ERC721InvalidSender";;
  require (receiver_accepts e to) "ERC721InvalidReceiver";;
  Ok s1.

Definition mintFromTemplate (e : Env) (reg : IssuerRegistry.state)
    (tpl : SBTTemplate.state) (to : address) (tid : uint256) (s : state)
    : result state :=
  onlyAuthorizedIssuer e reg;;
  whenNotPaused s;;
  require (negb (to =? 0)) "SBTToken: Cannot mint to zero address";;
  require (SBTTemplate.isTemplateActive tpl tid)
          "SBTToken: Template is not active";;
  require (negb (bool_decide ((to, tid) ∈ hasTokenFromTemplate s)))
          "SBTToken: User already has token from this template";;
  template ← SBTTemplate.getTemplate tid tpl;
  require (SBTTemplate.issuer template =? msg_sender e)
          "SBTToken: Not template owner";;
  let tokenId := _nextTokenId s in
  next ← checked_add tokenId 1;
  s1 ← _safeMint e to tokenId (set_nextTokenId next s);
  let s2 := set_sbtData tokenId
              (mkSBTData (SBTTemplate.name template)
                 (SBTTemplate.description template) (msg_sender e)
                 (block_timestamp e) tid 0 false) s1 in
  Ok (set_hasTokenFromTemplate to tid true s2).

Definition mintFromSession (e : Env) (self : address)
    (reg : IssuerRegistry.state) (tpl : SBTTemplate.state)
    (to : address) (sid : bytes32) (st : SBTSession.state * state)
    : result (SBTSession.state * state) :=
  let '(ses, s) := st in
  onlyAuthorizedIssuer e reg;;
  whenNotPaused s;;
  require (negb (to =? 0)) "SBTToken: Cannot mint to zero address";;
  require (SBTSession.isSessionClaimable e sid ses)
          "SBTToken: Session is not claimable";;
  require (negb (bool_decide ((to, sid) ∈ hasTokenFromSession s)))
          "SBTToken: User already has token from this session";;
  session ← SBTSession.getSession sid ses;
  require (SBTSession.issuer session =? msg_sender e)
          "SBTToken: Not session owner";;
  template ← SBTTemplate.getTemplate (SBTSession.templateId session) tpl;
  let tokenId := _nextTokenId s in
  next ← checked_add tokenId 1;
  s1 ← _safeMint e to tokenId (set_nextTokenId next s);
  let s2 := set_sbtData tokenId
              (mkSBTData (SBTTemplate.name template)
                 (SBTTemplate.description template) (msg_sender e)
                 (block_timestamp e) (SBTSession.templateId session) sid
                 false) s1 in
  let s3 := set_hasTokenFromSession to sid true s2 in
  let s4 := set_hasTokenFromTemplate to (SBTSession.templateId session)
              true s3 in
  ses1 ← SBTSession.incrementMintCount (as_sender self e) sid ses;
  Ok (ses1, s4).

(** The first loop of [batchMintFromSession], one iteration per
    recipient. *)
Fixpoint batchMint_loop (e : Env) (template : SBTTemplate.Template)
    (session : SBTSession.Session) (sid : bytes32)
    (recipients : list address) (s : state) : result state :=
  match recipients with
  | [] => Ok s
  | to :: rest =>
      require (negb (to =? 0)) "SBTToken: Cannot mint to zero address";;
      require (negb (bool_decide ((to, sid) ∈ hasTokenFromSession s)))
              "SBTToken: User already has token from this session";;
      let tokenId := _nextTokenId s in
      next ← checked_add tokenId 1;
      s1 ← _safeMint e to tokenId (set_nextTokenId next s);
      let s2 := set_sbtData tokenId
                  (mkSBTData (SBTTemplate.name template)
                     (SBTTemplate.description template) (msg_sender e)
                     (block_timestamp e) (SBTSession.templateId session)
                     sid false) s1 in
      let s3 := set_hasTokenFromSession to sid true s2 in
      let s4 := set_hasTokenFromTemplate to
                  (SBTSession.templateId session) true s3 in
      batchMint_loop e template session sid rest s4
  end.

(** The second loop: one [incrementMintCount] call per recipient. *)
Fixpoint increment_loop (e : Env) (self : address) (sid : bytes32)
    (n : nat) (ses : SBTSession.state) : result SBTSession.state :=
  match n with
  | O => Ok ses
  | S k =>
      ses1 ← SBTSession.incrementMintCount (as_sender self e) sid ses;
      increment_loop e self sid k ses1
  end.

Definition batchMintFromSession (e : Env) (self : address)
    (reg : IssuerRegistry.state) (tpl : SBTTemplate.state)
    (recipients : list address) (sid : bytes32)
    (st : SBTSession.state * state) : result (SBTSession.state * state) :=
  let '(ses, s) := st in
  onlyAuthorizedIssuer e reg;;
  whenNotPaused s;;
  require (0 <? N.of_nat (length recipients))
          "SBTToken: Empty recipients array";;
  require (N.of_nat (length recipients) <=? 100)
          "SBTToken: Batch size too large";;
  require (SBTSession.isSessionClaimable e sid ses)
          "SBTToken: Session is not claimable";;
  session ← SBTSession.getSession sid ses;
  require (SBTSession.issuer session =? msg_sender e)
          "SBTToken: Not session owner";;
  '(currentMints, maxMints, _, _) ← SBTSession.getSessionStats e sid ses;
  total ← checked_add currentMints (N.of_nat (length recipients));
  require (total <=? maxMints) "SBTToken: Exceeds session mint limit";;
  template ← SBTTemplate.getTemplate (SBTSession.templateId session) tpl;
  s1 ← batchMint_loop e template session sid recipients s;
  ses1 ← increment_loop e self sid (length recipients) ses;
  Ok (ses1, s1).

Definition claimFromSession (e : Env) (self : address)
    (tpl : SBTTemplate.state) (sid : bytes32)
    (st : SBTSession.state * state) : result (SBTSession.state * state) :=
  let '(ses, s) := st in
  whenNotPaused s;;
  require (SBTSession.isSessionClaimable e sid ses)
          "SBTToken: Session is not claimable";;
  require (negb (bool_decide ((msg_sender e, sid) ∈ hasTokenFromSession s)))
          "SBTToken: User already has token from this session";;
  session ← SBTSession.getSession sid ses;
  template ← SBTTemplate.getTemplate (SBTSession.templateId session) tpl;
  let tokenId := _nextTokenId s in
  next ← checked_add tokenId 1;
  s1 ← _safeMint e (msg_sender e) tokenId (set_nextTokenId next s);
  let s2 := set_sbtData tokenId
              (mkSBTData (SBTTemplate.name template)
                 (SBTTemplate.description template)
                 (SBTSession.issuer session)
                 (block_timestamp e) (SBTSession.templateId session) sid
                 false) s1 in
  let s3 := set_hasTokenFromSession (msg_sender e) sid true s2 in
  let s4 := set_hasTokenFromTemplate (msg_sender e)
              (SBTSession.templateId session) true s3 in
  ses1 ← SBTSession.incrementMintCount (as_sender self e) sid ses;
  Ok (ses1, s4).

Definition set_revoked (b : bool) (d : SBTData) : SBTData :=
  mkSBTData (name d) (description d) (issuer d) (mintedAt d) (templateId d)
            (sessionId d) b.

Definition revokeSBT (e : Env) (tokenId : uint256) (s : state)
    : result state :=
  validToken tokenId s;;
  whenNotPaused s;;
  require ((msg_sender e =? issuer (dataAt s tokenId))
           || (msg_sender e =? owner s))
          "SBTToken: Not authorized to revoke";;
  let tokenOwner := _ownerOf s tokenId in
  let tid := templateId (dataAt s tokenId) in
  let sid := sessionId (dataAt s tokenId) in
  let s1 := set_sbtData tokenId (set_revoked true (dataAt s tokenId)) s in
  let s2 := set_hasTokenFromTemplate tokenOwner tid false s1 in
  Ok (if negb (sid =? 0)
      then set_hasTokenFromSession tokenOwner sid false s2
      else s2).

Definition getSBTInfo (tokenId : uint256) (s : state) : result SBTData :=
  require (negb (_ownerOf s tokenId =? 0)) "SBTToken: Token does not exist";;
  Ok (dataAt s tokenId).

(** Returns [(name, description, issuer, mintedAt, revoked)]. *)
Definition getSBTBasicInfo (tokenId : uint256) (s : state)
    : result (string * string * address * uint256 * bool) :=
  require (negb (_ownerOf s tokenId =? 0)) "SBTToken: Token does not exist";;
  let data := dataAt s tokenId in
  Ok (name data, description data, issuer data, mintedAt data, revoked data).

Definition getNextTokenId (s : state) : uint256 := _nextTokenId s.

Definition pause (e : Env) (s : state) : result state :=
  onlyOwner e s;;
  whenNotPaused s;;
  Ok (set_paused true s).

Definition unpause (e : Env) (s : state) : result state :=
  onlyOwner e s;;
  whenPaused s;;
  Ok (set_paused false s).

(** [transferOwnership] and [renounceOwnership], which the contract
    inherits from OpenZeppelin's [Ownable] and does not override. *)
Definition set_owner (a : address) (s : state) : state :=
  mkState a (paused s) (_nextTokenId s) (sbtData s) (hasTokenFromTemplate s)
          (hasTokenFromSession s) (_owners s).

Definition transferOwnership (e : Env) (newOwner : address) (s : state)
    : result state :=
  onlyOwner e s;;
  require (negb (newOwner =? 0)) "OwnableInvalidOwner";;
  Ok (set_owner newOwner s).

Definition renounceOwnership (e : Env) (s : state) : result state :=
  onlyOwner e s;;
  Ok (set_owner 0 s).

End SBTToken.

(** ** The deployed system *)

(** The four contracts and the address of the [SBTToken] contract, which
    is the [msg.sender] that [SBTSession] sees when the ledger calls it. *)
Record World := mkWorld {
  registry : IssuerRegistry.state;
  template : SBTTemplate.state;
  session : SBTSession.state;
  token : SBTToken.state;
  token_address : address
}.

(** The state-changing entry points for issuers and holders, and the
    pause switches. The owners' re-configuration calls are the
    [OwnerCall]s further down. *)
Inductive Call : Type :=
| AddIssuer (issuer : address) (name organization : string)
| RemoveIssuer (issuer : address)
| UpdateIssuer (issuer : address) (name organization : string)
| RegistryPause
| RegistryUnpause
| CreateTemplate (name description : string)
| UpdateTemplate (templateId : uint256) (name description : string)
| DeactivateTemplate (templateId : uint256)
| ReactivateTemplate (templateId : uint256)
| TemplatePause
| TemplateUnpause
| CreateSession (templateId maxMints durationInSeconds : uint256)
    (title : string)
| IncrementMintCount (sessionId : bytes32)
| EndSession (sessionId : bytes32)
| SessionPause
| SessionUnpause
| MintFromTemplate (to : address) (templateId : uint256)
| MintFromSession (to : address) (sessionId : bytes32)
| BatchMintFromSession (recipients : list address) (sessionId : bytes32)
| ClaimFromSession (sessionId : bytes32)
| RevokeSBT (tokenId : uint256)
| TokenPause
| TokenUnpause.

(** Arguments of type [uint256] fit in 256 bits. *)
Definition call_typed (c : Call) : bool :=
  match c with
  | UpdateTemplate t _ _ | DeactivateTemplate t | ReactivateTemplate t
  | MintFromTemplate _ t | RevokeSBT t => t <=? MAX_UINT256
  | CreateSession t m d _ =>
      (t <=? MAX_UINT256) && (m <=? MAX_UINT256) && (d <=? MAX_UINT256)
  | _ => true
  end.

Definition with_registry (w : World) (r : IssuerRegistry.state) : World :=
  mkWorld r (template w) (session w) (token w) (token_address w).

Definition with_template (w : World) (t : SBTTemplate.state) : World :=
  mkWorld (registry w) t (session w) (token w) (token_address w).

Definition with_session (w : World) (s : SBTSession.state) : World :=
  mkWorld (registry w) (template w) s (token w) (token_address w).

Definition with_token (w : World) (t : SBTToken.state) : World :=
  mkWorld (registry w) (template w) (session w) t (token_address w).

Definition with_ledger (w : World) (st : SBTSession.state * SBTToken.state)
    : World :=
  mkWorld (registry w) (template w) (fst st) (snd st) (token_address w).

Section System.

Variable keccak256_packed : SessionHash.

(** One external call by [msg_sender e] at block time [block_timestamp e]. *)
Definition exec (e : Env) (c : Call) (w : World) : result World :=
  match c with
  | AddIssuer i n o =>
      with_registry w <$> IssuerRegistry.addIssuer e i n o (registry w)
  | RemoveIssuer i =>
      with_registry w <$> IssuerRegistry.removeIssuer e i (registry w)
  | UpdateIssuer i n o =>
      with_registry w <$> IssuerRegistry.updateIssuer e i n o (registry w)
  | RegistryPause => with_registry w <$> IssuerRegistry.pause e (registry w)
  | RegistryUnpause =>
      with_registry w <$> IssuerRegistry.unpause e (registry w)
  | CreateTemplate n d =>
      (fun r => with_template w (fst r)) <$>
        SBTTemplate.createTemplate e (registry w) n d (template w)
  | UpdateTemplate t n d =>
      with_template w <$> SBTTemplate.updateTemplate e t n d (template w)
  | DeactivateTemplate t =>
      with_template w <$> SBTTemplate.deactivateTemplate e t (template w)
  | ReactivateTemplate t =>
      with_template w <$> SBTTemplate.reactivateTemplate e t (template w)
  | TemplatePause => with_template w <$> SBTTemplate.pause e (template w)
  | TemplateUnpause => with_template w <$> SBTTemplate.unpause e (template w)
  | CreateSession t m d ttl =>
      (fun r => with_session w (fst r)) <$>
        SBTSession.createSession keccak256_packed e (registry w)
          (template w) t m d ttl (session w)
  | IncrementMintCount sid =>
      with_session w <$> SBTSession.incrementMintCount e sid (session w)
  | EndSession sid =>
      with_session w <$> SBTSession.endSession e sid (session w)
  | SessionPause => with_session w <$> SBTSession.pause e (session w)
  | SessionUnpause => with_session w <$> SBTSession.unpause e (session w)
  | MintFromTemplate to t =>
      with_token w <$>
        SBTToken.mintFromTemplate e (registry w) (template w) to t (token w)
  | MintFromSession to sid =>
      with_ledger w <$>
        SBTToken.mintFromSession e (token_address w) (registry w)
          (template w) to sid (session w, token w)
  | BatchMintFromSession rs sid =>
      with_ledger w <$>
        SBTToken.batchMintFromSession e (token_address w) (registry w)
          (template w) rs sid (session w, token w)
  | ClaimFromSession sid =>
      with_ledger w <$>
        SBTToken.claimFromSession e (token_address w) (template w) sid
          (session w, token w)
  | RevokeSBT id => with_token w <$> SBTToken.revokeSBT e id (token w)
  | TokenPause => with_token w <$> SBTToken.pause e (token w)
  | TokenUnpause => with_token w <$> SBTToken.unpause e (token w)
  end.

(** The state after a transaction: a reverted call leaves no trace. *)
Definition transact (e : Env) (c : Call) (w : World) : World :=
  match exec e c w with
  | Ok w' => w'
  | Revert _ => w
  end.

(** A sequence of calls, each of which has to succeed. *)
Fixpoint run (calls : list (Env * Call)) (w : World) : result World :=
  match calls with
  | [] => Ok w
  | (e, c) :: rest => w1 ← exec e c w; run rest w1
  end.

(** Deployment as the deploy script performs it: the four constructors,
    then [setSBTTokenContract] with the address of the ledger. The
    deployer owns [SBTTemplate] and [SBTSession]; the owners of the
    registry and of the ledger are constructor arguments. *)
Definition deploy (e : Env) (registryOwner tokenOwner tokenAddress : address)
    : result World :=
  reg ← IssuerRegistry.constructor e registryOwner;
  tpl ← SBTTemplate.constructor e;
  ses ← SBTSession.constructor e;
  tok ← SBTToken.constructor tokenOwner;
  ses1 ← SBTSession.setSBTTokenContract e tokenAddress ses;
  Ok (mkWorld reg tpl ses1 tok tokenAddress).

(** The states the deployed system gets to by the calls of [Call], that
    is for as long as no owner re-points [sbtTokenContract] or passes
    ownership on (those calls are followed by [reaches]). Calls come
    from accounts other than the ledger contract itself, whose only
    calls are the ones inside its mint paths. *)
Inductive reachable : World -> Prop :=
| reachable_deploy e ro to ta w :
    deploy e ro to ta = Ok w -> reachable w
| reachable_step w e c w' :
    reachable w ->
    msg_sender e <> token_address w ->
    call_typed c = true ->
    exec e c w = Ok w' ->
    reachable w'.

End System.

(** ** Invariants of the reachable states *)

(** The owner of the registry is an authorized issuer. *)
Definition admin_ok (s : IssuerRegistry.state) : Prop :=
  IssuerRegistry.isAuthorizedIssuer s (IssuerRegistry.owner s) = true.

(** A stored session is within its capacity and refers to a template that
    was created. *)
Definition session_ok (counter : uint256) (x : SBTSession.Session) : Prop :=
  SBTSession.currentMints x <= SBTSession.maxMints x /\
  SBTSession.maxMints x <= MAX_UINT256 /\
  0 < SBTSession.templateId x /\
  SBTSession.templateId x <= counter.

Definition sessions_ok (tpl : SBTTemplate.state) (ses : SBTSession.state)
    : Prop :=
  forall sid x,
    SBTSession.sessions ses !! sid = Some x ->
    session_ok (SBTTemplate._templateIdCounter tpl) x.

(** Token ids from [_nextTokenId] on have no owner yet. *)
Definition fresh_ok (tok : SBTToken.state) : Prop :=
  forall id, SBTToken._nextTokenId tok <= id -> SBTToken._owners tok !! id = None.

Record wf (w : World) : Prop := mk_wf {
  wf_admin : admin_ok (registry w);
  wf_wired : SBTSession.sbtTokenContract (session w) = token_address w;
  wf_sessions : sessions_ok (template w) (session w);
  wf_fresh : fresh_ok (token w)
}.

(** ** The net effect of issuing one token

    The four mint paths repeat the same writes; these definitions name
    their result so that the lemmas on the paths can state it. *)

(** What [_nextTokenId++] and [_safeMint] need in order to pass. *)
Definition can_issue (e : Env) (to : address) (s : SBTToken.state) : Prop :=
  to <> 0 /\
  SBTToken._nextTokenId s + 1 <= MAX_UINT256 /\
  SBTToken._ownerOf s (SBTToken._nextTokenId s) = 0 /\
  receiver_accepts e to = true.

(** Token [_nextTokenId s] goes to [to] with record [d], and the
    (owner, template) marker is set. *)
Definition issued (to : address) (d : SBTToken.SBTData) (s : SBTToken.state)
    : SBTToken.state :=
  let id := SBTToken._nextTokenId s in
  SBTToken.set_hasTokenFromTemplate to (SBTToken.templateId d) true
    (SBTToken.set_sbtData id d
       (SBTToken.set_owner_of id to (SBTToken.set_nextTokenId (id + 1) s))).

(** The same through a session: the (owner, session) marker is set too. *)
Definition session_issued (to : address) (d : SBTToken.SBTData)
    (s : SBTToken.state) : SBTToken.state :=
  let id := SBTToken._nextTokenId s in
  SBTToken.set_hasTokenFromTemplate to (SBTToken.templateId d) true
    (SBTToken.set_hasTokenFromSession to (SBTToken.sessionId d) true
       (SBTToken.set_sbtData id d
          (SBTToken.set_owner_of id to (SBTToken.set_nextTokenId (id + 1) s)))).

(** The record a session mint writes: the template text as it is now. *)
Definition session_record (e : Env) (tpl : SBTTemplate.state)
    (x : SBTSession.Session) (sid : bytes32) (iss : address)
    : SBTToken.SBTData :=
  let t := SBTTemplate.templateAt tpl (SBTSession.templateId x) in
  SBTToken.mkSBTData (SBTTemplate.name t) (SBTTemplate.description t) iss
    (block_timestamp e) (SBTSession.templateId x) sid false.

(** The session after [n] more mints were counted. *)
Definition counted (n : uint256) (sid : bytes32) (ses : SBTSession.state)
    : SBTSession.state :=
  SBTSession.set_session sid
    (SBTSession.set_currentMints
       (SBTSession.currentMints (SBTSession.sessionAt ses sid) + n)
       (SBTSession.sessionAt ses sid)) ses.

(** The record a batch writes for every recipient. *)
Definition batch_record (e : Env) (t : SBTTemplate.Template)
    (x : SBTSession.Session) (sid : bytes32) : SBTToken.SBTData :=
  SBTToken.mkSBTData (SBTTemplate.name t) (SBTTemplate.description t)
    (msg_sender e) (block_timestamp e) (SBTSession.templateId x) sid false.

(** The ledger after one token per recipient was issued, in order. *)
Definition batch_issued (recipients : list address) (d : SBTToken.SBTData)
    (s : SBTToken.state) : SBTToken.state :=
  foldl (fun acc to => session_issued to d acc) s recipients.

(** What the first loop of a batch needs of each recipient. *)
Definition batch_recipient_ok (e : Env) (sid : bytes32) (s : SBTToken.state)
    (to : address) : Prop :=
  to <> 0 /\ ((to, sid) ∉ SBTToken.hasTokenFromSession s) /\
  receiver_accepts e to = true.

(** ** Notions used in the statements *)

(** Token [id] is a non-revoked token of template [tid] held by [o]. *)
Definition live_token (w : World) (o : address) (tid id : uint256) : Prop :=
  SBTToken._ownerOf (token w) id = o /\
  SBTToken.templateId (SBTToken.dataAt (token w) id) = tid /\
  SBTToken.revoked (SBTToken.dataAt (token w) id) = false.

(** No account holds two non-revoked tokens of one template. *)
Definition unique_per_template (w : World) : Prop :=
  forall o tid id1 id2,
    o <> 0 -> live_token w o tid id1 -> live_token w o tid id2 -> id1 = id2.

(** The four mint paths. *)
Definition is_mint (c : Call) : bool :=
  match c with
  | MintFromTemplate _ _ | MintFromSession _ _ | BatchMintFromSession _ _
  | ClaimFromSession _ => true
  | _ => false
  end.

(** Each contract inherits its own [Pausable] flag. *)
Inductive Component : Type := Registry | Templates | Sessions | Ledger.

Definition component_paused (k : Component) (w : World) : bool :=
  match k with
  | Registry => IssuerRegistry.paused (registry w)
  | Templates => SBTTemplate.paused (template w)
  | Sessions => SBTSession.paused (session w)
  | Ledger => SBTToken.paused (token w)
  end.

(** The component whose [whenNotPaused] modifier an entry point carries;
    [pause], [unpause] and [incrementMintCount] carry none. *)
Definition guarded_by (c : Call) : option Component :=
  match c with
  | AddIssuer _ _ _ | RemoveIssuer _ | UpdateIssuer _ _ _ => Some Registry
  | CreateTemplate _ _ | UpdateTemplate _ _ _ | DeactivateTemplate _
  | ReactivateTemplate _ => Some Templates
  | CreateSession _ _ _ _ | EndSession _ => Some Sessions
  | MintFromTemplate _ _ | MintFromSession _ _ | BatchMintFromSession _ _
  | ClaimFromSession _ | RevokeSBT _ => Some Ledger
  | RegistryPause | RegistryUnpause | TemplatePause | TemplateUnpause
  | SessionPause | SessionUnpause | TokenPause | TokenUnpause
  | IncrementMintCount _ => None
  end.

(** Calls made by accounts other than the ledger, with typed arguments. *)
Definition external_calls (w : World) (calls : list (Env * Call)) : Prop :=
  Forall (fun ec => msg_sender (fst ec) <> token_address w /\
                    call_typed (snd ec) = true) calls.

(** ** A concrete deployment used in the examples

    Account 1 deploys and owns every contract, the ledger lives at
    address 99, and every recipient passes the receiver check. The packed
    hash is replaced by [1000 + nonce], which is as collision-free as the
    examples need. *)

Module Scenario.

Definition hash : SessionHash := fun _ _ _ _ _ _ _ nonce => 1000 + nonce.

Definition admin : address := 1.
Definition ledger : address := 99.
Definition alice : address := 11.
Definition bob : address := 12.
Definition carol : address := 13.

Definition from (a : address) (now : uint256) : Env :=
  mkEnv a now 0 (fun _ => true).

(** All-zero storage, the value of [exec] results that do not exist. *)
Definition blank : World :=
  mkWorld (IssuerRegistry.mkState 0 false ∅ [] ∅)
          (SBTTemplate.mkState 0 false 0 ∅ ∅)
          (SBTSession.mkState 0 false ∅ ∅ 0 0)
          (SBTToken.mkState 0 false 0 ∅ ∅ ∅ ∅)
          0.

Definition world_of (r : result World) : World :=
  match r with Ok w => w | Revert _ => blank end.

Definition genesis : World := world_of (deploy (from admin 100) admin admin ledger).

(** Template 1 ("Workshop") and a session on it with two places. *)
Definition setup : list (Env * Call) :=
  [ (from admin 101, CreateTemplate "Workshop" "Attended the workshop");
    (from admin 102, CreateSession 1 2 3600 "Morning") ].

Definition sid : bytes32 := 1001.

Definition opened : World := world_of (run hash setup genesis).

(** Alice gets a direct mint, then claims from the session herself. *)
Definition twice : list (Env * Call) :=
  [ (from admin 103, MintFromTemplate alice 1);
    (from alice 104, ClaimFromSession sid) ].

Definition doubled : World := world_of (run hash twice opened).

(** One place of the session is taken. *)
Definition one_left : World :=
  world_of (exec hash (from alice 103) (ClaimFromSession sid) opened).

(** The administrator then revokes Alice's token, which has id 1. *)
Definition revoked : World :=
  world_of (exec hash (from admin 105) (RevokeSBT 1) one_left).

(** Alice gets a direct mint, then the template text is edited. *)
Definition minted : World :=
  world_of (exec hash (from admin 103) (MintFromTemplate alice 1) opened).

Definition edited : World :=
  world_of (exec hash (from admin 104)
              (UpdateTemplate 1 "Seminar" "Attended the seminar") minted).

(** The template is deactivated after the session was opened. *)
Definition deactivated : World :=
  world_of (exec hash (from admin 103) (DeactivateTemplate 1) opened).

(** Bob is made an issuer and removed again. *)
Definition with_bob : World :=
  world_of (exec hash (from admin 101) (AddIssuer bob "Bob" "Guild") genesis).

Definition without_bob : World :=
  world_of (exec hash (from admin 102) (RemoveIssuer bob) with_bob).

(** Only the registry is paused. *)
Definition registry_paused : World :=
  world_of (exec hash (from admin 101) RegistryPause genesis).

End Scenario.

(** ** Notions used by the further properties *)

(** The entries of [issuerAddresses] that are authorized, in the order of
    the array. *)
Definition authorized_entries (s : IssuerRegistry.state) : list address :=
  filter (fun a => IssuerRegistry.isAuthorizedIssuer s a = true)
         (IssuerRegistry.issuerAddresses s).

(** The enumeration array has no repetition, [isInArray] is its set of
    entries, and every authorized address is a non-zero entry of it. *)
Definition registry_ok (s : IssuerRegistry.state) : Prop :=
  NoDup (IssuerRegistry.issuerAddresses s) /\
  (forall a, a ∈ IssuerRegistry.isInArray s <->
             a ∈ IssuerRegistry.issuerAddresses s) /\
  (forall a, IssuerRegistry.isAuthorizedIssuer s a = true ->
             a ∈ IssuerRegistry.issuerAddresses s /\ a <> 0).

(** The [pause] and [unpause] entry points of each contract, and the
    owner they are reserved to. *)
Definition pause_call (k : Component) : Call :=
  match k with
  | Registry => RegistryPause
  | Templates => TemplatePause
  | Sessions => SessionPause
  | Ledger => TokenPause
  end.

Definition unpause_call (k : Component) : Call :=
  match k with
  | Registry => RegistryUnpause
  | Templates => TemplateUnpause
  | Sessions => SessionUnpause
  | Ledger => TokenUnpause
  end.

Definition component_owner (k : Component) (w : World) : address :=
  match k with
  | Registry => IssuerRegistry.owner (registry w)
  | Templates => SBTTemplate.owner (template w)
  | Sessions => SBTSession.owner (session w)
  | Ledger => SBTToken.owner (token w)
  end.


(** Ids [1 .. _templateIdCounter] are stored under their own id with a
    non-zero issuer, nothing is stored outside that range, and the
    per-issuer index lists exactly the ids of the issuer's templates,
    each once. *)
Definition templates_ok (s : SBTTemplate.state) : Prop :=
  (forall id,
     0 < id <= SBTTemplate._templateIdCounter s ->
     exists t,
       SBTTemplate.templates s !! id = Some t /\
       SBTTemplate.templateId t = id /\ SBTTemplate.issuer t <> 0) /\
  (forall id,
     SBTTemplate._templateIdCounter s < id \/ id = 0 ->
     SBTTemplate.templates s !! id = None) /\
  (forall a id,
     id ∈ SBTTemplate.getIssuerTemplates s a <->
     0 < id <= SBTTemplate._templateIdCounter s /\
     SBTTemplate.issuer (SBTTemplate.templateAt s id) = a) /\
  (forall a, NoDup (SBTTemplate.getIssuerTemplates s a)).


(** Every stored session sits under its own id, has a non-zero issuer,
    who is the issuer of its template, and a positive capacity; and the
    per-issuer index lists exactly the stored sessions of the issuer,
    each once. *)
Definition sessions_linked (tpl : SBTTemplate.state) (ses : SBTSession.state)
    : Prop :=
  (forall sid x,
     SBTSession.sessions ses !! sid = Some x ->
     SBTSession.sessionId x = sid /\
     SBTSession.issuer x <> 0 /\
     0 < SBTSession.maxMints x /\
     SBTSession.issuer x =
       SBTTemplate.issuer (SBTTemplate.templateAt tpl (SBTSession.templateId x))) /\
  (forall a sid,
     sid ∈ SBTSession.getIssuerSessions ses a <->
     exists x, SBTSession.sessions ses !! sid = Some x /\ SBTSession.issuer x = a) /\
  (forall a, NoDup (SBTSession.getIssuerSessions ses a)).

(** How a session changes over time: nothing but [currentMints], which
    only grows, and [active], which only falls. *)
Definition session_evolves (x x' : SBTSession.Session) : Prop :=
  SBTSession.sessionId x' = SBTSession.sessionId x /\
  SBTSession.templateId x' = SBTSession.templateId x /\
  SBTSession.maxMints x' = SBTSession.maxMints x /\
  SBTSession.endTimestamp x' = SBTSession.endTimestamp x /\
  SBTSession.issuer x' = SBTSession.issuer x /\
  SBTSession.title x' = SBTSession.title x /\
  SBTSession.currentMints x <= SBTSession.currentMints x' /\
  (SBTSession.active x' = true -> SBTSession.active x = true).


(** ** Further example states *)

Module Examples.

(** The session of [Scenario.opened] is ended by its issuer; later the
    administrator mints template 1 directly to Alice. *)
Definition ended : World :=
  Scenario.world_of
    (exec Scenario.hash (Scenario.from Scenario.admin 103)
       (EndSession Scenario.sid) Scenario.opened).

Definition later : list (Env * Call) :=
  [ (Scenario.from Scenario.admin 104, MintFromTemplate Scenario.alice 1) ].

Definition ended_later : World :=
  Scenario.world_of (run Scenario.hash later ended).

(** Both places of the session are taken, by Alice and by Bob. *)
Definition full : World :=
  Scenario.world_of
    (exec Scenario.hash (Scenario.from Scenario.bob 104)
       (ClaimFromSession Scenario.sid) Scenario.one_left).

End Examples.




(** Token ids are handed out from 1 without gaps: exactly the ids below
    [_nextTokenId] have an owner and a record. *)
Definition ledger_dense (tok : SBTToken.state) : Prop :=
  0 < SBTToken._nextTokenId tok /\
  (forall id, SBTToken._ownerOf tok id <> 0 <->
              0 < id < SBTToken._nextTokenId tok) /\
  (forall id, is_Some (SBTToken.sbtData tok !! id) <->
              0 < id < SBTToken._nextTokenId tok).

(** The number of tokens, revoked or not, whose record names session
    [sid]. *)
Definition session_tokens (tok : SBTToken.state) (sid : bytes32) : nat :=
  size (filter (fun kv => SBTToken.sessionId (snd kv) = sid)
               (SBTToken.sbtData tok)).

(** What stays of a token record: everything but [revoked], which can
    only go from [false] to [true]. *)
Definition record_kept (d d' : SBTToken.SBTData) : Prop :=
  SBTToken.name d' = SBTToken.name d /\
  SBTToken.description d' = SBTToken.description d /\
  SBTToken.issuer d' = SBTToken.issuer d /\
  SBTToken.mintedAt d' = SBTToken.mintedAt d /\
  SBTToken.templateId d' = SBTToken.templateId d /\
  SBTToken.sessionId d' = SBTToken.sessionId d /\
  (SBTToken.revoked d = true -> SBTToken.revoked d' = true).


(** ** Example states of the ledger *)

Module LedgerExamples.

(** After Alice's claim in [Scenario.one_left] the administrator revokes
    her token 1, and Bob claims the second place. *)
Definition aftermath : list (Env * Call) :=
  [ (Scenario.from Scenario.admin 105, RevokeSBT 1);
    (Scenario.from Scenario.bob 106, ClaimFromSession Scenario.sid) ].

Definition settled : World :=
  Scenario.world_of (run Scenario.hash aftermath Scenario.one_left).

End LedgerExamples.


(** The counter of every session (with an id other than zero, the value
    a template mint writes) is the number of tokens carrying its id. *)
Definition mints_counted (w : World) : Prop :=
  forall sid,
    sid <> 0 ->
    SBTSession.currentMints (SBTSession.sessionAt (session w) sid)
      = N.of_nat (session_tokens (token w) sid).


(** ** SBTToken, the URI-based ledger

    The repository holds a second contract named [SBTToken]: the ledger
    of the two-contract system (registry and ledger), whose tokens carry
    a metadata URI and are limited to one per owner and issuer. It is
    modelled here under the name [SBTTokenURI]. [_tokenURIs] is the
    table of [ERC721URIStorage]; with the empty base URI that the
    contract keeps, [tokenURI] returns the stored string. *)

Module SBTTokenURI.

Record state := mkState {
  owner : address;
  paused : bool;
  _nextTokenId : uint256;
  tokenIssuer : gmap N address;
  tokenMintTime : gmap N uint256;
  tokenRevoked : gset N;
  hasTokenFromIssuer : gset (N * N);
  _owners : gmap N N;
  _tokenURIs : gmap N string
}.

Definition _ownerOf (s : state) (id : uint256) : address :=
  default 0 (_owners s !! id).

(** [tokenIssuer[id]], [tokenMintTime[id]], [tokenRevoked[id]] *)
Definition issuerOf (s : state) (id : uint256) : address :=
  default 0 (tokenIssuer s !! id).

Definition mintTimeOf (s : state) (id : uint256) : uint256 :=
  default 0 (tokenMintTime s !! id).

Definition revokedOf (s : state) (id : uint256) : bool :=
  bool_decide (id ∈ tokenRevoked s).

Definition tokenURI (s : state) (id : uint256) : string :=
  default EmptyString (_tokenURIs s !! id).

Definition set_paused (b : bool) (s : state) : state :=
  mkState (owner s) b (_nextTokenId s) (tokenIssuer s) (tokenMintTime s)
          (tokenRevoked s) (hasTokenFromIssuer s) (_owners s) (_tokenURIs s).

Definition set_nextTokenId (n : uint256) (s : state) : state :=
  mkState (owner s) (paused s) n (tokenIssuer s) (tokenMintTime s)
          (tokenRevoked s) (hasTokenFromIssuer s) (_owners s) (_tokenURIs s).

Definition set_owner_of (id : uint256) (a : address) (s : state) : state :=
  mkState (owner s) (paused s) (_nextTokenId s) (tokenIssuer s)
          (tokenMintTime s) (tokenRevoked s) (hasTokenFromIssuer s)
          (<[id := a]> (_owners s)) (_tokenURIs s).

(** [_setTokenURI(id, uri)] *)
Definition _setTokenURI (id : uint256) (uri : string) (s : state) : state :=
  mkState (owner s) (paused s) (_nextTokenId s) (tokenIssuer s)
          (tokenMintTime s) (tokenRevoked s) (hasTokenFromIssuer s)
          (_owners s) (<[id := uri]> (_tokenURIs s)).

Definition set_tokenIssuer (id : uint256) (a : address) (s : state) : state :=
  mkState (owner s) (paused s) (_nextTokenId s) (<[id := a]> (tokenIssuer s))
          (tokenMintTime s) (tokenRevoked s) (hasTokenFromIssuer s)
          (_owners s) (_tokenURIs s).

Definition set_tokenMintTime (id : uint256) (t : uint256) (s : state)
    : state :=
  mkState (owner s) (paused s) (_nextTokenId s) (tokenIssuer s)
          (<[id := t]> (tokenMintTime s)) (tokenRevoked s)
          (hasTokenFromIssuer s) (_owners s) (_tokenURIs s).

(** [tokenRevoked[id] = true] *)
Definition set_tokenRevoked (id : uint256) (s : state) : state :=
  mkState (owner s) (paused s) (_nextTokenId s) (tokenIssuer s)
          (tokenMintTime s) ({[ id ]} ∪ tokenRevoked s)
          (hasTokenFromIssuer s) (_owners s) (_tokenURIs s).

(** [hasTokenFromIssuer[a][i] = b] *)
Definition set_hasTokenFromIssuer (a i : address) (b : bool) (s : state)
    : state :=
  mkState (owner s) (paused s) (_nextTokenId s) (tokenIssuer s)
          (tokenMintTime s) (tokenRevoked s)
          (if b then {[ (a, i) ]} ∪ hasTokenFromIssuer s
           else hasTokenFromIssuer s ∖ {[ (a, i) ]})
          (_owners s) (_tokenURIs s).

Definition onlyOwner (e : Env) (s : state) : result unit :=
  require (msg_sender e =? owner s) "OwnableUnauthorizedAccount".

Definition whenNotPaused (s : state) : result unit :=
  require (negb (paused s)) "EnforcedPause".

Definition whenPaused (s : state) : result unit :=
  require (paused s) "ExpectedPause".

Definition onlyAuthorizedIssuer (e : Env) (reg : IssuerRegistry.state)
    : result unit :=
  require (IssuerRegistry.isAuthorizedIssuer reg (msg_sender e))
          "SBTToken: Not an authorized issuer".

Definition validToken (id : uint256) (s : state) : result unit :=
  require (negb (_ownerOf s id =? 0)) "SBTToken: Token does not exist";;
  require (negb (revokedOf s id)) "SBTToken: Token has been revoked".

(** [constructor(_owner, _issuerRegistry) ERC721(...) Ownable(_owner)] *)
Definition constructor (_owner _issuerRegistry : address) : result state :=
  require (negb (_owner =? 0)) "OwnableInvalidOwner";;
  require (negb (_issuerRegistry =? 0)) "SBTToken: Invalid registry address";;
  Ok (mkState _owner false 1 ∅ ∅ ∅ ∅ ∅ ∅).

Definition _update (to : address) (id : uint256) (s : state)
    : result (state * address) :=
  let from := _ownerOf s id in
  if negb (from =? 0) && negb (to =? 0)
  then Revert "SBTToken: Soulbound tokens cannot be transferred"
  else Ok (set_owner_of id to s, from).

Definition _safeMint (e : Env) (to : address) (id : uint256) (s : state)
    : result state :=
  require (negb (to =? 0)) "ERC721InvalidReceiver";;
  '(s1, previousOwner) ← _update to id s;
  require (previousOwner =? 0) "ERC721InvalidSender";;
  require (receiver_accepts e to) "ERC721InvalidReceiver";;
  Ok s1.

Definition mintSBT (e : Env) (reg : IssuerRegistry.state) (to : address)
    (uri : string) (s : state) : result state :=
  onlyAuthorizedIssuer e reg;;
  whenNotPaused s;;
  require (negb (to =? 0)) "SBTToken: Cannot mint to zero address";;
  require (nonempty uri) "SBTToken: Token URI cannot be empty";;
  require (negb (bool_decide ((to, msg_sender e) ∈ hasTokenFromIssuer s)))
          "SBTToken: User already has token from this issuer";;
  let tokenId := _nextTokenId s in
  next ← checked_add tokenId 1;
  s1 ← _safeMint e to tokenId (set_nextTokenId next s);
  let s2 := _setTokenURI tokenId uri s1 in
  let s3 := set_tokenIssuer tokenId (msg_sender e) s2 in
  let s4 := set_tokenMintTime tokenId (block_timestamp e) s3 in
  Ok (set_hasTokenFromIssuer to (msg_sender e) true s4).

(** The loop of [batchMintSBT]; [recipients[i]] and [uris[i]] are read
    side by side, and an index past the end of [uris] would panic. *)
Fixpoint batchMint_loop (e : Env) (recipients : list address)
    (uris : list string) (s : state) : result state :=
  match recipients, uris with
  | [], _ => Ok s
  | _ :: _, [] => Revert "Panic(0x32)"
  | to :: rest, uri :: uris' =>
      require (negb (to =? 0)) "SBTToken: Cannot mint to zero address";;
      require (nonempty uri) "SBTToken: Token URI cannot be empty";;
      require (negb (bool_decide ((to, msg_sender e) ∈ hasTokenFromIssuer s)))
              "SBTToken: User already has token from this issuer";;
      let tokenId := _nextTokenId s in
      next ← checked_add tokenId 1;
      s1 ← _safeMint e to tokenId (set_nextTokenId next s);
      let s2 := _setTokenURI tokenId uri s1 in
      let s3 := set_tokenIssuer tokenId (msg_sender e) s2 in
      let s4 := set_tokenMintTime tokenId (block_timestamp e) s3 in
      batchMint_loop e rest uris'
        (set_hasTokenFromIssuer to (msg_sender e) true s4)
  end.

Definition batchMintSBT (e : Env) (reg : IssuerRegistry.state)
    (recipients : list address) (uris : list string) (s : state)
    : result state :=
  onlyAuthorizedIssuer e reg;;
  whenNotPaused s;;
  require (0 <? N.of_nat (length recipients))
          "SBTToken: Empty recipients array";;
  require (N.of_nat (length recipients) =? N.of_nat (length uris))
          "SBTToken: Arrays length mismatch";;
  require (N.of_nat (length recipients) <=? 100)
          "SBTToken: Batch size too large";;
  batchMint_loop e recipients uris s.

Definition revokeSBT (e : Env) (tokenId : uint256) (s : state)
    : result state :=
  validToken tokenId s;;
  whenNotPaused s;;
  require ((msg_sender e =? issuerOf s tokenId) || (msg_sender e =? owner s))
          "SBTToken: Not authorized to revoke";;
  let tokenOwner := _ownerOf s tokenId in
  let issuer := issuerOf s tokenId in
  Ok (set_hasTokenFromIssuer tokenOwner issuer false
        (set_tokenRevoked tokenId s)).

(** Returns [(owner, issuer, mintTime, revoked, uri)]. *)
Definition getSBTInfo (tokenId : uint256) (s : state)
    : result (address * address * uint256 * bool * string) :=
  require (negb (_ownerOf s tokenId =? 0)) "SBTToken: Token does not exist";;
  Ok (_ownerOf s tokenId, issuerOf s tokenId, mintTimeOf s tokenId,
      revokedOf s tokenId, tokenURI s tokenId).

Definition getNextTokenId (s : state) : uint256 := _nextTokenId s.

Definition pause (e : Env) (s : state) : result state :=
  onlyOwner e s;;
  whenNotPaused s;;
  Ok (set_paused true s).

Definition unpause (e : Env) (s : state) : result state :=
  onlyOwner e s;;
  whenPaused s;;
  Ok (set_paused false s).

(** The entry points that change the state. The registry is a contract
    of its own; what it says at the time of a call is a parameter of the
    call. *)
Inductive Call : Type :=
| MintSBT (to : address) (uri : string)
| BatchMintSBT (recipients : list address) (uris : list string)
| RevokeSBT (tokenId : uint256)
| Pause
| Unpause.

Definition exec (e : Env) (reg : IssuerRegistry.state) (c : Call) (s : state)
    : result state :=
  match c with
  | MintSBT to uri => mintSBT e reg to uri s
  | BatchMintSBT rs uris => batchMintSBT e reg rs uris s
  | RevokeSBT id => revokeSBT e id s
  | Pause => pause e s
  | Unpause => unpause e s
  end.

(** The states of a deployed ledger, whatever the registry says when. *)
Inductive reachable : state -> Prop :=
| reachable_init o r s : constructor o r = Ok s -> reachable s
| reachable_step e reg c s s' :
    reachable s -> exec e reg c s = Ok s' -> reachable s'.

(** The net effect of one mint: token [_nextTokenId s] goes to [to] with
    the URI, the caller as issuer and the block time, and the (owner,
    issuer) marker is set. *)
Definition minted (e : Env) (to : address) (uri : string) (s : state)
    : state :=
  let id := _nextTokenId s in
  set_hasTokenFromIssuer to (msg_sender e) true
    (set_tokenMintTime id (block_timestamp e)
       (set_tokenIssuer id (msg_sender e)
          (_setTokenURI id uri
             (set_owner_of id to (set_nextTokenId (id + 1) s))))).

(** One [mintSBT] per recipient and URI, in order. *)
Fixpoint mint_each (e : Env) (reg : IssuerRegistry.state)
    (l : list (address * string)) (s : state) : result state :=
  match l with
  | [] => Ok s
  | (to, uri) :: rest => s1 ← mintSBT e reg to uri s; mint_each e reg rest s1
  end.




End SBTTokenURI.

(** ** Example states of the URI-based ledger *)

Module URIExamples.

Definition none : SBTTokenURI.state :=
  SBTTokenURI.mkState 0 false 0 ∅ ∅ ∅ ∅ ∅ ∅.

Definition state_of (r : result SBTTokenURI.state) : SBTTokenURI.state :=
  match r with Ok s => s | Revert _ => none end.

(** The ledger as deployed by account 1 next to a registry at address
    50, whose only issuer is account 1. *)
Definition start : SBTTokenURI.state :=
  state_of (SBTTokenURI.constructor Scenario.admin 50).

Definition reg : IssuerRegistry.state := registry Scenario.genesis.



End URIExamples.


(** ** The owners' re-configuration calls

    Besides the entry points of [Call] the deployed contracts accept
    three more calls, each reserved to the owner of the contract called:
    [setSBTTokenContract] of the session manager, which can be called
    again at any time after the deployment, and the [transferOwnership]
    and [renounceOwnership] that every contract inherits. *)
Inductive OwnerCall : Type :=
| SetSBTTokenContract (_sbtTokenContract : address)
| TransferOwnership (k : Component) (newOwner : address)
| RenounceOwnership (k : Component).

Definition exec_owner (e : Env) (c : OwnerCall) (w : World) : result World :=
  match c with
  | SetSBTTokenContract a =>
      with_session w <$> SBTSession.setSBTTokenContract e a (session w)
  | TransferOwnership Registry a =>
      with_registry w <$> IssuerRegistry.transferOwnership e a (registry w)
  | TransferOwnership Templates a =>
      with_template w <$> SBTTemplate.transferOwnership e a (template w)
  | TransferOwnership Sessions a =>
      with_session w <$> SBTSession.transferOwnership e a (session w)
  | TransferOwnership Ledger a =>
      with_token w <$> SBTToken.transferOwnership e a (token w)
  | RenounceOwnership Registry =>
      with_registry w <$> IssuerRegistry.renounceOwnership e (registry w)
  | RenounceOwnership Templates =>
      with_template w <$> SBTTemplate.renounceOwnership e (template w)
  | RenounceOwnership Sessions =>
      with_session w <$> SBTSession.renounceOwnership e (session w)
  | RenounceOwnership Ledger =>
      with_token w <$> SBTToken.renounceOwnership e (token w)
  end.

(** Every external call the system accepts. *)
Inductive Action : Type :=
| Entry (c : Call)
| Reconfigure (c : OwnerCall).

Definition action_typed (a : Action) : bool :=
  match a with
  | Entry c => call_typed c
  | Reconfigure _ => true
  end.

Definition perform (h : SessionHash) (e : Env) (a : Action) (w : World)
    : result World :=
  match a with
  | Entry c => exec h e c w
  | Reconfigure c => exec_owner e c w
  end.

(** A sequence of such calls, each of which has to succeed. *)
Fixpoint play (h : SessionHash) (l : list (Env * Action)) (w : World)
    : result World :=
  match l with
  | [] => Ok w
  | (e, a) :: rest => w1 ← perform h e a w; play h rest w1
  end.

(** [reaches h P w]: the deployed system gets to [w] by calls of any kind,
    from accounts other than the ledger contract, through states that
    all satisfy [P]. With [unrestricted] these are all the states the
    system can be in; [reachable] is the part reached by [Call]s alone. *)
Inductive reaches (h : SessionHash) (P : World -> Prop) : World -> Prop :=
| reaches_deploy e ro to ta w :
    deploy e ro to ta = Ok w -> P w -> reaches h P w
| reaches_step w e a w' :
    reaches h P w ->
    msg_sender e <> token_address w ->
    action_typed a = true ->
    perform h e a w = Ok w' ->
    P w' ->
    reaches h P w'.

Definition unrestricted (w : World) : Prop := True.

(** The session manager takes mint counts from the ledger, as deployed. *)
Definition wired (w : World) : Prop :=
  SBTSession.sbtTokenContract (session w) = token_address w.

(** The registry is owned by [a]. *)
Definition owned_by (a : address) (w : World) : Prop :=
  IssuerRegistry.owner (registry w) = a.

Definition external_actions (w : World) (l : list (Env * Action)) : Prop :=
  Forall (fun ea => msg_sender (fst ea) <> token_address w /\
                    action_typed (snd ea) = true) l.

(** ** Example states reached with the owners' calls *)

Module Rewiring.

(** The owner of the session manager points [sbtTokenContract] to
    Carol's account, and Carol counts three mints on the session of
    [Scenario.opened], which has two places. *)
Definition steps : list (Env * Action) :=
  [ (Scenario.from Scenario.admin 103,
     Reconfigure (SetSBTTokenContract Scenario.carol));
    (Scenario.from Scenario.carol 104, Entry (IncrementMintCount Scenario.sid));
    (Scenario.from Scenario.carol 105, Entry (IncrementMintCount Scenario.sid));
    (Scenario.from Scenario.carol 106, Entry (IncrementMintCount Scenario.sid)) ].

Definition over : World :=
  Scenario.world_of (play Scenario.hash steps Scenario.opened).

End Rewiring.

Module Handover.

(** The deployer hands the registry over to Bob, who removes the
    deployer from the issuers. *)
Definition steps : list (Env * Action) :=
  [ (Scenario.from Scenario.admin 101,
     Reconfigure (TransferOwnership Registry Scenario.bob));
    (Scenario.from Scenario.bob 102, Entry (RemoveIssuer Scenario.admin)) ].

Definition deposed : World :=
  Scenario.world_of (play Scenario.hash steps Scenario.genesis).

End Handover.

Module Refill.

(** Both places of the session are taken ([Examples.full]); then the
    administrator revokes Alice's token 1. *)
Definition emptied : World :=
  Scenario.world_of
    (exec Scenario.hash (Scenario.from Scenario.admin 105) (RevokeSBT 1)
       Examples.full).

End Refill.

(** * Properties *)

(** ** Reasoning about [result] *)

Lemma bind_Ok {A B} (m : result A) (f : A -> result B) (b : B) :
  m ≫= f = Ok b <-> exists a, m = Ok a /\ f a = Ok b.
Proof.
  destruct m as [a|r]; simpl; split.
  - intros H. exists a. auto.
  - intros (a' & Ha & Hf). congruence.
  - discriminate.
  - intros (a' & Ha & _). discriminate.
Qed.

Lemma fmap_Ok {A B} (f : A -> B) (m : result A) (b : B) :
  f <$> m = Ok b <-> exists a, m = Ok a /\ b = f a.
Proof.
  destruct m as [a|r]; simpl; split.
  - intros H. exists a. split; congruence.
  - intros (a' & Ha & Hf). congruence.
  - discriminate.
  - intros (a' & Ha & _). discriminate.
Qed.

Lemma require_Ok (c : bool) (r : string) (u : unit) :
  require c r = Ok u <-> c = true.
Proof. destruct c, u; simpl; split; congruence. Qed.

Lemma checked_add_Ok (a b n : N) :
  checked_add a b = Ok n <-> n = a + b /\ a + b <= MAX_UINT256.
Proof.
  unfold checked_add. destruct (N.leb_spec (a + b) MAX_UINT256); split.
  - intros [= <-]. auto.
  - intros [-> _]. reflexivity.
  - discriminate.
  - intros [_ ?]. lia.
Qed.

(** Takes a successful run of monadic code apart into its steps. *)
Ltac inv_ok :=
  repeat match goal with
  | H : _ ≫= _ = Ok _ |- _ =>
      apply bind_Ok in H; destruct H as (? & ? & H)
  | H : _ <$> _ = Ok _ |- _ =>
      apply fmap_Ok in H; destruct H as (? & H & ?)
  | H : require _ _ = Ok _ |- _ => apply require_Ok in H
  | H : checked_add _ _ = Ok _ |- _ =>
      apply checked_add_Ok in H; destruct H as [? ?]
  | H : Ok _ = Ok _ |- _ => injection H as H
  | H : Revert _ = Ok _ |- _ => discriminate H
  | H : (_, _) = (_, _) |- _ => injection H as ? ?
  | H : (let '(_, _) := ?p in _) = Ok _ |- _ => destruct p
  | H : negb _ = true |- _ => apply negb_true_iff in H
  | H : _ && _ = true |- _ => apply andb_true_iff in H; destruct H
  end.

(** ** The issuer registry *)

Section RegistryFacts.

Import IssuerRegistry.

Lemma issuerAt_set_issuer s a i b :
  issuerAt (set_issuer a i s) b = if decide (a = b) then i else issuerAt s b.
Proof.
  unfold issuerAt, set_issuer; simpl.
  rewrite lookup_insert. destruct (decide (a = b)); reflexivity.
Qed.

Lemma issuerAt_addIssuerInternal e a n o s b :
  issuerAt (_addIssuerInternal e a n o s) b =
  if decide (a = b) then mkIssuerInfo n o true (block_timestamp e)
  else issuerAt s b.
Proof.
  unfold _addIssuerInternal.
  destruct (bool_decide _); rewrite <- issuerAt_set_issuer; reflexivity.
Qed.

Lemma owner_addIssuerInternal e a n o s :
  owner (_addIssuerInternal e a n o s) = owner s.
Proof. unfold _addIssuerInternal. destruct (bool_decide _); reflexivity. Qed.

(** The constructor authorizes the owner it installs. *)
Lemma constructor_admin e o s :
  constructor e o = Ok s ->
  owner s = o /\ o <> 0 /\ isAuthorizedIssuer s o = true.
Proof.
  unfold constructor. intros H. inv_ok. subst s.
  rewrite owner_addIssuerInternal. unfold isAuthorizedIssuer.
  rewrite issuerAt_addIssuerInternal. rewrite decide_True by reflexivity.
  match goal with H : (_ =? _) = false |- _ => apply N.eqb_neq in H end.
  auto.
Qed.

Lemma removeIssuer_inv e a s s' :
  removeIssuer e a s = Ok s' ->
  msg_sender e = owner s /\ paused s = false /\ a <> 0 /\
  isAuthorizedIssuer s a = true /\ a <> owner s /\
  owner s' = owner s /\
  (forall b, isAuthorizedIssuer s' b =
             if decide (a = b) then false else isAuthorizedIssuer s b).
Proof.
  unfold removeIssuer, onlyOwner, whenNotPaused. intros H. inv_ok. subst s'.
  repeat match goal with
         | H : (_ =? _) = true |- _ => apply N.eqb_eq in H
         | H : (_ =? _) = false |- _ => apply N.eqb_neq in H
         end.
  repeat split; auto.
  intros b. unfold isAuthorizedIssuer. rewrite issuerAt_set_issuer.
  destruct (decide (a = b)); reflexivity.
Qed.

Lemma addIssuer_admin e a n o s s' :
  addIssuer e a n o s = Ok s' -> admin_ok s -> admin_ok s'.
Proof.
  unfold addIssuer, admin_ok, isAuthorizedIssuer. intros H Hs. inv_ok.
  subst s'. rewrite owner_addIssuerInternal, issuerAt_addIssuerInternal.
  destruct (decide _); auto.
Qed.

Lemma removeIssuer_admin e a s s' :
  removeIssuer e a s = Ok s' -> admin_ok s -> admin_ok s'.
Proof.
  intros H Hs. apply removeIssuer_inv in H.
  destruct H as (_ & _ & _ & _ & Hne & Ho & Hauth).
  unfold admin_ok. rewrite Ho, Hauth. rewrite decide_False by auto. exact Hs.
Qed.

Lemma updateIssuer_admin e a n o s s' :
  updateIssuer e a n o s = Ok s' -> admin_ok s -> admin_ok s'.
Proof.
  unfold updateIssuer, admin_ok, isAuthorizedIssuer. intros H Hs. inv_ok.
  subst s'. simpl. rewrite issuerAt_set_issuer.
  destruct (decide _) as [->|]; auto.
Qed.

Lemma pause_admin e s s' : pause e s = Ok s' -> admin_ok s -> admin_ok s'.
Proof. unfold pause. intros H Hs. inv_ok. subst s'. exact Hs. Qed.

Lemma unpause_admin e s s' : unpause e s = Ok s' -> admin_ok s -> admin_ok s'.
Proof. unfold unpause. intros H Hs. inv_ok. subst s'. exact Hs. Qed.

End RegistryFacts.

(** ** The template store *)

Section TemplateFacts.

Import SBTTemplate.

Lemma templateAt_set_template s a t b :
  templateAt (set_template a t s) b = if decide (a = b) then t else templateAt s b.
Proof.
  unfold templateAt, set_template; simpl.
  rewrite lookup_insert. destruct (decide (a = b)); reflexivity.
Qed.

Lemma templateExists_Ok id s u :
  templateExists id s = Ok u <-> 0 < id /\ id <= _templateIdCounter s.
Proof.
  unfold templateExists. rewrite require_Ok, andb_true_iff, N.leb_le, N.ltb_lt.
  tauto.
Qed.

Lemma getTemplate_Ok id s t :
  getTemplate id s = Ok t <->
  0 < id /\ id <= _templateIdCounter s /\ t = templateAt s id.
Proof.
  unfold getTemplate. rewrite bind_Ok. split.
  - intros (u & Hu & [= <-]). apply templateExists_Ok in Hu. tauto.
  - intros (H1 & H2 & ->). exists tt. split; [|reflexivity].
    apply templateExists_Ok. auto.
Qed.

Lemma isTemplateActive_true s id :
  isTemplateActive s id = true <->
  0 < id /\ id <= _templateIdCounter s /\ active (templateAt s id) = true.
Proof.
  unfold isTemplateActive.
  destruct (N.ltb_spec (_templateIdCounter s) id);
    destruct (N.eqb_spec id 0); simpl;
    (split; [try discriminate | try (intros (? & ? & _); lia)]).
  intros H'. repeat split; auto; lia.
  intros (_ & _ & H'). exact H'.
Qed.

Lemma createTemplate_counter e reg n d s r :
  createTemplate e reg n d s = Ok r ->
  _templateIdCounter (fst r) = _templateIdCounter s + 1.
Proof.
  unfold createTemplate. intros H. inv_ok. subst. reflexivity.
Qed.

Lemma updateTemplate_counter e id n d s s' :
  updateTemplate e id n d s = Ok s' -> _templateIdCounter s' = _templateIdCounter s.
Proof. unfold updateTemplate. intros H. inv_ok. subst. reflexivity. Qed.

Lemma deactivateTemplate_counter e id s s' :
  deactivateTemplate e id s = Ok s' -> _templateIdCounter s' = _templateIdCounter s.
Proof. unfold deactivateTemplate. intros H. inv_ok. subst. reflexivity. Qed.

Lemma reactivateTemplate_counter e id s s' :
  reactivateTemplate e id s = Ok s' -> _templateIdCounter s' = _templateIdCounter s.
Proof. unfold reactivateTemplate. intros H. inv_ok. subst. reflexivity. Qed.

Lemma pause_counter e s s' :
  pause e s = Ok s' -> _templateIdCounter s' = _templateIdCounter s.
Proof. unfold pause. intros H. inv_ok. subst. reflexivity. Qed.

Lemma unpause_counter e s s' :
  unpause e s = Ok s' -> _templateIdCounter s' = _templateIdCounter s.
Proof. unfold unpause. intros H. inv_ok. subst. reflexivity. Qed.

(** What a successful [deactivateTemplate] leaves behind. *)
Lemma deactivateTemplate_inv e id s s' :
  deactivateTemplate e id s = Ok s' ->
  0 < id /\ id <= _templateIdCounter s /\
  issuer (templateAt s id) = msg_sender e /\
  paused s = false /\ active (templateAt s id) = true /\
  s' = set_template id (set_active false (templateAt s id)) s.
Proof.
  unfold deactivateTemplate, onlyTemplateIssuer, whenNotPaused.
  intros H. inv_ok.
  match goal with H : templateExists _ _ = Ok _ |- _ =>
    apply templateExists_Ok in H; destruct H end.
  match goal with H : (_ =? _) = true |- _ => apply N.eqb_eq in H end.
  subst s'. auto 10.
Qed.

End TemplateFacts.

Lemma sessions_ok_grow tpl tpl' ses :
  SBTTemplate._templateIdCounter tpl <= SBTTemplate._templateIdCounter tpl' ->
  sessions_ok tpl ses -> sessions_ok tpl' ses.
Proof.
  intros Hle Hs sid x Hx. destruct (Hs sid x Hx) as (H1 & H2 & H3 & H4).
  repeat split; auto. lia.
Qed.

(** ** The session manager *)

Section SessionFacts.

Import SBTSession.

Lemma sessionAt_set_session s a x b :
  sessionAt (set_session a x s) b = if decide (a = b) then x else sessionAt s b.
Proof.
  unfold sessionAt, set_session; simpl.
  rewrite lookup_insert. destruct (decide (a = b)); reflexivity.
Qed.

(** Unknown ids read as the all-zero session. *)
Lemma sessions_ok_at tpl ses sid :
  sessions_ok tpl ses ->
  currentMints (sessionAt ses sid) <= maxMints (sessionAt ses sid) /\
  maxMints (sessionAt ses sid) <= MAX_UINT256.
Proof.
  intros H. unfold sessionAt.
  destruct (sessions ses !! sid) as [x|] eqn:Hx; simpl.
  - destruct (H sid x Hx) as (H1 & H2 & _). auto.
  - unfold MAX_UINT256. split; [reflexivity | discriminate].
Qed.

Lemma sessions_ok_template tpl ses sid :
  sessions_ok tpl ses ->
  issuer (sessionAt ses sid) <> 0 ->
  0 < templateId (sessionAt ses sid) /\
  templateId (sessionAt ses sid) <= SBTTemplate._templateIdCounter tpl.
Proof.
  intros H. unfold sessionAt.
  destruct (sessions ses !! sid) as [x|] eqn:Hx; simpl.
  - destruct (H sid x Hx) as (_ & _ & H3 & H4). auto.
  - intros Hne. contradiction.
Qed.

Lemma sessions_ok_set tpl ses sid x :
  sessions_ok tpl ses ->
  session_ok (SBTTemplate._templateIdCounter tpl) x ->
  sessions_ok tpl (set_session sid x ses).
Proof.
  intros H Hx sid' x'. unfold set_session; simpl.
  rewrite lookup_insert. destruct (decide (sid = sid')).
  - intros [= <-]. exact Hx.
  - apply H.
Qed.

Lemma sessionExists_Ok id s u :
  sessionExists id s = Ok u <-> issuer (sessionAt s id) <> 0.
Proof.
  unfold sessionExists. rewrite require_Ok, negb_true_iff, N.eqb_neq. tauto.
Qed.

Lemma getSession_Ok id s x :
  getSession id s = Ok x <-> issuer (sessionAt s id) <> 0 /\ x = sessionAt s id.
Proof.
  unfold getSession. rewrite bind_Ok. split.
  - intros (u & Hu & [= <-]). apply sessionExists_Ok in Hu. auto.
  - intros (H1 & ->). exists tt. split; [|reflexivity].
    apply sessionExists_Ok. auto.
Qed.

Lemma isSessionClaimable_true e id s :
  isSessionClaimable e id s = true <->
  issuer (sessionAt s id) <> 0 /\
  active (sessionAt s id) = true /\
  block_timestamp e <= endTimestamp (sessionAt s id) /\
  currentMints (sessionAt s id) < maxMints (sessionAt s id).
Proof.
  unfold isSessionClaimable.
  destruct (N.eqb_spec (issuer (sessionAt s id)) 0);
    [split; [discriminate | tauto] |].
  destruct (active (sessionAt s id)); simpl;
    [| split; [discriminate | intros (_ & ? & _); discriminate]].
  destruct (N.ltb_spec (endTimestamp (sessionAt s id)) (block_timestamp e));
    [split; [discriminate | intros (_ & _ & ? & _); lia] |].
  destruct (N.leb_spec (maxMints (sessionAt s id)) (currentMints (sessionAt s id)));
    [split; [discriminate | intros (_ & _ & _ & ?); lia] |].
  split; auto.
Qed.

Lemma incrementMintCount_Ok e id s s' :
  incrementMintCount e id s = Ok s' <->
  msg_sender e = sbtTokenContract s /\
  issuer (sessionAt s id) <> 0 /\
  currentMints (sessionAt s id) + 1 <= MAX_UINT256 /\
  s' = set_session id
         (set_currentMints (currentMints (sessionAt s id) + 1) (sessionAt s id)) s.
Proof.
  unfold incrementMintCount, onlySBTToken. split.
  - intros H. inv_ok.
    match goal with H : sessionExists _ _ = Ok _ |- _ =>
      apply sessionExists_Ok in H end.
    match goal with H : (_ =? _) = true |- _ => apply N.eqb_eq in H end.
    subst. auto.
  - intros (H1 & H2 & H3 & ->).
    apply N.eqb_eq in H1. rewrite H1. simpl.
    apply sessionExists_Ok with (u := tt) in H2. rewrite H2. simpl.
    apply bind_Ok. eexists. split; [apply checked_add_Ok; eauto | reflexivity].
Qed.

Lemma endSession_inv e id s s' :
  endSession e id s = Ok s' ->
  s' = set_session id (set_active false (sessionAt s id)) s.
Proof. unfold endSession. intros H. inv_ok. subst. reflexivity. Qed.

Lemma createSession_inv h e reg tpl tid mx dur ttl s r :
  createSession h e reg tpl tid mx dur ttl s = Ok r ->
  IssuerRegistry.isAuthorizedIssuer reg (msg_sender e) = true /\
  paused s = false /\
  SBTTemplate.isTemplateActive tpl tid = true /\
  0 < mx /\ 0 < dur /\
  SBTTemplate.issuer (SBTTemplate.templateAt tpl tid) = msg_sender e /\
  exists endTs nonce,
    endTs = block_timestamp e + dur /\
    nonce = _sessionNonce s + 1 /\
    snd r = h (msg_sender e) tid mx endTs ttl (block_timestamp e)
              (block_prevrandao e) nonce /\
    issuer (sessionAt s (snd r)) = 0 /\
    sessions (fst r) =
      <[snd r := mkSession (snd r) tid mx 0 endTs (msg_sender e) true ttl]>
        (sessions s) /\
    sbtTokenContract (fst r) = sbtTokenContract s /\
    paused (fst r) = paused s /\ owner (fst r) = owner s.
Proof.
  unfold createSession, generateUniqueSessionId, onlyAuthorizedIssuer,
    whenNotPaused.
  intros H. inv_ok. subst. simpl in *. inv_ok. subst. simpl in *.
  match goal with H : SBTTemplate.getTemplate _ _ = Ok _ |- _ =>
    apply getTemplate_Ok in H; destruct H as (? & ? & ->) end.
  repeat match goal with
         | H : (_ =? _) = true |- _ => apply N.eqb_eq in H
         | H : (_ <? _) = true |- _ => apply N.ltb_lt in H
         end.
  repeat split; auto.
  eexists _, _. repeat split; auto.
Qed.

End SessionFacts.

(** ** The token ledger *)

Section LedgerFacts.

Import SBTToken.

Lemma _safeMint_Ok e to id s s' :
  _safeMint e to id s = Ok s' <->
  to <> 0 /\ _ownerOf s id = 0 /\ receiver_accepts e to = true /\
  s' = set_owner_of id to s.
Proof.
  unfold _safeMint, _update.
  destruct (N.eqb_spec to 0) as [->|Hto]; simpl.
  { split; [discriminate | intros (? & _); contradiction]. }
  destruct (N.eqb_spec (_ownerOf s id) 0) as [Ho|Ho]; simpl.
  - rewrite Ho. simpl. destruct (receiver_accepts e to); simpl.
    + split; [intros [= <-]; auto | intros (_ & _ & _ & ->); reflexivity].
    + split; [discriminate | intros (_ & _ & ? & _); discriminate].
  - split; [discriminate | intros (_ & ? & _); contradiction].
Qed.

(** [_nextTokenId++] followed by [_safeMint] and the rest of a path. *)
Lemma issue_Ok {A} e to s (k : state -> result A) r :
  (checked_add (_nextTokenId s) 1 ≫= fun next =>
   _safeMint e to (_nextTokenId s) (set_nextTokenId next s) ≫= k) = Ok r <->
  can_issue e to s /\
  k (set_owner_of (_nextTokenId s) to
       (set_nextTokenId (_nextTokenId s + 1) s)) = Ok r.
Proof.
  unfold can_issue. split.
  - intros H. inv_ok. subst.
    match goal with H : _safeMint _ _ _ _ = Ok _ |- _ =>
      apply _safeMint_Ok in H; destruct H as (? & ? & ? & ->) end.
    auto 10.
  - intros ((H1 & H2 & H3 & H4) & Hk).
    apply bind_Ok. eexists. split; [apply checked_add_Ok; eauto |].
    apply bind_Ok. eexists. split; [apply _safeMint_Ok; eauto | exact Hk].
Qed.

(** Inversion of a successful ledger path down to its checks. *)
Ltac ledger_inv :=
  inv_ok;
  repeat match goal with
  | H : SBTSession.getSession _ _ = Ok _ |- _ =>
      apply getSession_Ok in H; destruct H as (? & ->)
  | H : SBTTemplate.getTemplate _ _ = Ok _ |- _ =>
      apply getTemplate_Ok in H; destruct H as (? & ? & ->)
  | H : SBTToken._safeMint _ _ _ _ = Ok _ |- _ =>
      apply _safeMint_Ok in H; destruct H as (? & ? & ? & ->)
  | H : SBTSession.incrementMintCount _ _ _ = Ok _ |- _ =>
      apply incrementMintCount_Ok in H; destruct H as (? & ? & ? & ->)
  | H : (_ =? _) = true |- _ => apply N.eqb_eq in H
  | H : (_ =? _) = false |- _ => apply N.eqb_neq in H
  | H : bool_decide _ = false |- _ => apply bool_decide_eq_false in H
  end;
  subst; simpl in *.

Lemma fresh_ok_issue to s :
  fresh_ok s ->
  fresh_ok (set_owner_of (_nextTokenId s) to
              (set_nextTokenId (_nextTokenId s + 1) s)).
Proof.
  intros H id; simpl. intros Hid.
  rewrite lookup_insert_ne by lia. apply H. lia.
Qed.

Lemma fresh_ok_ownerOf s :
  fresh_ok s -> _ownerOf s (_nextTokenId s) = 0.
Proof. intros H. unfold _ownerOf. rewrite H by lia. reflexivity. Qed.

Lemma fresh_ok_same s s' :
  _nextTokenId s' = _nextTokenId s -> _owners s' = _owners s ->
  fresh_ok s -> fresh_ok s'.
Proof. unfold fresh_ok. intros -> ->. auto. Qed.

Lemma fresh_ok_issued to d s : fresh_ok s -> fresh_ok (issued to d s).
Proof. intros H. apply (fresh_ok_issue to) in H. exact H. Qed.

Lemma fresh_ok_session_issued to d s :
  fresh_ok s -> fresh_ok (session_issued to d s).
Proof. intros H. apply (fresh_ok_issue to) in H. exact H. Qed.

Lemma mintFromTemplate_Ok e reg tpl to tid s s' :
  mintFromTemplate e reg tpl to tid s = Ok s' <->
  IssuerRegistry.isAuthorizedIssuer reg (msg_sender e) = true /\
  paused s = false /\
  SBTTemplate.isTemplateActive tpl tid = true /\
  ((to, tid) ∉ hasTokenFromTemplate s) /\
  SBTTemplate.issuer (SBTTemplate.templateAt tpl tid) = msg_sender e /\
  can_issue e to s /\
  s' = issued to
         (mkSBTData (SBTTemplate.name (SBTTemplate.templateAt tpl tid))
            (SBTTemplate.description (SBTTemplate.templateAt tpl tid))
            (msg_sender e) (block_timestamp e) tid 0 false) s.
Proof.
  unfold mintFromTemplate, onlyAuthorizedIssuer, whenNotPaused. split.
  - intros H. ledger_inv. unfold can_issue. auto 12.
  - intros (H1 & H2 & H3 & H4 & H5 & H6 & ->).
    rewrite H1, H2, H3. simpl.
    assert (Hto : to <> 0) by apply H6.
    apply N.eqb_neq in Hto. rewrite Hto. simpl.
    rewrite (bool_decide_eq_false_2 _ H4). simpl.
    apply isTemplateActive_true in H3. destruct H3 as (Ha & Hb & _).
    apply bind_Ok. eexists. split; [apply getTemplate_Ok; eauto |].
    apply N.eqb_eq in H5. rewrite H5. simpl.
    apply issue_Ok. split; [exact H6 | reflexivity].
Qed.

Lemma claimFromSession_Ok e self tpl sid ses s r :
  claimFromSession e self tpl sid (ses, s) = Ok r <->
  paused s = false /\
  SBTSession.isSessionClaimable e sid ses = true /\
  ((msg_sender e, sid) ∉ hasTokenFromSession s) /\
  0 < SBTSession.templateId (SBTSession.sessionAt ses sid) /\
  SBTSession.templateId (SBTSession.sessionAt ses sid)
    <= SBTTemplate._templateIdCounter tpl /\
  can_issue e (msg_sender e) s /\
  self = SBTSession.sbtTokenContract ses /\
  SBTSession.currentMints (SBTSession.sessionAt ses sid) + 1 <= MAX_UINT256 /\
  r = (counted 1 sid ses,
       session_issued (msg_sender e)
         (session_record e tpl (SBTSession.sessionAt ses sid) sid
            (SBTSession.issuer (SBTSession.sessionAt ses sid))) s).
Proof.
  unfold claimFromSession, whenNotPaused. split.
  - intros H. ledger_inv. unfold can_issue. auto 14.
  - intros (H1 & H2 & H3 & H4 & H5 & H6 & H7 & H8 & ->).
    rewrite H1, H2. simpl.
    rewrite (bool_decide_eq_false_2 _ H3). simpl.
    apply isSessionClaimable_true in H2. destruct H2 as (Hi & _).
    apply bind_Ok. eexists. split; [apply getSession_Ok; eauto |].
    apply bind_Ok. eexists. split; [apply getTemplate_Ok; eauto |].
    apply issue_Ok. split; [exact H6 |].
    apply bind_Ok. eexists.
    split; [apply incrementMintCount_Ok; simpl; eauto | reflexivity].
Qed.

Lemma mintFromSession_Ok e self reg tpl to sid ses s r :
  mintFromSession e self reg tpl to sid (ses, s) = Ok r <->
  IssuerRegistry.isAuthorizedIssuer reg (msg_sender e) = true /\
  paused s = false /\
  SBTSession.isSessionClaimable e sid ses = true /\
  ((to, sid) ∉ hasTokenFromSession s) /\
  SBTSession.issuer (SBTSession.sessionAt ses sid) = msg_sender e /\
  0 < SBTSession.templateId (SBTSession.sessionAt ses sid) /\
  SBTSession.templateId (SBTSession.sessionAt ses sid)
    <= SBTTemplate._templateIdCounter tpl /\
  can_issue e to s /\
  self = SBTSession.sbtTokenContract ses /\
  SBTSession.currentMints (SBTSession.sessionAt ses sid) + 1 <= MAX_UINT256 /\
  r = (counted 1 sid ses,
       session_issued to
         (session_record e tpl (SBTSession.sessionAt ses sid) sid
            (msg_sender e)) s).
Proof.
  unfold mintFromSession, onlyAuthorizedIssuer, whenNotPaused. split.
  - intros H. ledger_inv. unfold can_issue. auto 16.
  - intros (H0 & H1 & H2 & H3 & Hiss & H4 & H5 & H6 & H7 & H8 & ->).
    rewrite H0, H1. simpl.
    assert (Hto : to <> 0) by apply H6.
    apply N.eqb_neq in Hto. rewrite Hto. simpl.
    rewrite H2. simpl.
    rewrite (bool_decide_eq_false_2 _ H3). simpl.
    apply isSessionClaimable_true in H2. destruct H2 as (Hi & _).
    apply bind_Ok. eexists. split; [apply getSession_Ok; eauto |].
    apply N.eqb_eq in Hiss. rewrite Hiss. simpl.
    apply bind_Ok. eexists. split; [apply getTemplate_Ok; eauto |].
    apply issue_Ok. split; [exact H6 |].
    apply bind_Ok. eexists.
    split; [apply incrementMintCount_Ok; simpl; eauto | reflexivity].
Qed.

Lemma counted_counted a b sid ses :
  counted a sid (counted b sid ses) = counted (b + a) sid ses.
Proof.
  unfold counted. rewrite sessionAt_set_session, decide_True by reflexivity.
  unfold SBTSession.set_session; simpl. rewrite insert_insert_eq.
  rewrite N.add_assoc. reflexivity.
Qed.

Lemma sessionAt_counted n sid ses sid' :
  SBTSession.sessionAt (counted n sid ses) sid' =
  if decide (sid = sid')
  then SBTSession.set_currentMints
         (SBTSession.currentMints (SBTSession.sessionAt ses sid) + n)
         (SBTSession.sessionAt ses sid)
  else SBTSession.sessionAt ses sid'.
Proof. unfold counted. apply sessionAt_set_session. Qed.

Lemma increment_loop_Ok e self sid n ses ses' :
  increment_loop e self sid (S n) ses = Ok ses' <->
  self = SBTSession.sbtTokenContract ses /\
  SBTSession.issuer (SBTSession.sessionAt ses sid) <> 0 /\
  SBTSession.currentMints (SBTSession.sessionAt ses sid) + N.of_nat (S n)
    <= MAX_UINT256 /\
  ses' = counted (N.of_nat (S n)) sid ses.
Proof.
  revert ses ses'. induction n as [|n IH]; intros ses ses'.
  - simpl increment_loop. rewrite bind_Ok. split.
    + intros (a & Ha & [= <-]). apply incrementMintCount_Ok in Ha. exact Ha.
    + intros Ha. exists ses'. split; [|reflexivity].
      apply incrementMintCount_Ok. exact Ha.
  - change (increment_loop e self sid (S (S n)) ses)
      with (SBTSession.incrementMintCount (as_sender self e) sid ses
              ≫= increment_loop e self sid (S n)).
    rewrite bind_Ok. split.
    + intros (a & Ha & Hl). apply incrementMintCount_Ok in Ha.
      destruct Ha as (H1 & H2 & H3 & ->). apply IH in Hl.
      fold (counted 1 sid ses) in Hl.
      destruct Hl as (_ & _ & H4 & ->).
      rewrite counted_counted.
      rewrite sessionAt_counted, decide_True in H4 by reflexivity.
      simpl in H4, H1.
      replace (N.of_nat (S (S n))) with (1 + N.of_nat (S n)) by lia.
      repeat split; auto. lia.
    + intros (H1 & H2 & H3 & ->).
      exists (counted 1 sid ses). split.
      * apply incrementMintCount_Ok. simpl. repeat split; auto. lia.
      * apply IH.
        rewrite sessionAt_counted, decide_True by reflexivity. simpl.
        repeat split; auto; [lia |].
        rewrite counted_counted. f_equal. lia.
Qed.

Lemma batchMint_loop_cons e t x sid to rest s s' :
  batchMint_loop e t x sid (to :: rest) s = Ok s' <->
  ((to, sid) ∉ hasTokenFromSession s) /\
  can_issue e to s /\
  batchMint_loop e t x sid rest
    (session_issued to (batch_record e t x sid) s) = Ok s'.
Proof.
  simpl batchMint_loop.
  destruct (N.eqb_spec to 0) as [->|Hto]; simpl.
  { split; [discriminate | intros (_ & (? & _) & _); contradiction]. }
  destruct (bool_decide_reflect ((to, sid) ∈ hasTokenFromSession s)); simpl.
  { split; [discriminate | intros (? & _); contradiction]. }
  rewrite issue_Ok. unfold session_issued, batch_record. simpl. tauto.
Qed.

Lemma batchMint_loop_inv e t x sid rs s s' :
  batchMint_loop e t x sid rs s = Ok s' ->
  s' = batch_issued rs (batch_record e t x sid) s /\
  Forall (batch_recipient_ok e sid s) rs /\
  NoDup rs.
Proof.
  revert s. induction rs as [|to rest IH]; intros s.
  - intros [= <-]. repeat split; constructor.
  - intros H. apply batchMint_loop_cons in H. destruct H as (Hm & Hc & H).
    apply IH in H. destruct H as (-> & Hall & Hnd).
    split; [reflexivity |].
    assert (Hrest : Forall (fun a => a <> to /\ batch_recipient_ok e sid s a) rest).
    { eapply Forall_impl; [exact Hall |].
      intros a (Ha & Hn & Hr). simpl in Hn.
      repeat split; auto.
      - intros ->. apply Hn, elem_of_union_l, elem_of_singleton. reflexivity.
      - intros Hin. apply Hn, elem_of_union_r, Hin. }
    split.
    + constructor.
      * destruct Hc as (Hto & _ & _ & Hacc). repeat split; auto.
      * eapply Forall_impl; [exact Hrest | intros a Ha; apply Ha].
    + constructor; [| exact Hnd].
      intros Hin. rewrite Forall_forall in Hrest.
      destruct (Hrest to Hin) as (Hne & _). contradiction.
Qed.

Lemma batchMint_loop_ok e t x sid rs s :
  fresh_ok s ->
  Forall (batch_recipient_ok e sid s) rs ->
  NoDup rs ->
  _nextTokenId s + N.of_nat (length rs) <= MAX_UINT256 ->
  batchMint_loop e t x sid rs s = Ok (batch_issued rs (batch_record e t x sid) s).
Proof.
  revert s. induction rs as [|to rest IH]; intros s Hf Hall Hnd Hmax.
  - reflexivity.
  - apply Forall_cons in Hall. destruct Hall as ((Hto & Hm & Hacc) & Hall).
    apply NoDup_cons in Hnd. destruct Hnd as (Hnin & Hnd).
    simpl length in Hmax.
    apply batchMint_loop_cons. split; [exact Hm |]. split.
    + repeat split; auto; [lia |]. apply fresh_ok_ownerOf. exact Hf.
    + apply IH; auto.
      * apply fresh_ok_session_issued. exact Hf.
      * rewrite Forall_forall in Hall |- *. intros a Ha.
        destruct (Hall a Ha) as (H1 & H2 & H3).
        repeat split; auto. simpl.
        assert (Hne : a <> to) by (intros ->; contradiction).
        rewrite elem_of_union, elem_of_singleton.
        intros [[= Heq] | Hin]; contradiction.
      * simpl. lia.
Qed.

Lemma batch_issued_fresh rs d s : fresh_ok s -> fresh_ok (batch_issued rs d s).
Proof.
  revert s. induction rs as [|to rest IH]; intros s H; simpl; auto.
  apply IH. apply fresh_ok_session_issued. exact H.
Qed.

Lemma batchMintFromSession_inv e self reg tpl rs sid ses s r :
  batchMintFromSession e self reg tpl rs sid (ses, s) = Ok r ->
  IssuerRegistry.isAuthorizedIssuer reg (msg_sender e) = true /\
  paused s = false /\
  (0 < length rs <= 100)%nat /\
  SBTSession.isSessionClaimable e sid ses = true /\
  SBTSession.issuer (SBTSession.sessionAt ses sid) = msg_sender e /\
  SBTSession.currentMints (SBTSession.sessionAt ses sid)
    + N.of_nat (length rs) <= SBTSession.maxMints (SBTSession.sessionAt ses sid) /\
  Forall (batch_recipient_ok e sid s) rs /\
  NoDup rs /\
  r = (counted (N.of_nat (length rs)) sid ses,
       batch_issued rs
         (session_record e tpl (SBTSession.sessionAt ses sid) sid (msg_sender e))
         s).
Proof.
  unfold batchMintFromSession, onlyAuthorizedIssuer, whenNotPaused,
    SBTSession.getSessionStats.
  intros H. inv_ok.
  repeat match goal with
         | H : SBTSession.getSession _ _ = Ok _ |- _ =>
             apply getSession_Ok in H; destruct H as (? & ->)
         | H : SBTTemplate.getTemplate _ _ = Ok _ |- _ =>
             apply getTemplate_Ok in H; destruct H as (? & ? & ->)
         | H : (_ =? _) = true |- _ => apply N.eqb_eq in H
         | H : (_ <? _) = true |- _ => apply N.ltb_lt in H
         | H : (_ <=? _) = true |- _ => apply N.leb_le in H
         | H : batchMint_loop _ _ _ _ _ _ = Ok _ |- _ =>
             apply batchMint_loop_inv in H; destruct H as (-> & ? & ?)
         end.
  subst.
  destruct (length rs) as [|n] eqn:Hlen; [lia |].
  match goal with H : increment_loop _ _ _ _ _ = Ok _ |- _ =>
    apply increment_loop_Ok in H; destruct H as (_ & _ & _ & ->) end.
  repeat split; auto; lia.
Qed.

Lemma batchMintFromSession_ok e self reg tpl rs sid ses s :
  IssuerRegistry.isAuthorizedIssuer reg (msg_sender e) = true ->
  paused s = false ->
  (0 < length rs <= 100)%nat ->
  SBTSession.isSessionClaimable e sid ses = true ->
  SBTSession.issuer (SBTSession.sessionAt ses sid) = msg_sender e ->
  SBTSession.currentMints (SBTSession.sessionAt ses sid)
    + N.of_nat (length rs) <= SBTSession.maxMints (SBTSession.sessionAt ses sid) ->
  SBTSession.maxMints (SBTSession.sessionAt ses sid) <= MAX_UINT256 ->
  0 < SBTSession.templateId (SBTSession.sessionAt ses sid) ->
  SBTSession.templateId (SBTSession.sessionAt ses sid)
    <= SBTTemplate._templateIdCounter tpl ->
  self = SBTSession.sbtTokenContract ses ->
  fresh_ok s ->
  Forall (batch_recipient_ok e sid s) rs ->
  NoDup rs ->
  _nextTokenId s + N.of_nat (length rs) <= MAX_UINT256 ->
  batchMintFromSession e self reg tpl rs sid (ses, s) =
  Ok (counted (N.of_nat (length rs)) sid ses,
      batch_issued rs
        (session_record e tpl (SBTSession.sessionAt ses sid) sid (msg_sender e))
        s).
Proof.
  intros Hauth Hp Hlen Hcl Hiss Hcap Hmax Ht1 Ht2 Hself Hf Hall Hnd Hnext.
  unfold batchMintFromSession, onlyAuthorizedIssuer, whenNotPaused,
    SBTSession.getSessionStats.
  rewrite Hauth, Hp. simpl.
  assert (H1 : (0 <? N.of_nat (length rs)) = true) by (apply N.ltb_lt; lia).
  assert (H2 : (N.of_nat (length rs) <=? 100) = true) by (apply N.leb_le; lia).
  rewrite H1, H2, Hcl. simpl.
  apply isSessionClaimable_true in Hcl. destruct Hcl as (Hi & _).
  rewrite (proj2 (getSession_Ok sid ses _) (conj Hi eq_refl)). simpl.
  apply N.eqb_eq in Hiss. rewrite Hiss. simpl.
  rewrite (proj2 (sessionExists_Ok sid ses tt) Hi). simpl.
  rewrite (proj2 (checked_add_Ok _ _ _) (conj eq_refl (N.le_trans _ _ _ Hcap Hmax))).
  simpl.
  apply N.leb_le in Hcap. rewrite Hcap. simpl.
  rewrite (proj2 (getTemplate_Ok _ tpl _) (conj Ht1 (conj Ht2 eq_refl))). simpl.
  rewrite (batchMint_loop_ok e _ _ sid rs s Hf Hall Hnd Hnext). simpl.
  destruct (length rs) as [|n] eqn:Hn; [lia |].
  apply N.leb_le in Hcap.
  rewrite (proj2 (increment_loop_Ok e self sid n ses _)
             (conj Hself (conj Hi (conj (N.le_trans _ _ _ Hcap Hmax) eq_refl)))).
  reflexivity.
Qed.

End LedgerFacts.

Section RevocationFacts.

Import SBTToken.

Lemma dataAt_set_sbtData s a d b :
  dataAt (set_sbtData a d s) b = if decide (a = b) then d else dataAt s b.
Proof.
  unfold dataAt, set_sbtData; simpl.
  rewrite lookup_insert. destruct (decide (a = b)); reflexivity.
Qed.

(** [revokeSBT] passes exactly under its three checks, and then performs
    the writes below. *)
Lemma revokeSBT_Ok e id s s' :
  revokeSBT e id s = Ok s' <->
  _ownerOf s id <> 0 /\
  revoked (dataAt s id) = false /\
  paused s = false /\
  (msg_sender e = issuer (dataAt s id) \/ msg_sender e = owner s) /\
  s' = (let s2 := set_hasTokenFromTemplate (_ownerOf s id)
                    (templateId (dataAt s id)) false
                    (set_sbtData id (set_revoked true (dataAt s id)) s) in
        if negb (sessionId (dataAt s id) =? 0)
        then set_hasTokenFromSession (_ownerOf s id)
               (sessionId (dataAt s id)) false s2
        else s2).
Proof.
  unfold revokeSBT, validToken, whenNotPaused. split.
  - intros H. inv_ok.
    match goal with H : _ || _ = true |- _ =>
      apply orb_true_iff in H; rewrite !N.eqb_eq in H end.
    match goal with H : (_ =? _) = false |- _ => apply N.eqb_neq in H end.
    subst s'. auto 10.
  - intros (H1 & H2 & H3 & H4 & ->).
    apply N.eqb_neq in H1. rewrite H1, H2, H3. simpl.
    rewrite <- !N.eqb_eq, <- orb_true_iff in H4. rewrite H4. reflexivity.
Qed.

Lemma revokeSBT_frame e id s s' :
  revokeSBT e id s = Ok s' ->
  _nextTokenId s' = _nextTokenId s /\ _owners s' = _owners s /\
  paused s' = paused s /\ owner s' = owner s /\
  hasTokenFromTemplate s' =
    hasTokenFromTemplate s ∖ {[ (_ownerOf s id, templateId (dataAt s id)) ]} /\
  hasTokenFromSession s' =
    (if negb (sessionId (dataAt s id) =? 0)
     then hasTokenFromSession s ∖ {[ (_ownerOf s id, sessionId (dataAt s id)) ]}
     else hasTokenFromSession s) /\
  sbtData s' = <[id := set_revoked true (dataAt s id)]> (sbtData s).
Proof.
  intros H. apply revokeSBT_Ok in H. destruct H as (_ & _ & _ & _ & ->).
  simpl. destruct (negb _); simpl; auto 10.
Qed.

End RevocationFacts.

(** ** Well-formedness is an invariant *)

Lemma sessions_ok_full tpl ses sid :
  sessions_ok tpl ses ->
  SBTSession.issuer (SBTSession.sessionAt ses sid) <> 0 ->
  session_ok (SBTTemplate._templateIdCounter tpl) (SBTSession.sessionAt ses sid).
Proof.
  intros H. unfold SBTSession.sessionAt.
  destruct (SBTSession.sessions ses !! sid) as [x|] eqn:Hx; simpl.
  - intros _. exact (H sid x Hx).
  - intros Hne. contradiction.
Qed.

Lemma sessions_ok_counted tpl ses sid n :
  sessions_ok tpl ses ->
  SBTSession.issuer (SBTSession.sessionAt ses sid) <> 0 ->
  SBTSession.currentMints (SBTSession.sessionAt ses sid) + n
    <= SBTSession.maxMints (SBTSession.sessionAt ses sid) ->
  sessions_ok tpl (counted n sid ses).
Proof.
  intros H Hi Hc. apply sessions_ok_set; [exact H |].
  destruct (sessions_ok_full tpl ses sid H Hi) as (_ & H2 & H3 & H4).
  repeat split; auto.
Qed.

Lemma deploy_wf e ro to ta w : deploy e ro to ta = Ok w -> wf w.
Proof.
  unfold deploy, SBTTemplate.constructor, SBTSession.constructor,
    SBTToken.constructor, SBTSession.setSBTTokenContract.
  intros H. inv_ok. subst.
  match goal with H : IssuerRegistry.constructor _ _ = Ok _ |- _ =>
    apply constructor_admin in H; destruct H as (Ho & _ & Ha) end.
  constructor; simpl.
  - unfold admin_ok. rewrite Ho. exact Ha.
  - reflexivity.
  - intros sid' x' Hx. simpl in Hx. rewrite lookup_empty in Hx. discriminate.
  - intros id _. apply lookup_empty.
Qed.

Lemma exec_token_address h e c w w' :
  exec h e c w = Ok w' -> token_address w' = token_address w.
Proof. destruct c; simpl; intros H; inv_ok; subst; reflexivity. Qed.

Lemma exec_wf h e c w w' :
  wf w ->
  msg_sender e <> token_address w ->
  call_typed c = true ->
  exec h e c w = Ok w' ->
  wf w'.
Proof.
  intros [Ha Hw Hs Hf] Hsender Hty H.
  destruct c; simpl in H; apply fmap_Ok in H; destruct H as (r & H & ->);
    (constructor; simpl; auto).
  - eapply addIssuer_admin; eauto.
  - eapply removeIssuer_admin; eauto.
  - eapply updateIssuer_admin; eauto.
  - eapply pause_admin; eauto.
  - eapply unpause_admin; eauto.
  - eapply sessions_ok_grow; [| exact Hs].
    rewrite (createTemplate_counter _ _ _ _ _ _ H). lia.
  - eapply sessions_ok_grow; [| exact Hs].
    rewrite (updateTemplate_counter _ _ _ _ _ _ H). lia.
  - eapply sessions_ok_grow; [| exact Hs].
    rewrite (deactivateTemplate_counter _ _ _ _ H). lia.
  - eapply sessions_ok_grow; [| exact Hs].
    rewrite (reactivateTemplate_counter _ _ _ _ H). lia.
  - eapply sessions_ok_grow; [| exact Hs].
    rewrite (pause_counter _ _ _ H). lia.
  - eapply sessions_ok_grow; [| exact Hs].
    rewrite (unpause_counter _ _ _ H). lia.
  - (* createSession: wiring *)
    apply createSession_inv in H.
    destruct H as (_ & _ & _ & _ & _ & _ & ? & ? & _ & _ & _ & _ & _ & Hc & _).
    congruence.
  - (* createSession: the new session *)
    apply createSession_inv in H.
    destruct H as (_ & _ & Hact & Hmx & _ & _ & endTs & nonce & _ & _ & _ & _
                   & Hses & _).
    apply isTemplateActive_true in Hact. destruct Hact as (Ht1 & Ht2 & _).
    simpl in Hty. apply andb_true_iff in Hty. destruct Hty as (Hty & _).
    apply andb_true_iff in Hty. destruct Hty as (_ & Hty).
    apply N.leb_le in Hty.
    intros sid x. rewrite Hses, lookup_insert.
    destruct (decide _).
    + intros [= <-]. repeat split; simpl; auto. lia.
    + apply Hs.
  - apply incrementMintCount_Ok in H. destruct H as (_ & _ & _ & ->). exact Hw.
  - apply incrementMintCount_Ok in H. destruct H as (Hc & _). congruence.
  - apply endSession_inv in H. subst r. exact Hw.
  - unfold SBTSession.endSession in H. inv_ok.
    match goal with H : SBTSession.sessionExists _ _ = Ok _ |- _ =>
      apply sessionExists_Ok in H;
      pose proof (sessions_ok_full _ _ _ Hs H) as Hfull end.
    subst r. apply sessions_ok_set; [exact Hs | exact Hfull].
  - unfold SBTSession.pause in H. inv_ok. subst r. exact Hw.
  - unfold SBTSession.pause in H. inv_ok. subst r. exact Hs.
  - unfold SBTSession.unpause in H. inv_ok. subst r. exact Hw.
  - unfold SBTSession.unpause in H. inv_ok. subst r. exact Hs.
  - apply mintFromTemplate_Ok in H.
    destruct H as (_ & _ & _ & _ & _ & _ & ->). apply fresh_ok_issued, Hf.
  - destruct r as [ses' s']. apply mintFromSession_Ok in H.
    destruct H as (_ & _ & _ & _ & _ & _ & _ & _ & _ & _ & [= -> ->]). exact Hw.
  - destruct r as [ses' s']. apply mintFromSession_Ok in H.
    destruct H as (_ & _ & Hcl & _ & _ & _ & _ & _ & _ & _ & [= -> ->]).
    apply isSessionClaimable_true in Hcl. destruct Hcl as (Hi & _ & _ & Hlt).
    apply sessions_ok_counted; auto. lia.
  - destruct r as [ses' s']. apply mintFromSession_Ok in H.
    destruct H as (_ & _ & _ & _ & _ & _ & _ & _ & _ & _ & [= -> ->]).
    apply fresh_ok_session_issued, Hf.
  - destruct r as [ses' s']. apply batchMintFromSession_inv in H.
    destruct H as (_ & _ & _ & _ & _ & _ & _ & _ & [= -> ->]). exact Hw.
  - destruct r as [ses' s']. apply batchMintFromSession_inv in H.
    destruct H as (_ & _ & _ & Hcl & _ & Hcap & _ & _ & [= -> ->]).
    apply isSessionClaimable_true in Hcl. destruct Hcl as (Hi & _).
    apply sessions_ok_counted; auto.
  - destruct r as [ses' s']. apply batchMintFromSession_inv in H.
    destruct H as (_ & _ & _ & _ & _ & _ & _ & _ & [= -> ->]).
    apply batch_issued_fresh, Hf.
  - destruct r as [ses' s']. apply claimFromSession_Ok in H.
    destruct H as (_ & _ & _ & _ & _ & _ & _ & _ & [= -> ->]). exact Hw.
  - destruct r as [ses' s']. apply claimFromSession_Ok in H.
    destruct H as (_ & Hcl & _ & _ & _ & _ & _ & _ & [= -> ->]).
    apply isSessionClaimable_true in Hcl. destruct Hcl as (Hi & _ & _ & Hlt).
    apply sessions_ok_counted; auto. lia.
  - destruct r as [ses' s']. apply claimFromSession_Ok in H.
    destruct H as (_ & _ & _ & _ & _ & _ & _ & _ & [= -> ->]).
    apply fresh_ok_session_issued, Hf.
  - apply revokeSBT_frame in H. destruct H as (H1 & H2 & _).
    eapply fresh_ok_same; eauto.
  - unfold SBTToken.pause in H. inv_ok. subst r. exact Hf.
  - unfold SBTToken.unpause in H. inv_ok. subst r. exact Hf.
Qed.

Lemma reachable_wf h w : reachable h w -> wf w.
Proof.
  induction 1 as [e ro to ta w Hd | w e c w' _ IH Hs Hty Hx].
  - eapply deploy_wf; eauto.
  - eapply exec_wf; eauto.
Qed.

Lemma reachable_run h calls w w' :
  reachable h w -> external_calls w calls -> run h calls w = Ok w' ->
  reachable h w'.
Proof.
  revert w. induction calls as [|[e c] rest IH]; intros w Hr Hall Hrun.
  - injection Hrun as <-. exact Hr.
  - simpl in Hrun. apply bind_Ok in Hrun. destruct Hrun as (w1 & Hx & Hrun).
    apply Forall_cons in Hall. destruct Hall as ((Hs & Hty) & Hall).
    simpl in Hs, Hty.
    apply (IH w1); auto.
    + eapply reachable_step; eauto.
    + unfold external_calls.
      rewrite (exec_token_address _ _ _ _ _ Hx). exact Hall.
Qed.

(** ** The example deployment is reachable *)

Lemma genesis_reachable : reachable Scenario.hash Scenario.genesis.
Proof.
  apply (reachable_deploy Scenario.hash (Scenario.from Scenario.admin 100)
           Scenario.admin Scenario.admin Scenario.ledger).
  reflexivity.
Qed.

Lemma opened_reachable : reachable Scenario.hash Scenario.opened.
Proof.
  apply (reachable_run Scenario.hash Scenario.setup Scenario.genesis).
  - exact genesis_reachable.
  - repeat constructor; discriminate.
  - reflexivity.
Qed.

Lemma doubled_reachable : reachable Scenario.hash Scenario.doubled.
Proof.
  apply (reachable_run Scenario.hash Scenario.twice Scenario.opened).
  - exact opened_reachable.
  - repeat constructor; discriminate.
  - reflexivity.
Qed.

Lemma one_left_reachable : reachable Scenario.hash Scenario.one_left.
Proof.
  apply (reachable_step Scenario.hash Scenario.opened
           (Scenario.from Scenario.alice 103)
           (ClaimFromSession Scenario.sid)).
  - exact opened_reachable.
  - discriminate.
  - reflexivity.
  - reflexivity.
Qed.

Lemma deactivated_reachable : reachable Scenario.hash Scenario.deactivated.
Proof.
  apply (reachable_step Scenario.hash Scenario.opened
           (Scenario.from Scenario.admin 103) (DeactivateTemplate 1)).
  - exact opened_reachable.
  - discriminate.
  - reflexivity.
  - reflexivity.
Qed.

(** ** Session capacity *)


(** [incrementMintCount] really is unchecked: called by the ledger on a
    full session it succeeds, which is why the bound above rests on the
    checks of the mint paths. *)
Lemma incrementMintCount_unchecked e sid s :
  msg_sender e = SBTSession.sbtTokenContract s ->
  SBTSession.issuer (SBTSession.sessionAt s sid) <> 0 ->
  SBTSession.currentMints (SBTSession.sessionAt s sid) + 1 <= MAX_UINT256 ->
  exists s',
    SBTSession.incrementMintCount e sid s = Ok s' /\
    SBTSession.currentMints (SBTSession.sessionAt s' sid) =
    SBTSession.currentMints (SBTSession.sessionAt s sid) + 1.
Proof.
  intros H1 H2 H3. eexists. split.
  - apply incrementMintCount_Ok. eauto.
  - rewrite sessionAt_set_session, decide_True by reflexivity. reflexivity.
Qed.

(** ** Claimability *)

(** C4. [isSessionClaimable] answers [true] exactly when the session
    exists (its issuer field is not the zero address), is active, has not
    expired at the current block time, and has mints left; on an id that
    was never stored it answers [false]. Being a total boolean function,
    it never reverts. *)
Theorem isSessionClaimable_spec (e : Env) (sid : bytes32)
    (s : SBTSession.state) :
  (SBTSession.isSessionClaimable e sid s = true <->
   SBTSession.issuer (SBTSession.sessionAt s sid) <> 0 /\
   SBTSession.active (SBTSession.sessionAt s sid) = true /\
   block_timestamp e <= SBTSession.endTimestamp (SBTSession.sessionAt s sid) /\
   SBTSession.currentMints (SBTSession.sessionAt s sid)
     < SBTSession.maxMints (SBTSession.sessionAt s sid)) /\
  (SBTSession.sessions s !! sid = None ->
   SBTSession.isSessionClaimable e sid s = false).
Proof.
  split.
  - apply isSessionClaimable_true.
  - intros Hnone. unfold SBTSession.isSessionClaimable, SBTSession.sessionAt.
    rewrite Hnone. reflexivity.
Qed.

Lemma isSessionClaimable_spec_witness :
  SBTSession.isSessionClaimable (Scenario.from Scenario.alice 103)
    Scenario.sid (session Scenario.opened) = true /\
  SBTSession.isSessionClaimable (Scenario.from Scenario.alice 103)
    77 (session Scenario.opened) = false.
Proof.
  split.
  - apply (proj1 (isSessionClaimable_spec _ _ _)).
    repeat split; vm_compute; congruence.
  - apply (proj2 (isSessionClaimable_spec _ _ _)). reflexivity.
Defined.

(** ** The bootstrap administrator *)

Lemma exec_registry_owner h e c w w' :
  exec h e c w = Ok w' ->
  IssuerRegistry.owner (registry w') = IssuerRegistry.owner (registry w).
Proof.
  destruct c; simpl; intros H; apply fmap_Ok in H;
    destruct H as (r & H & ->); simpl; try reflexivity.
  - unfold IssuerRegistry.addIssuer in H. inv_ok. subst.
    apply owner_addIssuerInternal.
  - apply removeIssuer_inv in H. tauto.
  - unfold IssuerRegistry.updateIssuer in H. inv_ok. subst. reflexivity.
  - unfold IssuerRegistry.pause in H. inv_ok. subst. reflexivity.
  - unfold IssuerRegistry.unpause in H. inv_ok. subst. reflexivity.
Qed.


(** ** Batch minting *)




(** ** Revocation *)

Lemma exec_ok_intro {A} (f : A -> World) (m : result A) (a : A) :
  m = Ok a -> is_ok (f <$> m) = true.
Proof. intros ->. reflexivity. Qed.


(** ** Token text *)

Lemma batch_issued_data rs d s id x :
  SBTToken.sbtData (batch_issued rs d s) !! id = Some x ->
  SBTToken.sbtData s !! id = Some x \/ x = d.
Proof.
  revert s. induction rs as [|to rest IH]; intros s; simpl.
  - auto.
  - intros H. apply IH in H. destruct H as [H | H]; [| auto].
    simpl in H. rewrite lookup_insert in H.
    destruct (decide _); [injection H as <- |]; auto.
Qed.

(** A mint writes, for each new token, the text the template has now. *)
Lemma mint_copies_template h e c w w' id data :
  is_mint c = true ->
  exec h e c w = Ok w' ->
  SBTToken.sbtData (token w) !! id = None ->
  SBTToken.sbtData (token w') !! id = Some data ->
  SBTToken.name data =
    SBTTemplate.name
      (SBTTemplate.templateAt (template w) (SBTToken.templateId data)) /\
  SBTToken.description data =
    SBTTemplate.description
      (SBTTemplate.templateAt (template w) (SBTToken.templateId data)).
Proof.
  intros Hm Hx Hnone Hsome.
  destruct c; try discriminate Hm; simpl in Hx; apply fmap_Ok in Hx;
    destruct Hx as (r & Hx & ->).
  - apply mintFromTemplate_Ok in Hx.
    destruct Hx as (_ & _ & _ & _ & _ & _ & ->).
    simpl in Hsome. rewrite lookup_insert in Hsome.
    destruct (decide _); [injection Hsome as <-; auto | congruence].
  - destruct r as [ses' s']. apply mintFromSession_Ok in Hx.
    destruct Hx as (_ & _ & _ & _ & _ & _ & _ & _ & _ & _ & [= -> ->]).
    simpl in Hsome. rewrite lookup_insert in Hsome.
    destruct (decide _); [injection Hsome as <-; auto | congruence].
  - destruct r as [ses' s']. apply batchMintFromSession_inv in Hx.
    destruct Hx as (_ & _ & _ & _ & _ & _ & _ & _ & [= -> ->]).
    simpl in Hsome. apply batch_issued_data in Hsome.
    destruct Hsome as [Hsome | ->]; [congruence | auto].
  - destruct r as [ses' s']. apply claimFromSession_Ok in Hx.
    destruct Hx as (_ & _ & _ & _ & _ & _ & _ & _ & [= -> ->]).
    simpl in Hsome. rewrite lookup_insert in Hsome.
    destruct (decide _); [injection Hsome as <-; auto | congruence].
Qed.

(** [updateTemplate] writes to the template store only. *)
Lemma updateTemplate_frame h e tid n d w w' :
  exec h e (UpdateTemplate tid n d) w = Ok w' ->
  token w' = token w /\ session w' = session w /\ registry w' = registry w.
Proof.
  simpl. intros H. apply fmap_Ok in H. destruct H as (r & _ & ->). auto.
Qed.

(** C6. The record that a mint writes for a new token carries the name
    and the description that the source template has at that moment, and
    a later successful [updateTemplate], on that template or any other,
    leaves the stored record of the token (name, description, issuer,
    mintedAt, templateId, sessionId, and the revoked flag) as it is. *)
Theorem token_text_frozen (h : SessionHash) (e1 : Env) (c : Call)
    (w0 w1 : World) (id : uint256) (data : SBTToken.SBTData) :
  is_mint c = true ->
  exec h e1 c w0 = Ok w1 ->
  SBTToken.sbtData (token w0) !! id = None ->
  SBTToken.sbtData (token w1) !! id = Some data ->
  (SBTToken.name data =
     SBTTemplate.name
       (SBTTemplate.templateAt (template w0) (SBTToken.templateId data)) /\
   SBTToken.description data =
     SBTTemplate.description
       (SBTTemplate.templateAt (template w0) (SBTToken.templateId data))) /\
  (forall e2 tid n d w w2,
     SBTToken.sbtData (token w) !! id = Some data ->
     exec h e2 (UpdateTemplate tid n d) w = Ok w2 ->
     SBTToken.sbtData (token w2) !! id = Some data).
Proof.
  intros Hm Hx Hnone Hsome. split.
  - eapply mint_copies_template; eauto.
  - intros e2 tid n d w w2 Hd Hu.
    apply updateTemplate_frame in Hu. destruct Hu as (-> & _). exact Hd.
Qed.

(** Alice's token 1 is minted from "Workshop"; the template then becomes
    "Seminar", and the token still reads "Workshop". *)
Lemma token_text_frozen_witness :
  SBTTemplate.name (SBTTemplate.templateAt (template Scenario.edited) 1)
    = "Seminar" /\
  SBTToken.name (SBTToken.dataAt (token Scenario.minted) 1) = "Workshop" /\
  SBTToken.sbtData (token Scenario.edited) !! 1 =
  SBTToken.sbtData (token Scenario.minted) !! 1.
Proof.
  destruct (token_text_frozen Scenario.hash (Scenario.from Scenario.admin 103)
              (MintFromTemplate Scenario.alice 1) Scenario.opened
              Scenario.minted 1
              (SBTToken.dataAt (token Scenario.minted) 1)
              eq_refl eq_refl eq_refl eq_refl) as ((Hname & _) & Hfrozen).
  split; [reflexivity |]. split; [exact Hname |].
  rewrite (Hfrozen (Scenario.from Scenario.admin 104) 1 "Seminar"
             "Attended the seminar" Scenario.minted Scenario.edited
             eq_refl eq_refl).
  reflexivity.
Defined.

(** ** Self-service claims *)

Lemma is_ok_fmap {A B} (f : A -> B) (m : result A) : is_ok (f <$> m) = is_ok m.
Proof. destruct m; reflexivity. Qed.

Lemma is_ok_true {A} (m : result A) : is_ok m = true <-> exists a, m = Ok a.
Proof.
  destruct m as [a|r]; simpl; split; eauto; try discriminate.
  intros (a & Ha). discriminate.
Qed.

(** C8. In a reachable state, for a caller that can receive a token and
    while token ids are left, [claimFromSession] succeeds exactly when
    the ledger is not paused, the session is claimable and the caller
    does not hold the (caller, session) marker: whether the caller is an
    authorized issuer plays no part. [mintFromSession] succeeds under the
    same three conditions, read for the recipient, together with the two
    issuer conditions it adds. The token of a claim belongs to the caller
    and records the issuer of the session. *)
Theorem claimFromSession_open (h : SessionHash) (e : Env) (sid : bytes32)
    (w : World) :
  reachable h w ->
  SBTToken._nextTokenId (token w) + 1 <= MAX_UINT256 ->
  (msg_sender e <> 0 ->
   receiver_accepts e (msg_sender e) = true ->
   (is_ok (exec h e (ClaimFromSession sid) w) = true <->
    SBTToken.paused (token w) = false /\
    SBTSession.isSessionClaimable e sid (session w) = true /\
    (msg_sender e, sid) ∉ SBTToken.hasTokenFromSession (token w))) /\
  (forall to,
     to <> 0 ->
     receiver_accepts e to = true ->
     (is_ok (exec h e (MintFromSession to sid) w) = true <->
      (IssuerRegistry.isAuthorizedIssuer (registry w) (msg_sender e) = true /\
       SBTSession.issuer (SBTSession.sessionAt (session w) sid) = msg_sender e) /\
      SBTToken.paused (token w) = false /\
      SBTSession.isSessionClaimable e sid (session w) = true /\
      (to, sid) ∉ SBTToken.hasTokenFromSession (token w))) /\
  (forall w',
     exec h e (ClaimFromSession sid) w = Ok w' ->
     let d := SBTToken.dataAt (token w') (SBTToken._nextTokenId (token w)) in
     SBTToken._ownerOf (token w') (SBTToken._nextTokenId (token w))
       = msg_sender e /\
     SBTToken.issuer d = SBTSession.issuer (SBTSession.sessionAt (session w) sid) /\
     SBTToken.sessionId d = sid /\
     SBTToken.templateId d
       = SBTSession.templateId (SBTSession.sessionAt (session w) sid)).
Proof.
  intros Hr Hn. apply reachable_wf in Hr. destruct Hr as [_ Hw Hs Hf].
  assert (Hrest : SBTSession.isSessionClaimable e sid (session w) = true ->
            0 < SBTSession.templateId (SBTSession.sessionAt (session w) sid) /\
            SBTSession.templateId (SBTSession.sessionAt (session w) sid)
              <= SBTTemplate._templateIdCounter (template w) /\
            SBTSession.currentMints (SBTSession.sessionAt (session w) sid) + 1
              <= MAX_UINT256).
  { intros Hcl. apply isSessionClaimable_true in Hcl.
    destruct Hcl as (Hi & _ & _ & Hlt).
    destruct (sessions_ok_template _ _ _ Hs Hi) as (Ht1 & Ht2).
    destruct (sessions_ok_at _ _ sid Hs) as (_ & Hmax).
    repeat split; auto. lia. }
  assert (Hissue : forall to, to <> 0 -> receiver_accepts e to = true ->
                              can_issue e to (token w)).
  { intros to Hto Hacc. repeat split; auto. apply fresh_ok_ownerOf, Hf. }
  split; [| split].
  - intros Hsender Hacc. simpl. rewrite is_ok_fmap, is_ok_true. split.
    + intros ([ses' s'] & Hx). apply claimFromSession_Ok in Hx. tauto.
    + intros (Hp & Hcl & Hm). destruct (Hrest Hcl) as (Ht1 & Ht2 & Hc).
      eexists. apply claimFromSession_Ok.
      split; [exact Hp |]. split; [exact Hcl |]. split; [exact Hm |].
      split; [exact Ht1 |]. split; [exact Ht2 |].
      split; [apply Hissue; auto |]. split; [symmetry; exact Hw |].
      split; [exact Hc | reflexivity].
  - intros to Hto Hacc. simpl. rewrite is_ok_fmap, is_ok_true. split.
    + intros ([ses' s'] & Hx). apply mintFromSession_Ok in Hx. tauto.
    + intros ((Hauth & Hiss) & Hp & Hcl & Hm).
      destruct (Hrest Hcl) as (Ht1 & Ht2 & Hc).
      eexists. apply mintFromSession_Ok.
      split; [exact Hauth |]. split; [exact Hp |]. split; [exact Hcl |].
      split; [exact Hm |]. split; [exact Hiss |].
      split; [exact Ht1 |]. split; [exact Ht2 |].
      split; [apply Hissue; auto |]. split; [symmetry; exact Hw |].
      split; [exact Hc | reflexivity].
  - intros w' Hx. simpl in Hx. apply fmap_Ok in Hx.
    destruct Hx as ([ses' s'] & Hx & ->). apply claimFromSession_Ok in Hx.
    destruct Hx as (_ & _ & _ & _ & _ & _ & _ & _ & [= -> ->]).
    simpl. unfold SBTToken._ownerOf, SBTToken.dataAt. simpl.
    rewrite !lookup_insert_eq. simpl. auto.
Qed.

(** Alice is no issuer; she claims from the open session and receives a
    token whose issuer is the administrator who opened it. *)
Lemma claimFromSession_open_witness :
  IssuerRegistry.isAuthorizedIssuer (registry Scenario.opened) Scenario.alice
    = false /\
  is_ok (exec Scenario.hash (Scenario.from Scenario.alice 103)
           (ClaimFromSession Scenario.sid) Scenario.opened) = true /\
  SBTToken.issuer (SBTToken.dataAt (token Scenario.one_left) 1)
    = Scenario.admin.
Proof.
  assert (Hn : SBTToken._nextTokenId (token Scenario.opened) + 1 <= MAX_UINT256)
    by (vm_compute; discriminate).
  destruct (claimFromSession_open Scenario.hash
              (Scenario.from Scenario.alice 103) Scenario.sid Scenario.opened
              opened_reachable Hn) as (Hclaim & _ & Hissuer).
  split; [reflexivity |]. split.
  - apply Hclaim.
    + discriminate.
    + reflexivity.
    + split; [reflexivity |]. split; [reflexivity |].
      vm_compute. intros H. discriminate H.
  - apply (Hissuer Scenario.one_left eq_refl).
Defined.

(** ** Pausing *)

(** C9, as stated, fails: with the pause flag of the issuer registry set
    and the other three flags clear, the administrator still creates a
    template. The registry's flag is not consulted outside the registry. *)
Lemma registry_pause_is_not_global :
  IssuerRegistry.paused (registry Scenario.registry_paused) = true /\
  guarded_by (CreateTemplate "Workshop" "Attended the workshop")
    = Some Templates /\
  is_ok (exec Scenario.hash (Scenario.from Scenario.admin 102)
           (CreateTemplate "Workshop" "Attended the workshop")
           Scenario.registry_paused) = true.
Proof. split; [| split]; reflexivity. Qed.

(** C9, amended. Each contract has a pause flag of its own, and while the
    flag of a contract is set no entry point of that contract that
    carries [whenNotPaused] succeeds: [addIssuer], [removeIssuer] and
    [updateIssuer] under the registry's flag; [createTemplate],
    [updateTemplate], [deactivateTemplate] and [reactivateTemplate] under
    the template store's; [createSession] and [endSession] under the
    session manager's; the four mint paths and [revokeSBT] under the
    ledger's. The failed call leaves the state as it was. *)
Theorem pause_gates_own_component (h : SessionHash) (e : Env) (c : Call)
    (k : Component) (w : World) :
  guarded_by c = Some k ->
  component_paused k w = true ->
  is_ok (exec h e c w) = false /\ transact h e c w = w.
Proof.
  intros Hg Hp.
  assert (Hfail : is_ok (exec h e c w) = false).
  { destruct (exec h e c w) as [w'|r] eqn:Hx; [exfalso | reflexivity].
    destruct c; try discriminate Hg; injection Hg as <-; simpl in Hp, Hx;
      apply fmap_Ok in Hx; destruct Hx as (r & Hx & _).
    - unfold IssuerRegistry.addIssuer, IssuerRegistry.whenNotPaused in Hx.
      inv_ok. congruence.
    - apply removeIssuer_inv in Hx. destruct Hx as (_ & Hx & _). congruence.
    - unfold IssuerRegistry.updateIssuer, IssuerRegistry.whenNotPaused in Hx.
      inv_ok. congruence.
    - unfold SBTTemplate.createTemplate, SBTTemplate.whenNotPaused in Hx.
      inv_ok. congruence.
    - unfold SBTTemplate.updateTemplate, SBTTemplate.whenNotPaused in Hx.
      inv_ok. congruence.
    - apply deactivateTemplate_inv in Hx.
      destruct Hx as (_ & _ & _ & Hx & _). congruence.
    - unfold SBTTemplate.reactivateTemplate, SBTTemplate.whenNotPaused in Hx.
      inv_ok. congruence.
    - apply createSession_inv in Hx. destruct Hx as (_ & Hx & _). congruence.
    - unfold SBTSession.endSession, SBTSession.whenNotPaused in Hx.
      inv_ok. congruence.
    - apply mintFromTemplate_Ok in Hx. destruct Hx as (_ & Hx & _). congruence.
    - destruct r as [ses' s']. apply mintFromSession_Ok in Hx.
      destruct Hx as (_ & Hx & _). congruence.
    - destruct r as [ses' s']. apply batchMintFromSession_inv in Hx.
      destruct Hx as (_ & Hx & _). congruence.
    - destruct r as [ses' s']. apply claimFromSession_Ok in Hx.
      destruct Hx as (Hx & _). congruence.
    - apply revokeSBT_Ok in Hx. destruct Hx as (_ & _ & Hx & _). congruence. }
  split; [exact Hfail |].
  unfold transact. destruct (exec h e c w); [discriminate Hfail | reflexivity].
Qed.

Lemma pause_gates_own_component_witness :
  is_ok (exec Scenario.hash (Scenario.from Scenario.admin 102)
           (AddIssuer Scenario.bob "Bob" "Guild") Scenario.registry_paused)
    = false /\
  transact Scenario.hash (Scenario.from Scenario.admin 102)
    (AddIssuer Scenario.bob "Bob" "Guild") Scenario.registry_paused
    = Scenario.registry_paused.
Proof.
  apply (pause_gates_own_component Scenario.hash
           (Scenario.from Scenario.admin 102)
           (AddIssuer Scenario.bob "Bob" "Guild") Registry
           Scenario.registry_paused).
  - reflexivity.
  - reflexivity.
Defined.

(** ** Sessions outlive the activity of their template *)

(** Issuing further tokens leaves the ids below the counter alone. *)
Lemma batch_issued_old rs d s id :
  id < SBTToken._nextTokenId s ->
  SBTToken.sbtData (batch_issued rs d s) !! id = SBTToken.sbtData s !! id /\
  SBTToken._owners (batch_issued rs d s) !! id = SBTToken._owners s !! id.
Proof.
  revert s. induction rs as [|to rest IH]; intros s Hid; simpl.
  - auto.
  - destruct (IH (session_issued to d s)) as (H1 & H2); [simpl; lia |].
    rewrite H1, H2. simpl. rewrite !lookup_insert_ne by lia. auto.
Qed.

(** The [i]-th recipient of a batch owns token [_nextTokenId + i], which
    carries the record of the batch. *)
Lemma batch_issued_new rs d s i to :
  rs !! i = Some to ->
  SBTToken.sbtData (batch_issued rs d s)
    !! (SBTToken._nextTokenId s + N.of_nat i) = Some d /\
  SBTToken._owners (batch_issued rs d s)
    !! (SBTToken._nextTokenId s + N.of_nat i) = Some to.
Proof.
  revert s i. induction rs as [|a rest IH]; intros s i Hi.
  - rewrite lookup_nil in Hi. discriminate.
  - destruct i as [|j]; simpl in Hi.
    + injection Hi as ->. simpl batch_issued.
      destruct (batch_issued_old rest d (session_issued to d s)
                  (SBTToken._nextTokenId s + N.of_nat 0)) as (H1 & H2);
        [simpl; lia |].
      rewrite H1, H2. simpl. rewrite N.add_0_r, !lookup_insert_eq. auto.
    + destruct (IH (session_issued a d s) j Hi) as (H1 & H2).
      simpl in H1, H2. simpl batch_issued.
      replace (SBTToken._nextTokenId s + N.of_nat (S j))
        with (SBTToken._nextTokenId s + 1 + N.of_nat j) by lia.
      auto.
Qed.

(** C10. In a reachable state in which the template of a claimable
    session is not active, all three session paths still mint: none of
    them consults the template's [active] flag, and each new token
    carries the name and description the inactive template has now.
    Every path keeps its own remaining checks (for the issuer paths the
    caller's authorization and ownership of the session, the uniqueness
    marker, the receiver check, and for a batch its size and the
    capacity for all of it). *)
Theorem session_mints_ignore_template_flag (h : SessionHash) (e : Env)
    (sid : bytes32) (w : World) :
  reachable h w ->
  SBTTemplate.isTemplateActive (template w)
    (SBTSession.templateId (SBTSession.sessionAt (session w) sid)) = false ->
  SBTSession.isSessionClaimable e sid (session w) = true ->
  SBTToken.paused (token w) = false ->
  let t := SBTTemplate.templateAt (template w)
             (SBTSession.templateId (SBTSession.sessionAt (session w) sid)) in
  let next := SBTToken._nextTokenId (token w) in
  (msg_sender e <> 0 ->
   receiver_accepts e (msg_sender e) = true ->
   (msg_sender e, sid) ∉ SBTToken.hasTokenFromSession (token w) ->
   next + 1 <= MAX_UINT256 ->
   exists w',
     exec h e (ClaimFromSession sid) w = Ok w' /\
     SBTToken._ownerOf (token w') next = msg_sender e /\
     SBTToken.name (SBTToken.dataAt (token w') next) = SBTTemplate.name t /\
     SBTToken.description (SBTToken.dataAt (token w') next)
       = SBTTemplate.description t) /\
  (forall to,
     IssuerRegistry.isAuthorizedIssuer (registry w) (msg_sender e) = true ->
     SBTSession.issuer (SBTSession.sessionAt (session w) sid) = msg_sender e ->
     to <> 0 ->
     receiver_accepts e to = true ->
     (to, sid) ∉ SBTToken.hasTokenFromSession (token w) ->
     next + 1 <= MAX_UINT256 ->
     exists w',
       exec h e (MintFromSession to sid) w = Ok w' /\
       SBTToken._ownerOf (token w') next = to /\
       SBTToken.name (SBTToken.dataAt (token w') next) = SBTTemplate.name t /\
       SBTToken.description (SBTToken.dataAt (token w') next)
         = SBTTemplate.description t) /\
  (forall rs,
     IssuerRegistry.isAuthorizedIssuer (registry w) (msg_sender e) = true ->
     SBTSession.issuer (SBTSession.sessionAt (session w) sid) = msg_sender e ->
     (0 < length rs <= 100)%nat ->
     SBTSession.currentMints (SBTSession.sessionAt (session w) sid)
       + N.of_nat (length rs)
       <= SBTSession.maxMints (SBTSession.sessionAt (session w) sid) ->
     Forall (batch_recipient_ok e sid (token w)) rs ->
     NoDup rs ->
     next + N.of_nat (length rs) <= MAX_UINT256 ->
     exists w',
       exec h e (BatchMintFromSession rs sid) w = Ok w' /\
       forall i to,
         rs !! i = Some to ->
         SBTToken._ownerOf (token w') (next + N.of_nat i) = to /\
         SBTToken.name (SBTToken.dataAt (token w') (next + N.of_nat i))
           = SBTTemplate.name t /\
         SBTToken.description (SBTToken.dataAt (token w') (next + N.of_nat i))
           = SBTTemplate.description t).
Proof.
  intros Hr _ Hcl Hp t next. apply reachable_wf in Hr.
  destruct Hr as [_ Hw Hs Hf].
  pose proof (proj1 (isSessionClaimable_true _ _ _) Hcl) as (Hi & _ & _ & Hlt).
  destruct (sessions_ok_template _ _ _ Hs Hi) as (Ht1 & Ht2).
  destruct (sessions_ok_at _ _ sid Hs) as (_ & Hmax).
  assert (Hissue : forall to, to <> 0 -> receiver_accepts e to = true ->
                              next + 1 <= MAX_UINT256 ->
                              can_issue e to (token w)).
  { intros to Hto Hacc Hn. repeat split; auto. apply fresh_ok_ownerOf, Hf. }
  split; [| split].
  - intros Hsender Hacc Hm Hn. eexists. split.
    + simpl. apply fmap_Ok. eexists. split; [| reflexivity].
      apply claimFromSession_Ok.
      split; [exact Hp |]. split; [exact Hcl |]. split; [exact Hm |].
      split; [exact Ht1 |]. split; [exact Ht2 |].
      split; [apply Hissue; auto |]. split; [symmetry; exact Hw |].
      split; [lia | reflexivity].
    + simpl. unfold SBTToken._ownerOf, SBTToken.dataAt. simpl.
      rewrite !lookup_insert_eq. simpl. auto.
  - intros to Hauth Hiss Hto Hacc Hm Hn. eexists. split.
    + simpl. apply fmap_Ok. eexists. split; [| reflexivity].
      apply mintFromSession_Ok.
      split; [exact Hauth |]. split; [exact Hp |]. split; [exact Hcl |].
      split; [exact Hm |]. split; [exact Hiss |].
      split; [exact Ht1 |]. split; [exact Ht2 |].
      split; [apply Hissue; auto |]. split; [symmetry; exact Hw |].
      split; [lia | reflexivity].
    + simpl. unfold SBTToken._ownerOf, SBTToken.dataAt. simpl.
      rewrite !lookup_insert_eq. simpl. auto.
  - intros rs Hauth Hiss Hlen Hcap Hall Hnd Hn. eexists. split.
    + simpl. apply fmap_Ok. eexists. split; [| reflexivity].
      apply batchMintFromSession_ok; auto.
    + intros i to Hi'. simpl.
      destruct (batch_issued_new rs
                  (session_record e (template w)
                     (SBTSession.sessionAt (session w) sid) sid (msg_sender e))
                  (token w) i to Hi') as (H1 & H2).
      unfold SBTToken._ownerOf, SBTToken.dataAt. fold next in H1, H2.
      rewrite H1, H2. simpl. auto.
Qed.

(** Template 1 is deactivated after the session was opened; Alice still
    claims, and her token reads "Workshop". *)
Lemma session_mints_ignore_template_flag_witness :
  SBTTemplate.isTemplateActive (template Scenario.deactivated) 1 = false /\
  exists w',
    exec Scenario.hash (Scenario.from Scenario.alice 110)
      (ClaimFromSession Scenario.sid) Scenario.deactivated = Ok w' /\
    SBTToken._ownerOf (token w') 1 = Scenario.alice /\
    SBTToken.name (SBTToken.dataAt (token w') 1) = "Workshop".
Proof.
  split; [reflexivity |].
  destruct (session_mints_ignore_template_flag Scenario.hash
              (Scenario.from Scenario.alice 110) Scenario.sid
              Scenario.deactivated deactivated_reachable
              eq_refl eq_refl eq_refl) as (Hclaim & _ & _).
  destruct Hclaim as (w' & Hx & Ho & Hname & _).
  - discriminate.
  - reflexivity.
  - vm_compute. intros H. discriminate H.
  - vm_compute. discriminate.
  - exists w'. split; [exact Hx |]. split; [exact Ho | exact Hname].
Defined.

(** ** One token per owner and template *)

(** C1 does not hold of the code. [mintFromTemplate] refuses a recipient
    who holds the (owner, template) marker, but the three session paths
    only test the (owner, session) marker, although they set both. After
    a direct mint of template 1 to Alice, her own [claimFromSession] on a
    session of template 1 succeeds, and in the resulting reachable state
    she holds the non-revoked tokens 1 and 2 of the same template. *)
Theorem template_uniqueness_broken :
  reachable Scenario.hash Scenario.doubled /\
  live_token Scenario.doubled Scenario.alice 1 1 /\
  live_token Scenario.doubled Scenario.alice 1 2 /\
  ~ unique_per_template Scenario.doubled.
Proof.
  assert (H1 : live_token Scenario.doubled Scenario.alice 1 1)
    by (repeat split; reflexivity).
  assert (H2 : live_token Scenario.doubled Scenario.alice 1 2)
    by (repeat split; reflexivity).
  split; [exact doubled_reachable |]. split; [exact H1 |]. split; [exact H2 |].
  intros Hu.
  specialize (Hu Scenario.alice 1 1 2).
  assert (Hne : Scenario.alice <> 0) by discriminate.
  specialize (Hu Hne H1 H2). discriminate Hu.
Qed.

(** * Further properties of the contracts *)

Local Open Scope list_scope.

(** ** Preservation by entry point *)

(** A property of the registry that its five entry points keep is kept
    by every call of the system. *)
Lemma exec_registry_preserves h e c w w' (P : IssuerRegistry.state -> Prop) :
  (forall i n o s s', IssuerRegistry.addIssuer e i n o s = Ok s' -> P s -> P s') ->
  (forall i s s', IssuerRegistry.removeIssuer e i s = Ok s' -> P s -> P s') ->
  (forall i n o s s',
     IssuerRegistry.updateIssuer e i n o s = Ok s' -> P s -> P s') ->
  (forall s s', IssuerRegistry.pause e s = Ok s' -> P s -> P s') ->
  (forall s s', IssuerRegistry.unpause e s = Ok s' -> P s -> P s') ->
  exec h e c w = Ok w' -> P (registry w) -> P (registry w').
Proof.
  intros Ha Hr Hu Hp Hq Hx HP.
  destruct c; simpl in Hx; apply fmap_Ok in Hx; destruct Hx as (r & Hx & ->);
    simpl; eauto.
Qed.

(** ** The issuer registry: adding, updating, enumerating *)

Section RegistryMore.

Import IssuerRegistry.

Lemma nonempty_true n : nonempty n = true <-> n <> EmptyString.
Proof.
  unfold nonempty. rewrite negb_true_iff. apply String.eqb_neq.
Qed.

Lemma addIssuer_Ok e a n o s s' :
  addIssuer e a n o s = Ok s' <->
  msg_sender e = owner s /\ paused s = false /\ a <> 0 /\
  n <> EmptyString /\ isAuthorizedIssuer s a = false /\
  s' = _addIssuerInternal e a n o s.
Proof.
  unfold addIssuer, onlyOwner, whenNotPaused, isAuthorizedIssuer. split.
  - intros H. inv_ok.
    repeat match goal with
           | H : (_ =? _) = true |- _ => apply N.eqb_eq in H
           | H : (_ =? _) = false |- _ => apply N.eqb_neq in H
           | H : nonempty _ = true |- _ => apply nonempty_true in H
           end.
    subst s'. auto 10.
  - intros (H1 & H2 & H3 & H4 & H5 & ->).
    apply N.eqb_eq in H1. apply N.eqb_neq in H3. apply nonempty_true in H4.
    rewrite H1, H2, H3, H4, H5. reflexivity.
Qed.

Lemma updateIssuer_Ok e a n o s s' :
  updateIssuer e a n o s = Ok s' <->
  msg_sender e = owner s /\ paused s = false /\ a <> 0 /\
  isAuthorizedIssuer s a = true /\ n <> EmptyString /\
  s' = set_issuer a
         (mkIssuerInfo n o (authorized (issuerAt s a)) (addedAt (issuerAt s a))) s.
Proof.
  unfold updateIssuer, onlyOwner, whenNotPaused, isAuthorizedIssuer. split.
  - intros H. inv_ok.
    repeat match goal with
           | H : (_ =? _) = true |- _ => apply N.eqb_eq in H
           | H : (_ =? _) = false |- _ => apply N.eqb_neq in H
           | H : nonempty _ = true |- _ => apply nonempty_true in H
           end.
    subst s'. auto 10.
  - intros (H1 & H2 & H3 & H4 & H5 & ->).
    apply N.eqb_eq in H1. apply N.eqb_neq in H3. apply nonempty_true in H5.
    rewrite H1, H2, H3, H4, H5. reflexivity.
Qed.

Lemma issuerAddresses_addIssuerInternal e a n o s :
  issuerAddresses (_addIssuerInternal e a n o s) =
  (if bool_decide (a ∈ isInArray s) then issuerAddresses s
   else issuerAddresses s ++ [a])%list /\
  isInArray (_addIssuerInternal e a n o s) =
  (if bool_decide (a ∈ isInArray s) then isInArray s
   else {[ a ]} ∪ isInArray s).
Proof.
  unfold _addIssuerInternal. simpl.
  destruct (bool_decide (a ∈ isInArray s)); auto.
Qed.

End RegistryMore.

Lemma isAuthorizedIssuer_addIssuerInternal e a n o s b :
  IssuerRegistry.isAuthorizedIssuer
    (IssuerRegistry._addIssuerInternal e a n o s) b =
  if decide (a = b) then true else IssuerRegistry.isAuthorizedIssuer s b.
Proof.
  unfold IssuerRegistry.isAuthorizedIssuer.
  rewrite issuerAt_addIssuerInternal. destruct (decide (a = b)); reflexivity.
Qed.

Lemma registry_ok_addIssuerInternal e a n o s :
  a <> 0 -> registry_ok s ->
  registry_ok (IssuerRegistry._addIssuerInternal e a n o s).
Proof.
  intros Ha (Hnd & Hset & Hauth).
  destruct (issuerAddresses_addIssuerInternal e a n o s) as (Hl & Hs).
  unfold registry_ok. rewrite Hl, Hs.
  destruct (bool_decide_reflect (a ∈ IssuerRegistry.isInArray s)) as [Hin | Hnin].
  - split; [exact Hnd |]. split; [exact Hset |].
    intros b. rewrite isAuthorizedIssuer_addIssuerInternal.
    destruct (decide (a = b)) as [<- | Hne]; [| apply Hauth].
    intros _. split; [apply Hset, Hin | exact Ha].
  - split; [| split].
    + apply NoDup_app. split; [exact Hnd |]. split; [| apply NoDup_singleton].
      intros x Hx Hxa. apply list_elem_of_singleton in Hxa. subst x.
      apply Hnin, Hset, Hx.
    + intros b. rewrite elem_of_union, elem_of_singleton, elem_of_app,
        list_elem_of_singleton, Hset. tauto.
    + intros b. rewrite isAuthorizedIssuer_addIssuerInternal, elem_of_app,
        list_elem_of_singleton.
      destruct (decide (a = b)) as [<- | Hne]; [auto |].
      intros Hb. destruct (Hauth b Hb). auto.
Qed.

Lemma removeIssuer_Ok e a s s' :
  IssuerRegistry.removeIssuer e a s = Ok s' <->
  msg_sender e = IssuerRegistry.owner s /\ IssuerRegistry.paused s = false /\
  a <> 0 /\ IssuerRegistry.isAuthorizedIssuer s a = true /\
  a <> IssuerRegistry.owner s /\
  s' = IssuerRegistry.set_issuer a
         (IssuerRegistry.mkIssuerInfo
            (IssuerRegistry.name (IssuerRegistry.issuerAt s a))
            (IssuerRegistry.organization (IssuerRegistry.issuerAt s a)) false
            (IssuerRegistry.addedAt (IssuerRegistry.issuerAt s a))) s.
Proof.
  unfold IssuerRegistry.removeIssuer, IssuerRegistry.onlyOwner,
    IssuerRegistry.whenNotPaused, IssuerRegistry.isAuthorizedIssuer. split.
  - intros H. inv_ok.
    repeat match goal with
           | H : (_ =? _) = true |- _ => apply N.eqb_eq in H
           | H : (_ =? _) = false |- _ => apply N.eqb_neq in H
           end.
    subst s'. auto 10.
  - intros (H1 & H2 & H3 & H4 & H5 & ->).
    apply N.eqb_eq in H1. apply N.eqb_neq in H3. apply N.eqb_neq in H5.
    rewrite H1, H2, H3, H4, H5. reflexivity.
Qed.

Lemma registry_ok_exec h e c w w' :
  exec h e c w = Ok w' -> registry_ok (registry w) -> registry_ok (registry w').
Proof.
  apply exec_registry_preserves.
  - intros i n o s s' H Hok. apply addIssuer_Ok in H.
    destruct H as (_ & _ & Hi & _ & _ & ->).
    apply registry_ok_addIssuerInternal; auto.
  - intros i s s' H (Hnd & Hset & Hauth). apply removeIssuer_Ok in H.
    destruct H as (_ & _ & _ & _ & _ & ->).
    split; [exact Hnd |]. split; [exact Hset |].
    intros b. unfold IssuerRegistry.isAuthorizedIssuer.
    rewrite issuerAt_set_issuer. destruct (decide (i = b)); [discriminate |].
    apply Hauth.
  - intros i n o s s' H (Hnd & Hset & Hauth). apply updateIssuer_Ok in H.
    destruct H as (_ & _ & _ & Hi & _ & ->).
    split; [exact Hnd |]. split; [exact Hset |].
    intros b. unfold IssuerRegistry.isAuthorizedIssuer.
    rewrite issuerAt_set_issuer. destruct (decide (i = b)) as [<- |].
    + intros _. apply Hauth, Hi.
    + apply Hauth.
  - intros s s' H Hok. unfold IssuerRegistry.pause in H. inv_ok. subst. exact Hok.
  - intros s s' H Hok. unfold IssuerRegistry.unpause in H. inv_ok. subst.
    exact Hok.
Qed.

Lemma registry_ok_reachable h w : reachable h w -> registry_ok (registry w).
Proof.
  induction 1 as [e ro to ta w Hd | w e c w' _ IH _ _ Hx].
  - unfold deploy in Hd. inv_ok. subst. simpl.
    match goal with H : IssuerRegistry.constructor _ _ = Ok _ |- _ =>
      unfold IssuerRegistry.constructor in H end.
    inv_ok. subst.
    match goal with H : (_ =? _) = false |- _ => apply N.eqb_neq in H end.
    apply registry_ok_addIssuerInternal; [assumption |].
    split; [constructor |]. split.
    + intros a. simpl. rewrite elem_of_empty. split; [tauto |].
      intros Ha. inversion Ha.
    + intros a Ha. discriminate Ha.
  - eapply registry_ok_exec; eauto.
Qed.

(** The counting loop counts the authorized entries. *)
Lemma count_loop_spec s l c :
  c + N.of_nat (length l) <= MAX_UINT256 ->
  IssuerRegistry.count_loop s l c =
  Ok (c + N.of_nat
            (length (filter (fun a => IssuerRegistry.isAuthorizedIssuer s a = true) l))).
Proof.
  revert c. induction l as [|a rest IH]; intros c Hc; simpl.
  - rewrite N.add_0_r. reflexivity.
  - simpl length in Hc.
    destruct (IssuerRegistry.authorized (IssuerRegistry.issuerAt s a)) eqn:Ha.
    + rewrite filter_cons_True by exact Ha.
      assert (Hc1 : c + 1 <= MAX_UINT256) by lia.
      rewrite (proj2 (checked_add_Ok c 1 _) (conj eq_refl Hc1)). simpl.
      rewrite IH by lia. f_equal. simpl length. lia.
    + rewrite filter_cons_False
        by (unfold IssuerRegistry.isAuthorizedIssuer; congruence).
      apply IH. lia.
Qed.

(** The filling loop writes them, in order, into an array that has
    exactly room for them. *)
Lemma fill_loop_spec s l done k :
  k = length (filter (fun a => IssuerRegistry.isAuthorizedIssuer s a = true) l) ->
  N.of_nat (length done + length l) <= MAX_UINT256 ->
  IssuerRegistry.fill_loop s l (done ++ replicate k 0) (N.of_nat (length done)) =
  Ok (done ++ filter (fun a => IssuerRegistry.isAuthorizedIssuer s a = true) l).
Proof.
  revert done k. induction l as [|a rest IH]; intros done k Hk Hmax; simpl.
  - subst k. reflexivity.
  - simpl length in Hmax.
    destruct (IssuerRegistry.authorized (IssuerRegistry.issuerAt s a)) eqn:Ha.
    + rewrite filter_cons_True in Hk |- * by exact Ha.
      simpl length in Hk. subst k.
      assert (Hlt : (N.of_nat (length done)
                     <? N.of_nat (length (done ++ replicate
                          (S (length (filter
                             (fun a => IssuerRegistry.isAuthorizedIssuer s a = true)
                             rest))) 0))) = true).
      { apply N.ltb_lt. rewrite length_app, length_replicate. lia. }
      rewrite Hlt. simpl.
      assert (Hd1 : N.of_nat (length done) + 1 <= MAX_UINT256) by lia.
      rewrite (proj2 (checked_add_Ok (N.of_nat (length done)) 1 _)
                 (conj eq_refl Hd1)). simpl.
      rewrite Nat2N.id.
      replace (length done) with (length done + 0)%nat at 1 by lia.
      rewrite insert_app_r. simpl.
      replace (N.of_nat (length done) + 1) with (N.of_nat (length (done ++ [a])))
        by (rewrite length_app; simpl; lia).
      replace (done ++ a :: replicate
                 (length (filter (fun a0 => IssuerRegistry.isAuthorizedIssuer s a0 = true)
                            rest)) 0)
        with ((done ++ [a]) ++ replicate
                (length (filter (fun a0 => IssuerRegistry.isAuthorizedIssuer s a0 = true)
                           rest)) 0)
        by (rewrite <- app_assoc; reflexivity).
      rewrite IH; [| reflexivity | rewrite length_app; simpl; lia].
      rewrite <- app_assoc. reflexivity.
    + rewrite filter_cons_False in Hk |- *
        by (unfold IssuerRegistry.isAuthorizedIssuer; congruence).
      apply IH; [exact Hk | lia].
Qed.

Lemma getAllIssuers_Ok s :
  N.of_nat (length (IssuerRegistry.issuerAddresses s)) <= MAX_UINT256 ->
  IssuerRegistry.getAllIssuers s = Ok (authorized_entries s) /\
  IssuerRegistry.getAuthorizedIssuerCount s =
  Ok (N.of_nat (length (authorized_entries s))).
Proof.
  intros Hmax. unfold IssuerRegistry.getAllIssuers,
    IssuerRegistry.getAuthorizedIssuerCount, authorized_entries.
  rewrite count_loop_spec by (simpl; lia). rewrite N.add_0_l. simpl.
  split; [| reflexivity].
  rewrite Nat2N.id.
  apply (fill_loop_spec s (IssuerRegistry.issuerAddresses s) []);
    [reflexivity | simpl; lia].
Qed.

Lemma with_bob_reachable : reachable Scenario.hash Scenario.with_bob.
Proof.
  apply (reachable_step Scenario.hash Scenario.genesis
           (Scenario.from Scenario.admin 101)
           (AddIssuer Scenario.bob "Bob" "Guild")).
  - exact genesis_reachable.
  - discriminate.
  - reflexivity.
  - reflexivity.
Qed.

Lemma without_bob_reachable : reachable Scenario.hash Scenario.without_bob.
Proof.
  apply (reachable_step Scenario.hash Scenario.with_bob
           (Scenario.from Scenario.admin 102) (RemoveIssuer Scenario.bob)).
  - exact with_bob_reachable.
  - discriminate.
  - reflexivity.
  - reflexivity.
Qed.

(** X1. [addIssuer] succeeds exactly when the caller is the owner, the
    registry is not paused, the address is not zero, the name is not
    empty and the address is not authorized already. It then authorizes
    the address with the given name and organization and the current
    block time, and changes the record of no other address. *)
Theorem addIssuer_spec (e : Env) (a : address) (n o : string)
    (s : IssuerRegistry.state) :
  (is_ok (IssuerRegistry.addIssuer e a n o s) = true <->
   msg_sender e = IssuerRegistry.owner s /\
   IssuerRegistry.paused s = false /\
   a <> 0 /\ n <> EmptyString /\
   IssuerRegistry.isAuthorizedIssuer s a = false) /\
  (forall s',
     IssuerRegistry.addIssuer e a n o s = Ok s' ->
     IssuerRegistry.getIssuerInfo s' a =
       IssuerRegistry.mkIssuerInfo n o true (block_timestamp e) /\
     (forall b, b <> a ->
        IssuerRegistry.getIssuerInfo s' b = IssuerRegistry.getIssuerInfo s b) /\
     IssuerRegistry.owner s' = IssuerRegistry.owner s /\
     IssuerRegistry.paused s' = IssuerRegistry.paused s).
Proof.
  split.
  - rewrite is_ok_true. split.
    + intros (s' & H). apply addIssuer_Ok in H. tauto.
    + intros (H1 & H2 & H3 & H4 & H5). eexists. apply addIssuer_Ok. auto 10.
  - intros s' H. apply addIssuer_Ok in H. destruct H as (_ & _ & _ & _ & _ & ->).
    unfold IssuerRegistry.getIssuerInfo.
    split; [| split; [| split]].
    + rewrite issuerAt_addIssuerInternal, decide_True by reflexivity. reflexivity.
    + intros b Hb. rewrite issuerAt_addIssuerInternal, decide_False by auto.
      reflexivity.
    + apply owner_addIssuerInternal.
    + unfold IssuerRegistry._addIssuerInternal.
      destruct (bool_decide _); reflexivity.
Qed.

Lemma addIssuer_spec_witness :
  is_ok (IssuerRegistry.addIssuer (Scenario.from Scenario.admin 101)
           Scenario.bob "Bob" "Guild" (registry Scenario.genesis)) = true /\
  IssuerRegistry.getIssuerInfo (registry Scenario.with_bob) Scenario.bob =
    IssuerRegistry.mkIssuerInfo "Bob" "Guild" true 101.
Proof.
  destruct (addIssuer_spec (Scenario.from Scenario.admin 101) Scenario.bob
              "Bob" "Guild" (registry Scenario.genesis)) as (Hok & Heff).
  split.
  - apply Hok. repeat split; try reflexivity; discriminate.
  - apply (Heff (registry Scenario.with_bob) eq_refl).
Defined.

(** X2. In every reachable state (with an array whose length fits a
    [uint256]) the two loops of [getAllIssuers] return a list without
    repetition that contains exactly the addresses for which
    [isAuthorizedIssuer] holds, and [getAuthorizedIssuerCount] returns
    the length of that list. *)
Theorem getAllIssuers_lists_authorized (h : SessionHash) (w : World) :
  reachable h w ->
  N.of_nat (length (IssuerRegistry.issuerAddresses (registry w)))
    <= MAX_UINT256 ->
  exists l,
    IssuerRegistry.getAllIssuers (registry w) = Ok l /\
    NoDup l /\
    (forall a, a ∈ l <-> IssuerRegistry.isAuthorizedIssuer (registry w) a = true) /\
    IssuerRegistry.getAuthorizedIssuerCount (registry w)
      = Ok (N.of_nat (length l)).
Proof.
  intros Hr Hmax. apply registry_ok_reachable in Hr.
  destruct Hr as (Hnd & _ & Hauth).
  destruct (getAllIssuers_Ok _ Hmax) as (Hall & Hcount).
  exists (authorized_entries (registry w)).
  split; [exact Hall |]. split; [| split; [| exact Hcount]].
  - apply NoDup_filter, Hnd.
  - intros a. unfold authorized_entries. rewrite list_elem_of_filter. split.
    + tauto.
    + intros Ha. split; [exact Ha | apply Hauth, Ha].
Qed.

(** After Bob was added and removed again only the administrator is
    listed. *)
Lemma getAllIssuers_lists_authorized_witness :
  IssuerRegistry.getAllIssuers (registry Scenario.without_bob)
    = Ok [Scenario.admin] /\
  exists l,
    IssuerRegistry.getAllIssuers (registry Scenario.without_bob) = Ok l /\
    NoDup l.
Proof.
  split; [reflexivity |].
  destruct (getAllIssuers_lists_authorized Scenario.hash Scenario.without_bob
              without_bob_reachable) as (l & Hl & Hnd & _).
  - vm_compute. discriminate.
  - exists l. split; [exact Hl | exact Hnd].
Defined.

(** X3. [updateIssuer] succeeds exactly when the caller is the owner, the
    registry is not paused, the address is not zero and is authorized,
    and the new name is not empty. It replaces the name and the
    organization of that issuer and nothing else: its [addedAt] stays,
    nobody gains or loses authorization, and the enumeration array is
    untouched. *)
Theorem updateIssuer_spec (e : Env) (a : address) (n o : string)
    (s : IssuerRegistry.state) :
  (is_ok (IssuerRegistry.updateIssuer e a n o s) = true <->
   msg_sender e = IssuerRegistry.owner s /\
   IssuerRegistry.paused s = false /\
   a <> 0 /\
   IssuerRegistry.isAuthorizedIssuer s a = true /\
   n <> EmptyString) /\
  (forall s',
     IssuerRegistry.updateIssuer e a n o s = Ok s' ->
     IssuerRegistry.getIssuerInfo s' a =
       IssuerRegistry.mkIssuerInfo n o true
         (IssuerRegistry.addedAt (IssuerRegistry.getIssuerInfo s a)) /\
     (forall b, b <> a ->
        IssuerRegistry.getIssuerInfo s' b = IssuerRegistry.getIssuerInfo s b) /\
     (forall b, IssuerRegistry.isAuthorizedIssuer s' b
                = IssuerRegistry.isAuthorizedIssuer s b) /\
     IssuerRegistry.issuerAddresses s' = IssuerRegistry.issuerAddresses s).
Proof.
  split.
  - rewrite is_ok_true. split.
    + intros (s' & H). apply updateIssuer_Ok in H. tauto.
    + intros (H1 & H2 & H3 & H4 & H5). eexists. apply updateIssuer_Ok. auto 10.
  - intros s' H. apply updateIssuer_Ok in H.
    destruct H as (_ & _ & _ & Ha & _ & ->).
    unfold IssuerRegistry.getIssuerInfo, IssuerRegistry.isAuthorizedIssuer in *.
    split; [| split; [| split]].
    + rewrite issuerAt_set_issuer, decide_True by reflexivity.
      rewrite Ha. reflexivity.
    + intros b Hb. rewrite issuerAt_set_issuer, decide_False by auto.
      reflexivity.
    + intros b. rewrite issuerAt_set_issuer.
      destruct (decide (a = b)) as [<- |]; reflexivity.
    + reflexivity.
Qed.

Lemma updateIssuer_spec_witness :
  is_ok (IssuerRegistry.updateIssuer (Scenario.from Scenario.admin 150)
           Scenario.bob "Robert" "Guild" (registry Scenario.with_bob)) = true /\
  is_ok (IssuerRegistry.updateIssuer (Scenario.from Scenario.admin 150)
           Scenario.bob "Robert" "Guild" (registry Scenario.without_bob)) = false.
Proof.
  split.
  - apply (proj1 (updateIssuer_spec (Scenario.from Scenario.admin 150)
                    Scenario.bob "Robert" "Guild" (registry Scenario.with_bob))).
    repeat split; try reflexivity; discriminate.
  - apply not_true_is_false. intros H.
    apply (proj1 (updateIssuer_spec (Scenario.from Scenario.admin 150)
                    Scenario.bob "Robert" "Guild"
                    (registry Scenario.without_bob))) in H.
    destruct H as (_ & _ & _ & H & _). discriminate H.
Defined.

(** X4. Removing an issuer and adding the same address again works: the
    second [addIssuer] by the owner succeeds (with any non-empty name),
    the address is authorized again with the new block time as
    [addedAt], and the enumeration array is the one from before the
    removal, so the address is not listed twice. *)
Theorem readd_after_remove (h : SessionHash) (e1 e2 : Env) (a : address)
    (n o : string) (w w1 : World) :
  reachable h w ->
  exec h e1 (RemoveIssuer a) w = Ok w1 ->
  msg_sender e2 = IssuerRegistry.owner (registry w1) ->
  n <> EmptyString ->
  exists w2,
    exec h e2 (AddIssuer a n o) w1 = Ok w2 /\
    IssuerRegistry.isAuthorizedIssuer (registry w1) a = false /\
    IssuerRegistry.isAuthorizedIssuer (registry w2) a = true /\
    IssuerRegistry.issuerAddresses (registry w2)
      = IssuerRegistry.issuerAddresses (registry w) /\
    IssuerRegistry.addedAt (IssuerRegistry.getIssuerInfo (registry w2) a)
      = block_timestamp e2.
Proof.
  intros Hr Hx Hsender Hn. apply registry_ok_reachable in Hr.
  destruct Hr as (_ & Hset & Hauth).
  simpl in Hx. apply fmap_Ok in Hx. destruct Hx as (s1 & Hx & ->).
  simpl in Hsender |- *.
  apply removeIssuer_Ok in Hx. destruct Hx as (_ & Hp & Ha & Hin & _ & ->).
  destruct (Hauth a Hin) as (Hmem & _). apply Hset in Hmem.
  set (s1 := IssuerRegistry.set_issuer a _ (registry w)) in *.
  assert (Hoff : IssuerRegistry.isAuthorizedIssuer s1 a = false).
  { unfold IssuerRegistry.isAuthorizedIssuer, s1.
    rewrite issuerAt_set_issuer, decide_True by reflexivity. reflexivity. }
  eexists. split.
  - apply fmap_Ok. eexists. split; [| reflexivity].
    apply addIssuer_Ok. repeat split; auto.
  - simpl. split; [exact Hoff |]. split; [| split].
    + rewrite isAuthorizedIssuer_addIssuerInternal, decide_True by reflexivity.
      reflexivity.
    + destruct (issuerAddresses_addIssuerInternal e2 a n o s1) as (Hl & _).
      rewrite Hl. unfold s1 at 1. simpl.
      rewrite bool_decide_eq_true_2 by exact Hmem. reflexivity.
    + unfold IssuerRegistry.getIssuerInfo.
      rewrite issuerAt_addIssuerInternal, decide_True by reflexivity.
      reflexivity.
Qed.

Lemma readd_after_remove_witness :
  exists w2,
    exec Scenario.hash (Scenario.from Scenario.admin 300)
      (AddIssuer Scenario.bob "Bob" "Guild") Scenario.without_bob = Ok w2 /\
    IssuerRegistry.issuerAddresses (registry w2)
      = [Scenario.admin; Scenario.bob].
Proof.
  destruct (readd_after_remove Scenario.hash (Scenario.from Scenario.admin 102)
              (Scenario.from Scenario.admin 300) Scenario.bob "Bob" "Guild"
              Scenario.with_bob Scenario.without_bob with_bob_reachable
              eq_refl eq_refl) as (w2 & Hx & _ & _ & Hl & _).
  - discriminate.
  - exists w2. split; [exact Hx | exact Hl].
Defined.


(** ** Pausing and unpausing *)

(** X6. In each of the four contracts [pause] succeeds only for that
    contract's owner and only while the contract is not paused; it sets
    that contract's flag and no other, a second [pause] reverts, an
    [unpause] on a contract that is not paused reverts, and an [unpause]
    by the owner after the [pause] gives back exactly the state from
    before the [pause]. *)
Theorem pause_unpause_roundtrip (h : SessionHash) (k : Component) (e : Env)
    (w w1 : World) :
  exec h e (pause_call k) w = Ok w1 ->
  msg_sender e = component_owner k w /\
  component_paused k w = false /\
  component_paused k w1 = true /\
  (forall k', k' <> k -> component_paused k' w1 = component_paused k' w) /\
  (forall e2, is_ok (exec h e2 (pause_call k) w1) = false) /\
  (forall e2, is_ok (exec h e2 (unpause_call k) w) = false) /\
  (forall e2, msg_sender e2 <> component_owner k w ->
              is_ok (exec h e2 (unpause_call k) w1) = false) /\
  (forall e2, msg_sender e2 = component_owner k w ->
              exec h e2 (unpause_call k) w1 = Ok w).
Proof.
  intros Hx. destruct w as [reg tpl ses tok ta].
  destruct k; simpl in Hx; apply fmap_Ok in Hx; destruct Hx as (s1 & Hx & ->);
    simpl.
  - unfold IssuerRegistry.pause, IssuerRegistry.onlyOwner,
      IssuerRegistry.whenNotPaused in Hx.
    inv_ok. subst s1. destruct reg as [o p i l a]. simpl in *. subst p.
    match goal with H : (_ =? _) = true |- _ => apply N.eqb_eq in H end.
    repeat split; auto.
    + intros k' Hk. destruct k'; try reflexivity. contradiction.
    + intros e2. unfold IssuerRegistry.pause, IssuerRegistry.onlyOwner,
        IssuerRegistry.whenNotPaused. simpl.
      destruct (msg_sender e2 =? o); reflexivity.
    + intros e2. unfold IssuerRegistry.unpause, IssuerRegistry.onlyOwner,
        IssuerRegistry.whenPaused. simpl.
      destruct (msg_sender e2 =? o); reflexivity.
    + intros e2 Hne. apply N.eqb_neq in Hne.
      unfold IssuerRegistry.unpause, IssuerRegistry.onlyOwner. simpl.
      rewrite Hne. reflexivity.
    + intros e2 He. apply N.eqb_eq in He.
      unfold IssuerRegistry.unpause, IssuerRegistry.onlyOwner. simpl.
      rewrite He. reflexivity.
  - unfold SBTTemplate.pause, SBTTemplate.onlyOwner,
      SBTTemplate.whenNotPaused in Hx.
    inv_ok. subst s1. destruct tpl as [o p c t i]. simpl in *. subst p.
    match goal with H : (_ =? _) = true |- _ => apply N.eqb_eq in H end.
    repeat split; auto.
    + intros k' Hk. destruct k'; try reflexivity. contradiction.
    + intros e2. unfold SBTTemplate.pause, SBTTemplate.onlyOwner,
        SBTTemplate.whenNotPaused. simpl.
      destruct (msg_sender e2 =? o); reflexivity.
    + intros e2. unfold SBTTemplate.unpause, SBTTemplate.onlyOwner,
        SBTTemplate.whenPaused. simpl.
      destruct (msg_sender e2 =? o); reflexivity.
    + intros e2 Hne. apply N.eqb_neq in Hne.
      unfold SBTTemplate.unpause, SBTTemplate.onlyOwner. simpl.
      rewrite Hne. reflexivity.
    + intros e2 He. apply N.eqb_eq in He.
      unfold SBTTemplate.unpause, SBTTemplate.onlyOwner. simpl.
      rewrite He. reflexivity.
  - unfold SBTSession.pause, SBTSession.onlyOwner,
      SBTSession.whenNotPaused in Hx.
    inv_ok. subst s1. destruct ses as [o p m i n c]. simpl in *. subst p.
    match goal with H : (_ =? _) = true |- _ => apply N.eqb_eq in H end.
    repeat split; auto.
    + intros k' Hk. destruct k'; try reflexivity. contradiction.
    + intros e2. unfold SBTSession.pause, SBTSession.onlyOwner,
        SBTSession.whenNotPaused. simpl.
      destruct (msg_sender e2 =? o); reflexivity.
    + intros e2. unfold SBTSession.unpause, SBTSession.onlyOwner,
        SBTSession.whenPaused. simpl.
      destruct (msg_sender e2 =? o); reflexivity.
    + intros e2 Hne. apply N.eqb_neq in Hne.
      unfold SBTSession.unpause, SBTSession.onlyOwner. simpl.
      rewrite Hne. reflexivity.
    + intros e2 He. apply N.eqb_eq in He.
      unfold SBTSession.unpause, SBTSession.onlyOwner. simpl.
      rewrite He. reflexivity.
  - unfold SBTToken.pause, SBTToken.onlyOwner, SBTToken.whenNotPaused in Hx.
    inv_ok. subst s1. destruct tok as [o p n d mt ms ow]. simpl in *. subst p.
    match goal with H : (_ =? _) = true |- _ => apply N.eqb_eq in H end.
    repeat split; auto.
    + intros k' Hk. destruct k'; try reflexivity. contradiction.
    + intros e2. unfold SBTToken.pause, SBTToken.onlyOwner,
        SBTToken.whenNotPaused. simpl.
      destruct (msg_sender e2 =? o); reflexivity.
    + intros e2. unfold SBTToken.unpause, SBTToken.onlyOwner,
        SBTToken.whenPaused. simpl.
      destruct (msg_sender e2 =? o); reflexivity.
    + intros e2 Hne. apply N.eqb_neq in Hne.
      unfold SBTToken.unpause, SBTToken.onlyOwner. simpl.
      rewrite Hne. reflexivity.
    + intros e2 He. apply N.eqb_eq in He.
      unfold SBTToken.unpause, SBTToken.onlyOwner. simpl.
      rewrite He. reflexivity.
Qed.

Lemma pause_unpause_roundtrip_witness :
  exec Scenario.hash (Scenario.from Scenario.admin 200) RegistryUnpause
    Scenario.registry_paused = Ok Scenario.genesis /\
  is_ok (exec Scenario.hash (Scenario.from Scenario.admin 200) RegistryPause
           Scenario.registry_paused) = false.
Proof.
  destruct (pause_unpause_roundtrip Scenario.hash Registry
              (Scenario.from Scenario.admin 101) Scenario.genesis
              Scenario.registry_paused eq_refl)
    as (_ & _ & _ & _ & Hagain & _ & _ & Hback).
  split.
  - apply (Hback (Scenario.from Scenario.admin 200)). reflexivity.
  - apply (Hagain (Scenario.from Scenario.admin 200)).
Defined.

(** ** The template store: creation, edits, the index *)

(** Every call leaves the template store alone or runs one of its six
    entry points on it. *)
Lemma exec_template_cases h e c w w' :
  exec h e c w = Ok w' ->
  template w' = template w \/
  (exists n d r,
     SBTTemplate.createTemplate e (registry w) n d (template w) = Ok r /\
     template w' = fst r /\ registry w' = registry w) \/
  (exists id n d,
     SBTTemplate.updateTemplate e id n d (template w) = Ok (template w')) \/
  (exists id, SBTTemplate.deactivateTemplate e id (template w) = Ok (template w')) \/
  (exists id, SBTTemplate.reactivateTemplate e id (template w) = Ok (template w')) \/
  SBTTemplate.pause e (template w) = Ok (template w') \/
  SBTTemplate.unpause e (template w) = Ok (template w').
Proof.
  intros Hx.
  destruct c; simpl in Hx; apply fmap_Ok in Hx; destruct Hx as (r & Hx & ->);
    simpl; auto.
  - right. left. eauto 10.
  - right. right. left. eauto.
  - right. right. right. left. eauto.
  - right. right. right. right. left. eauto.
  - right. right. right. right. right. auto.
  - right. right. right. right. right. auto.
Qed.

Lemma createTemplate_Ok e reg n d s r :
  SBTTemplate.createTemplate e reg n d s = Ok r <->
  IssuerRegistry.isAuthorizedIssuer reg (msg_sender e) = true /\
  SBTTemplate.paused s = false /\
  n <> EmptyString /\ d <> EmptyString /\
  SBTTemplate._templateIdCounter s + 1 <= MAX_UINT256 /\
  r = (let id := SBTTemplate._templateIdCounter s + 1 in
       (SBTTemplate.mkState (SBTTemplate.owner s) (SBTTemplate.paused s) id
          (<[id := SBTTemplate.mkTemplate id n d (msg_sender e)
                     (block_timestamp e) true]> (SBTTemplate.templates s))
          (<[msg_sender e :=
               default [] (SBTTemplate.issuerTemplates s !! msg_sender e)
               ++ [id]]> (SBTTemplate.issuerTemplates s)),
        id)).
Proof.
  unfold SBTTemplate.createTemplate, SBTTemplate.onlyAuthorizedIssuer,
    SBTTemplate.whenNotPaused. split.
  - intros H. inv_ok.
    repeat match goal with
           | H : nonempty _ = true |- _ => apply nonempty_true in H
           end.
    subst. auto 10.
  - intros (H1 & H2 & H3 & H4 & H5 & ->).
    apply nonempty_true in H3. apply nonempty_true in H4.
    rewrite H1, H2, H3, H4. simpl.
    rewrite (proj2 (checked_add_Ok _ _ _) (conj eq_refl H5)). reflexivity.
Qed.

Lemma updateTemplate_Ok e id n d s s' :
  SBTTemplate.updateTemplate e id n d s = Ok s' <->
  (0 < id /\ id <= SBTTemplate._templateIdCounter s) /\
  SBTTemplate.issuer (SBTTemplate.templateAt s id) = msg_sender e /\
  SBTTemplate.paused s = false /\
  n <> EmptyString /\ d <> EmptyString /\
  SBTTemplate.active (SBTTemplate.templateAt s id) = true /\
  s' = (let t := SBTTemplate.templateAt s id in
        SBTTemplate.set_template id
          (SBTTemplate.mkTemplate (SBTTemplate.templateId t) n d
             (SBTTemplate.issuer t) (SBTTemplate.createdAt t)
             (SBTTemplate.active t)) s).
Proof.
  unfold SBTTemplate.updateTemplate, SBTTemplate.onlyTemplateIssuer,
    SBTTemplate.whenNotPaused. split.
  - intros H. inv_ok.
    repeat match goal with
           | H : nonempty _ = true |- _ => apply nonempty_true in H
           | H : (_ =? _) = true |- _ => apply N.eqb_eq in H
           | H : SBTTemplate.templateExists _ _ = Ok _ |- _ =>
               apply templateExists_Ok in H
           end.
    subst. auto 10.
  - intros (H0 & H1 & H2 & H3 & H4 & H5 & ->).
    apply (templateExists_Ok id s tt) in H0.
    apply N.eqb_eq in H1. apply nonempty_true in H3. apply nonempty_true in H4.
    rewrite H0, H1, H2, H3, H4, H5. reflexivity.
Qed.

Lemma toggleTemplate_Ok e id s s' (b : bool) :
  (if b then SBTTemplate.deactivateTemplate e id s
   else SBTTemplate.reactivateTemplate e id s) = Ok s' <->
  (0 < id /\ id <= SBTTemplate._templateIdCounter s) /\
  SBTTemplate.issuer (SBTTemplate.templateAt s id) = msg_sender e /\
  SBTTemplate.paused s = false /\
  SBTTemplate.active (SBTTemplate.templateAt s id) = b /\
  s' = SBTTemplate.set_template id
         (SBTTemplate.set_active (negb b) (SBTTemplate.templateAt s id)) s.
Proof.
  destruct b; unfold SBTTemplate.deactivateTemplate,
    SBTTemplate.reactivateTemplate, SBTTemplate.onlyTemplateIssuer,
    SBTTemplate.whenNotPaused; (split;
    [ intros H; inv_ok;
      repeat match goal with
             | H : (_ =? _) = true |- _ => apply N.eqb_eq in H
             | H : SBTTemplate.templateExists _ _ = Ok _ |- _ =>
                 apply templateExists_Ok in H
             end;
      subst; auto 10
    | intros (H0 & H1 & H2 & H3 & ->);
      apply (templateExists_Ok id s tt) in H0; apply N.eqb_eq in H1;
      rewrite H0, H1, H2, H3; reflexivity ]).
Qed.

Lemma templates_ok_at s id :
  templates_ok s ->
  0 < id <= SBTTemplate._templateIdCounter s ->
  SBTTemplate.templates s !! id = Some (SBTTemplate.templateAt s id) /\
  SBTTemplate.templateId (SBTTemplate.templateAt s id) = id /\
  SBTTemplate.issuer (SBTTemplate.templateAt s id) <> 0.
Proof.
  intros (H1 & _) Hid. destruct (H1 id Hid) as (t & Ht & Hi & Hne).
  unfold SBTTemplate.templateAt. rewrite Ht. simpl. auto.
Qed.

Lemma templates_ok_set_template s id t :
  templates_ok s ->
  0 < id <= SBTTemplate._templateIdCounter s ->
  SBTTemplate.templateId t = SBTTemplate.templateId (SBTTemplate.templateAt s id) ->
  SBTTemplate.issuer t = SBTTemplate.issuer (SBTTemplate.templateAt s id) ->
  templates_ok (SBTTemplate.set_template id t s).
Proof.
  intros Hok Hid Ht Hi.
  destruct (templates_ok_at s id Hok Hid) as (_ & Hid' & Hne).
  destruct Hok as (H1 & H2 & H3 & H4).
  split; [| split; [| split]].
  - intros x Hx. simpl in Hx |- *. rewrite lookup_insert.
    destruct (decide (id = x)) as [<- |]; [| apply H1, Hx].
    exists t. rewrite Ht, Hi. auto.
  - intros x Hx. simpl in Hx |- *.
    rewrite lookup_insert_ne by (intros ->; lia). apply H2, Hx.
  - intros a x. unfold SBTTemplate.getIssuerTemplates. simpl.
    rewrite templateAt_set_template.
    destruct (decide (id = x)) as [<- |]; [rewrite Hi |]; apply H3.
  - exact H4.
Qed.

Lemma templates_ok_create e reg n d s r :
  msg_sender e <> 0 ->
  SBTTemplate.createTemplate e reg n d s = Ok r ->
  templates_ok s -> templates_ok (fst r).
Proof.
  intros Hs Hx (H1 & H2 & H3 & H4). apply createTemplate_Ok in Hx.
  destruct Hx as (_ & _ & _ & _ & Hmax & ->). simpl.
  set (c := SBTTemplate._templateIdCounter s) in *.
  split; [| split; [| split]]; simpl.
  - intros x Hx. rewrite lookup_insert.
    destruct (decide (c + 1 = x)) as [<- |]; [eauto |].
    apply H1. fold c. lia.
  - intros x Hx. rewrite lookup_insert_ne by lia. apply H2. fold c. lia.
  - intros a x. unfold SBTTemplate.getIssuerTemplates, SBTTemplate.templateAt.
    simpl. rewrite !lookup_insert.
    specialize (H3 a x).
    unfold SBTTemplate.getIssuerTemplates, SBTTemplate.templateAt in H3.
    fold c in H3.
    destruct (decide (msg_sender e = a)) as [<- | Ha];
      destruct (decide (c + 1 = x)) as [<- | Hx]; simpl.
    + rewrite elem_of_app, list_elem_of_singleton. split; [| auto].
      intros _. split; [lia | reflexivity].
    + rewrite elem_of_app, list_elem_of_singleton, H3. split.
      * intros [(Hr & Hi) | Heq]; [split; [lia | exact Hi] | congruence].
      * intros (Hr & Hi). left. split; [lia | exact Hi].
    + rewrite H3. split; [intros (Hr & _); lia | intros (_ & Hi); contradiction].
    + rewrite H3. split; intros (Hr & Hi); (split; [lia | exact Hi]).
  - intros a. unfold SBTTemplate.getIssuerTemplates. simpl.
    rewrite lookup_insert.
    destruct (decide (msg_sender e = a)) as [<- | Ha]; simpl; [| apply H4].
    apply NoDup_app. split; [apply H4 |]. split; [| apply NoDup_singleton].
    intros x Hx Hxc. apply list_elem_of_singleton in Hxc. subst x.
    apply H3 in Hx. fold c in Hx. lia.
Qed.

Lemma templates_ok_exec h e c w w' :
  exec h e c w = Ok w' ->
  registry_ok (registry w) -> templates_ok (template w) ->
  templates_ok (template w').
Proof.
  intros Hx (_ & _ & Hauth) Hok.
  destruct (exec_template_cases _ _ _ _ _ Hx)
    as [-> | [(n & d & r & Hc & -> & _) | [(id & n & d & Hu) |
        [(id & Hd) | [(id & Hr) | [Hp | Hp]]]]]].
  - exact Hok.
  - eapply templates_ok_create; eauto.
    apply createTemplate_Ok in Hc. destruct Hc as (Ha & _).
    apply Hauth in Ha. apply Ha.
  - apply updateTemplate_Ok in Hu. destruct Hu as (Hid & _ & _ & _ & _ & _ & ->).
    apply templates_ok_set_template; auto.
  - apply (toggleTemplate_Ok e id _ _ true) in Hd.
    destruct Hd as (Hid & _ & _ & _ & ->).
    apply templates_ok_set_template; auto.
  - apply (toggleTemplate_Ok e id _ _ false) in Hr.
    destruct Hr as (Hid & _ & _ & _ & ->).
    apply templates_ok_set_template; auto.
  - unfold SBTTemplate.pause in Hp. inv_ok.
    match goal with H : SBTTemplate.set_paused _ _ = _ |- _ => rewrite <- H end.
    exact Hok.
  - unfold SBTTemplate.unpause in Hp. inv_ok.
    match goal with H : SBTTemplate.set_paused _ _ = _ |- _ => rewrite <- H end.
    exact Hok.
Qed.

Lemma templates_ok_reachable h w : reachable h w -> templates_ok (template w).
Proof.
  induction 1 as [e ro to ta w Hd | w e c w' Hr IH _ _ Hx].
  - unfold deploy, SBTTemplate.constructor in Hd. inv_ok. subst. simpl.
    split; [| split; [| split]]; simpl.
    + intros id Hid. lia.
    + intros id _. apply lookup_empty.
    + intros a id. unfold SBTTemplate.getIssuerTemplates. simpl.
      rewrite lookup_empty. simpl. split; [intros Hin; inversion Hin | lia].
    + intros a. unfold SBTTemplate.getIssuerTemplates. simpl.
      rewrite lookup_empty. constructor.
  - eapply templates_ok_exec; eauto. eapply registry_ok_reachable; eauto.
Qed.

(** X7. [createTemplate] succeeds exactly when the caller is an
    authorized issuer, the store is not paused, name and description are
    not empty and the id counter is not exhausted. The new id is the
    number of templates so far plus one (so ids run 1, 2, 3, ...); the
    template is stored active, owned by the caller and stamped with the
    block time; [getTemplate] and [isTemplateActive] see it at once; the
    id is appended to the caller's index, and no other template changes. *)
Theorem createTemplate_spec (e : Env) (reg : IssuerRegistry.state)
    (n d : string) (s : SBTTemplate.state) :
  (is_ok (SBTTemplate.createTemplate e reg n d s) = true <->
   IssuerRegistry.isAuthorizedIssuer reg (msg_sender e) = true /\
   SBTTemplate.paused s = false /\
   n <> EmptyString /\ d <> EmptyString /\
   SBTTemplate._templateIdCounter s + 1 <= MAX_UINT256) /\
  (forall s' id,
     SBTTemplate.createTemplate e reg n d s = Ok (s', id) ->
     id = SBTTemplate.getTotalTemplates s + 1 /\
     SBTTemplate.getTotalTemplates s' = id /\
     SBTTemplate.getTemplate id s' =
       Ok (SBTTemplate.mkTemplate id n d (msg_sender e) (block_timestamp e) true) /\
     SBTTemplate.isTemplateActive s' id = true /\
     (forall x, x <> id -> SBTTemplate.templateAt s' x = SBTTemplate.templateAt s x) /\
     SBTTemplate.getIssuerTemplates s' (msg_sender e) =
       SBTTemplate.getIssuerTemplates s (msg_sender e) ++ [id]).
Proof.
  split.
  - rewrite is_ok_true. split.
    + intros (r & H). apply createTemplate_Ok in H. tauto.
    + intros (H1 & H2 & H3 & H4 & H5). eexists. apply createTemplate_Ok. auto 10.
  - intros s' id H. apply createTemplate_Ok in H.
    destruct H as (_ & _ & _ & _ & Hmax & [= -> ->]).
    unfold SBTTemplate.getTotalTemplates. simpl.
    assert (Hat : forall x,
              SBTTemplate.templateAt
                (SBTTemplate.mkState (SBTTemplate.owner s) (SBTTemplate.paused s)
                   (SBTTemplate._templateIdCounter s + 1)
                   (<[SBTTemplate._templateIdCounter s + 1 :=
                        SBTTemplate.mkTemplate
                          (SBTTemplate._templateIdCounter s + 1) n d
                          (msg_sender e) (block_timestamp e) true]>
                      (SBTTemplate.templates s))
                   (<[msg_sender e :=
                        default [] (SBTTemplate.issuerTemplates s !! msg_sender e)
                        ++ [SBTTemplate._templateIdCounter s + 1]]>
                      (SBTTemplate.issuerTemplates s))) x =
              if decide (SBTTemplate._templateIdCounter s + 1 = x)
              then SBTTemplate.mkTemplate
                     (SBTTemplate._templateIdCounter s + 1) n d
                     (msg_sender e) (block_timestamp e) true
              else SBTTemplate.templateAt s x).
    { intros x. unfold SBTTemplate.templateAt. simpl. rewrite lookup_insert.
      destruct (decide _); reflexivity. }
    split; [reflexivity |]. split; [reflexivity |]. split; [| split; [| split]].
    + apply getTemplate_Ok. simpl. rewrite Hat, decide_True by reflexivity.
      repeat split; lia.
    + apply isTemplateActive_true. simpl. rewrite Hat, decide_True by reflexivity.
      repeat split; lia.
    + intros x Hx. rewrite Hat, decide_False by auto. reflexivity.
    + unfold SBTTemplate.getIssuerTemplates. simpl.
      rewrite lookup_insert_eq. reflexivity.
Qed.

(** The first template of the example deployment gets id 1. *)
Lemma createTemplate_spec_witness :
  is_ok (SBTTemplate.createTemplate (Scenario.from Scenario.admin 101)
           (registry Scenario.genesis) "Workshop" "Attended the workshop"
           (template Scenario.genesis)) = true /\
  is_ok (SBTTemplate.createTemplate (Scenario.from Scenario.alice 101)
           (registry Scenario.genesis) "Workshop" "Attended the workshop"
           (template Scenario.genesis)) = false.
Proof.
  split.
  - apply (proj1 (createTemplate_spec (Scenario.from Scenario.admin 101)
                    (registry Scenario.genesis) "Workshop"
                    "Attended the workshop" (template Scenario.genesis))).
    repeat split; try reflexivity; try discriminate.
  - apply not_true_is_false. intros H.
    apply (proj1 (createTemplate_spec (Scenario.from Scenario.alice 101)
                    (registry Scenario.genesis) "Workshop"
                    "Attended the workshop" (template Scenario.genesis))) in H.
    destruct H as (H & _). discriminate H.
Defined.

Lemma template_identity_step h e c w w' id :
  exec h e c w = Ok w' ->
  0 < id <= SBTTemplate._templateIdCounter (template w) ->
  id <= SBTTemplate._templateIdCounter (template w') /\
  SBTTemplate.templateId (SBTTemplate.templateAt (template w') id)
    = SBTTemplate.templateId (SBTTemplate.templateAt (template w) id) /\
  SBTTemplate.issuer (SBTTemplate.templateAt (template w') id)
    = SBTTemplate.issuer (SBTTemplate.templateAt (template w) id) /\
  SBTTemplate.createdAt (SBTTemplate.templateAt (template w') id)
    = SBTTemplate.createdAt (SBTTemplate.templateAt (template w) id).
Proof.
  intros Hx Hid.
  destruct (exec_template_cases _ _ _ _ _ Hx)
    as [-> | [(n & d & r & Hc & -> & _) | [(x & n & d & Hu) |
        [(x & Hd) | [(x & Hr) | [Hp | Hp]]]]]].
  - repeat split; auto; lia.
  - destruct r as [s' nid]. apply createTemplate_Ok in Hc.
    destruct Hc as (_ & _ & _ & _ & _ & [= -> ->]).
    unfold SBTTemplate.templateAt. simpl.
    rewrite lookup_insert_ne by lia. repeat split; auto; lia.
  - apply updateTemplate_Ok in Hu. destruct Hu as (_ & _ & _ & _ & _ & _ & ->).
    simpl. rewrite templateAt_set_template.
    destruct (decide (x = id)) as [-> |]; repeat split; auto; lia.
  - apply (toggleTemplate_Ok e x _ _ true) in Hd.
    destruct Hd as (_ & _ & _ & _ & ->).
    simpl. rewrite templateAt_set_template.
    destruct (decide (x = id)) as [-> |]; repeat split; auto; lia.
  - apply (toggleTemplate_Ok e x _ _ false) in Hr.
    destruct Hr as (_ & _ & _ & _ & ->).
    simpl. rewrite templateAt_set_template.
    destruct (decide (x = id)) as [-> |]; repeat split; auto; lia.
  - unfold SBTTemplate.pause in Hp. inv_ok.
    match goal with H : SBTTemplate.set_paused _ _ = _ |- _ => rewrite <- H end.
    repeat split; auto; simpl; lia.
  - unfold SBTTemplate.unpause in Hp. inv_ok.
    match goal with H : SBTTemplate.set_paused _ _ = _ |- _ => rewrite <- H end.
    repeat split; auto; simpl; lia.
Qed.

(** X8. Over any sequence of successful calls a template that exists
    keeps existing, and keeps its id, its issuer and its creation time:
    no entry point deletes a template or hands it to another issuer. *)
Theorem template_identity_immutable (h : SessionHash)
    (calls : list (Env * Call)) (w w' : World) (id : uint256) :
  run h calls w = Ok w' ->
  0 < id <= SBTTemplate._templateIdCounter (template w) ->
  id <= SBTTemplate._templateIdCounter (template w') /\
  SBTTemplate.templateId (SBTTemplate.templateAt (template w') id)
    = SBTTemplate.templateId (SBTTemplate.templateAt (template w) id) /\
  SBTTemplate.issuer (SBTTemplate.templateAt (template w') id)
    = SBTTemplate.issuer (SBTTemplate.templateAt (template w) id) /\
  SBTTemplate.createdAt (SBTTemplate.templateAt (template w') id)
    = SBTTemplate.createdAt (SBTTemplate.templateAt (template w) id).
Proof.
  revert w. induction calls as [|[e c] rest IH]; intros w Hrun Hid.
  - injection Hrun as <-. repeat split; auto; lia.
  - simpl in Hrun. apply bind_Ok in Hrun. destruct Hrun as (w1 & Hx & Hrun).
    destruct (template_identity_step _ _ _ _ _ id Hx Hid) as (H1 & H2 & H3 & H4).
    destruct (IH w1 Hrun) as (H1' & H2' & H3' & H4'); [lia |].
    repeat split; congruence.
Qed.

Lemma template_identity_immutable_witness :
  SBTTemplate.issuer (SBTTemplate.templateAt (template Scenario.doubled) 1)
    = Scenario.admin /\
  SBTTemplate.templateId (SBTTemplate.templateAt (template Scenario.doubled) 1)
    = 1.
Proof.
  destruct (template_identity_immutable Scenario.hash Scenario.twice
              Scenario.opened Scenario.doubled 1 eq_refl) as (_ & Hid & Hiss & _).
  - vm_compute. split; [reflexivity | discriminate].
  - split; [exact Hiss | exact Hid].
Defined.

(** X9. In every reachable state the per-issuer index agrees with the
    store: [getIssuerTemplates a] has no repetition, and an id is in it
    exactly when [getTemplate] succeeds on the id and returns a template
    whose issuer is [a]; that template carries the id it is stored under. *)
Theorem issuer_templates_index (h : SessionHash) (w : World) (a : address) :
  reachable h w ->
  NoDup (SBTTemplate.getIssuerTemplates (template w) a) /\
  (forall id,
     id ∈ SBTTemplate.getIssuerTemplates (template w) a <->
     exists t,
       SBTTemplate.getTemplate id (template w) = Ok t /\
       SBTTemplate.issuer t = a /\ SBTTemplate.templateId t = id).
Proof.
  intros Hr. pose proof (templates_ok_reachable _ _ Hr) as Hok.
  pose proof Hok as (_ & _ & H3 & H4).
  split; [apply H4 |]. intros id. rewrite H3. split.
  - intros (Hid & Hi).
    destruct (templates_ok_at _ id Hok Hid) as (_ & Hsame & _).
    exists (SBTTemplate.templateAt (template w) id).
    split; [apply getTemplate_Ok; repeat split; lia | auto].
  - intros (t & Ht & Hi & _). apply getTemplate_Ok in Ht.
    destruct Ht as (H1 & H2 & ->). auto.
Qed.

Lemma issuer_templates_index_witness :
  SBTTemplate.getIssuerTemplates (template Scenario.opened) Scenario.admin = [1]
  /\ NoDup (SBTTemplate.getIssuerTemplates (template Scenario.opened)
              Scenario.admin).
Proof.
  split; [reflexivity |].
  apply (issuer_templates_index Scenario.hash Scenario.opened Scenario.admin
           opened_reachable).
Defined.

Lemma set_active_involutive t b :
  SBTTemplate.active t = b ->
  SBTTemplate.set_active b (SBTTemplate.set_active (negb b) t) = t.
Proof. destruct t. simpl. intros ->. reflexivity. Qed.

(** X10. In a reachable state a successful [deactivateTemplate] turns
    [isTemplateActive] from [true] to [false]; deactivating again
    reverts, as does reactivating a template that is active; and a
    [reactivateTemplate] by the same issuer gives back exactly the state
    from before the deactivation. *)
Theorem deactivate_reactivate_roundtrip (h : SessionHash) (e : Env)
    (id : uint256) (w w1 : World) :
  reachable h w ->
  exec h e (DeactivateTemplate id) w = Ok w1 ->
  SBTTemplate.isTemplateActive (template w) id = true /\
  SBTTemplate.isTemplateActive (template w1) id = false /\
  (forall e2, is_ok (exec h e2 (DeactivateTemplate id) w1) = false) /\
  (forall e2, is_ok (exec h e2 (ReactivateTemplate id) w) = false) /\
  (forall e2, msg_sender e2 = msg_sender e ->
              exec h e2 (ReactivateTemplate id) w1 = Ok w).
Proof.
  intros Hr Hx. pose proof (templates_ok_reachable _ _ Hr) as Hok.
  simpl in Hx. apply fmap_Ok in Hx. destruct Hx as (s1 & Hx & ->).
  apply (toggleTemplate_Ok e id _ _ true) in Hx.
  destruct Hx as (Hid & Hiss & Hp & Hact & ->).
  destruct (templates_ok_at _ id Hok Hid) as (Hstored & _ & _).
  set (t := SBTTemplate.templateAt (template w) id) in *.
  assert (Hat1 : SBTTemplate.templateAt
                   (SBTTemplate.set_template id (SBTTemplate.set_active false t)
                      (template w)) id = SBTTemplate.set_active false t).
  { rewrite templateAt_set_template, decide_True by reflexivity. reflexivity. }
  split; [apply isTemplateActive_true; fold t; tauto |].
  split; [| split; [| split]].
  - simpl. destruct (SBTTemplate.isTemplateActive _ id) eqn:Ha; [| reflexivity].
    apply isTemplateActive_true in Ha. destruct Ha as (_ & _ & Ha).
    rewrite Hat1 in Ha. destruct t; discriminate Ha.
  - intros e2. simpl. rewrite is_ok_fmap.
    destruct (SBTTemplate.deactivateTemplate e2 id _) as [s2|] eqn:H2;
      [| reflexivity].
    apply (toggleTemplate_Ok e2 id _ _ true) in H2.
    destruct H2 as (_ & _ & _ & Ha & _).
    rewrite Hat1 in Ha. destruct t; discriminate Ha.
  - intros e2. simpl. rewrite is_ok_fmap.
    destruct (SBTTemplate.reactivateTemplate e2 id _) as [s2|] eqn:H2;
      [| reflexivity].
    apply (toggleTemplate_Ok e2 id _ _ false) in H2.
    destruct H2 as (_ & _ & _ & Ha & _). fold t in Ha. congruence.
  - intros e2 He2. simpl.
    assert (Hre : SBTTemplate.reactivateTemplate e2 id
                    (SBTTemplate.set_template id
                       (SBTTemplate.set_active false t) (template w))
                  = Ok (template w)).
    { apply (toggleTemplate_Ok e2 id _ _ false).
      rewrite Hat1. simpl.
      split; [exact Hid |]. split; [destruct t; simpl in *; congruence |].
      split; [exact Hp |]. split; [destruct t; reflexivity |].
      rewrite (set_active_involutive t true Hact : 
                 SBTTemplate.set_active true (SBTTemplate.set_active false t) = t).
      unfold SBTTemplate.set_template. simpl.
      rewrite insert_insert_eq, insert_id by exact Hstored.
      destruct (template w); reflexivity. }
    rewrite Hre. simpl. destruct w; reflexivity.
Qed.

Lemma deactivate_reactivate_roundtrip_witness :
  SBTTemplate.isTemplateActive (template Scenario.deactivated) 1 = false /\
  exec Scenario.hash (Scenario.from Scenario.admin 104) (ReactivateTemplate 1)
    Scenario.deactivated = Ok Scenario.opened.
Proof.
  destruct (deactivate_reactivate_roundtrip Scenario.hash
              (Scenario.from Scenario.admin 103) 1 Scenario.opened
              Scenario.deactivated opened_reachable eq_refl)
    as (_ & Hoff & _ & _ & Hback).
  split; [exact Hoff |].
  apply (Hback (Scenario.from Scenario.admin 104)). reflexivity.
Defined.

(** X11. While [isTemplateActive] is [false] for an id (the template is
    deactivated, or the id was never issued), every [mintFromTemplate],
    [createSession] and [updateTemplate] on that id reverts, whoever
    calls. *)
Theorem inactive_template_blocks (h : SessionHash) (e : Env) (tid : uint256)
    (w : World) :
  SBTTemplate.isTemplateActive (template w) tid = false ->
  (forall to, is_ok (exec h e (MintFromTemplate to tid) w) = false) /\
  (forall mx dur ttl, is_ok (exec h e (CreateSession tid mx dur ttl) w) = false) /\
  (forall n d, is_ok (exec h e (UpdateTemplate tid n d) w) = false).
Proof.
  intros Hoff. split; [| split].
  - intros to. simpl. rewrite is_ok_fmap.
    destruct (SBTToken.mintFromTemplate _ _ _ _ _ _) eqn:Hx; [| reflexivity].
    apply mintFromTemplate_Ok in Hx. destruct Hx as (_ & _ & Hon & _). congruence.
  - intros mx dur ttl. simpl. rewrite is_ok_fmap.
    destruct (SBTSession.createSession _ _ _ _ _ _ _ _ _) eqn:Hx; [| reflexivity].
    apply createSession_inv in Hx. destruct Hx as (_ & _ & Hon & _). congruence.
  - intros n d. simpl. rewrite is_ok_fmap.
    destruct (SBTTemplate.updateTemplate _ _ _ _ _) eqn:Hx; [| reflexivity].
    apply updateTemplate_Ok in Hx. destruct Hx as (Hid & _ & _ & _ & _ & Ha & _).
    assert (SBTTemplate.isTemplateActive (template w) tid = true)
      by (apply isTemplateActive_true; tauto).
    congruence.
Qed.

Lemma inactive_template_blocks_witness :
  is_ok (exec Scenario.hash (Scenario.from Scenario.admin 110)
           (MintFromTemplate Scenario.alice 1) Scenario.deactivated) = false /\
  is_ok (exec Scenario.hash (Scenario.from Scenario.admin 110)
           (CreateSession 1 5 60 "Evening") Scenario.deactivated) = false.
Proof.
  destruct (inactive_template_blocks Scenario.hash
              (Scenario.from Scenario.admin 110) 1 Scenario.deactivated eq_refl)
    as (Hmint & Hsession & _).
  split; [apply Hmint | apply Hsession].
Defined.

(** X12. [updateTemplate] succeeds exactly when the template exists, the
    caller is its issuer, the store is not paused, the new name and
    description are not empty and the template is active. It replaces
    name and description of that template and nothing else: id, issuer,
    creation time and active flag stay, as do all other templates and
    the number of templates. *)
Theorem updateTemplate_spec (e : Env) (id : uint256) (n d : string)
    (s : SBTTemplate.state) :
  (is_ok (SBTTemplate.updateTemplate e id n d s) = true <->
   (0 < id /\ id <= SBTTemplate.getTotalTemplates s) /\
   SBTTemplate.issuer (SBTTemplate.templateAt s id) = msg_sender e /\
   SBTTemplate.paused s = false /\
   n <> EmptyString /\ d <> EmptyString /\
   SBTTemplate.active (SBTTemplate.templateAt s id) = true) /\
  (forall s',
     SBTTemplate.updateTemplate e id n d s = Ok s' ->
     let t := SBTTemplate.templateAt s id in
     SBTTemplate.templateAt s' id =
       SBTTemplate.mkTemplate (SBTTemplate.templateId t) n d
         (SBTTemplate.issuer t) (SBTTemplate.createdAt t) true /\
     (forall x, x <> id -> SBTTemplate.templateAt s' x = SBTTemplate.templateAt s x) /\
     SBTTemplate.getTotalTemplates s' = SBTTemplate.getTotalTemplates s /\
     (forall a, SBTTemplate.getIssuerTemplates s' a
                = SBTTemplate.getIssuerTemplates s a)).
Proof.
  split.
  - rewrite is_ok_true. unfold SBTTemplate.getTotalTemplates. split.
    + intros (s' & H). apply updateTemplate_Ok in H. tauto.
    + intros (H1 & H2 & H3 & H4 & H5 & H6). eexists.
      apply updateTemplate_Ok. auto 10.
  - intros s' H t. apply updateTemplate_Ok in H.
    destruct H as (_ & _ & _ & _ & _ & Ha & ->). fold t. fold t in Ha.
    split; [| split; [| split]].
    + rewrite templateAt_set_template, decide_True by reflexivity.
      rewrite Ha. reflexivity.
    + intros x Hx. rewrite templateAt_set_template, decide_False by auto.
      reflexivity.
    + reflexivity.
    + reflexivity.
Qed.

Lemma updateTemplate_spec_witness :
  is_ok (SBTTemplate.updateTemplate (Scenario.from Scenario.admin 104) 1
           "Seminar" "Attended the seminar" (template Scenario.minted)) = true /\
  is_ok (SBTTemplate.updateTemplate (Scenario.from Scenario.admin 104) 1
           "Seminar" "Attended the seminar" (template Scenario.deactivated))
    = false.
Proof.
  split.
  - apply (proj1 (updateTemplate_spec (Scenario.from Scenario.admin 104) 1
                    "Seminar" "Attended the seminar"
                    (template Scenario.minted))).
    repeat split; try reflexivity; try discriminate.
  - apply not_true_is_false. intros H.
    apply (proj1 (updateTemplate_spec (Scenario.from Scenario.admin 104) 1
                    "Seminar" "Attended the seminar"
                    (template Scenario.deactivated))) in H.
    destruct H as (_ & _ & _ & _ & _ & H). discriminate H.
Defined.

(** ** The session manager: creation, statistics, one-way changes *)

(** Every call leaves the session manager alone, runs one of its entry
    points on it, or counts the mints of a successful session mint. *)
Lemma exec_session_cases h e c w w' :
  exec h e c w = Ok w' ->
  session w' = session w \/
  (exists tid mx dur ttl r,
     SBTSession.createSession h e (registry w) (template w) tid mx dur ttl
       (session w) = Ok r /\
     session w' = fst r /\ template w' = template w /\
     call_typed c = call_typed (CreateSession tid mx dur ttl)) \/
  (exists sid, SBTSession.incrementMintCount e sid (session w) = Ok (session w')) \/
  (exists sid, SBTSession.endSession e sid (session w) = Ok (session w')) \/
  SBTSession.pause e (session w) = Ok (session w') \/
  SBTSession.unpause e (session w) = Ok (session w') \/
  (exists sid n,
     0 < n /\
     SBTSession.isSessionClaimable e sid (session w) = true /\
     SBTSession.currentMints (SBTSession.sessionAt (session w) sid) + n
       <= SBTSession.maxMints (SBTSession.sessionAt (session w) sid) /\
     session w' = counted n sid (session w)).
Proof.
  intros Hx.
  destruct c; simpl in Hx; apply fmap_Ok in Hx; destruct Hx as (r & Hx & ->);
    simpl; auto.
  - right. left. eauto 12.
  - right. right. left. eauto.
  - right. right. right. left. eauto.
  - right. right. right. right. left. auto.
  - right. right. right. right. right. left. auto.
  - destruct r as [ses' s']. apply mintFromSession_Ok in Hx.
    destruct Hx as (_ & _ & Hcl & _ & _ & _ & _ & _ & _ & _ & [= -> ->]).
    do 6 right. exists sessionId, 1. simpl.
    pose proof (proj1 (isSessionClaimable_true _ _ _) Hcl) as (_ & _ & _ & Hlt).
    repeat split; auto; lia.
  - destruct r as [ses' s']. apply batchMintFromSession_inv in Hx.
    destruct Hx as (_ & _ & Hlen & Hcl & _ & Hcap & _ & _ & [= -> ->]).
    do 6 right. exists sessionId, (N.of_nat (length recipients)). simpl.
    repeat split; auto; lia.
  - destruct r as [ses' s']. apply claimFromSession_Ok in Hx.
    destruct Hx as (_ & Hcl & _ & _ & _ & _ & _ & _ & [= -> ->]).
    do 6 right. exists sessionId, 1. simpl.
    pose proof (proj1 (isSessionClaimable_true _ _ _) Hcl) as (_ & _ & _ & Hlt).
    repeat split; auto; lia.
Qed.

Lemma session_evolves_refl x : session_evolves x x.
Proof. unfold session_evolves. repeat split; auto; lia. Qed.

Lemma session_evolves_trans x y z :
  session_evolves x y -> session_evolves y z -> session_evolves x z.
Proof.
  unfold session_evolves.
  intros (A1 & A2 & A3 & A4 & A5 & A6 & A7 & A8)
         (B1 & B2 & B3 & B4 & B5 & B6 & B7 & B8).
  repeat split; try congruence; [lia | auto].
Qed.

Lemma session_evolves_counted n sid ses x :
  session_evolves (SBTSession.sessionAt ses x)
                  (SBTSession.sessionAt (counted n sid ses) x).
Proof.
  rewrite sessionAt_counted. destruct (decide (sid = x)) as [<- |].
  - unfold session_evolves. simpl. repeat split; auto. lia.
  - apply session_evolves_refl.
Qed.

Lemma session_evolves_step h e c w w' sid :
  exec h e c w = Ok w' ->
  SBTSession.issuer (SBTSession.sessionAt (session w) sid) <> 0 ->
  session_evolves (SBTSession.sessionAt (session w) sid)
                  (SBTSession.sessionAt (session w') sid).
Proof.
  intros Hx Hex.
  destruct (exec_session_cases _ _ _ _ _ Hx)
    as [-> | [(tid & mx & dur & ttl & r & Hc & -> & _) | [(x & Hi) | [(x & He) |
        [Hp | [Hp | (x & n & _ & _ & _ & ->)]]]]]].
  - apply session_evolves_refl.
  - apply createSession_inv in Hc.
    destruct Hc as (_ & _ & _ & _ & _ & _ & endTs & nonce & _ & _ & _ & Hfree
                    & Hses & _).
    unfold SBTSession.sessionAt at 2. rewrite Hses, lookup_insert.
    destruct (decide (snd r = sid)) as [<- |]; [contradiction |].
    apply session_evolves_refl.
  - apply incrementMintCount_Ok in Hi. destruct Hi as (_ & _ & _ & ->).
    apply (session_evolves_counted 1).
  - apply endSession_inv in He. rewrite He, sessionAt_set_session.
    destruct (decide (x = sid)) as [<- |]; [| apply session_evolves_refl].
    unfold session_evolves. simpl. repeat split; auto; try lia; discriminate.
  - unfold SBTSession.pause in Hp. inv_ok.
    match goal with H : SBTSession.set_paused _ _ = _ |- _ => rewrite <- H end.
    apply session_evolves_refl.
  - unfold SBTSession.unpause in Hp. inv_ok.
    match goal with H : SBTSession.set_paused _ _ = _ |- _ => rewrite <- H end.
    apply session_evolves_refl.
  - apply session_evolves_counted.
Qed.

Lemma session_evolves_run h calls w w' sid :
  run h calls w = Ok w' ->
  SBTSession.issuer (SBTSession.sessionAt (session w) sid) <> 0 ->
  session_evolves (SBTSession.sessionAt (session w) sid)
                  (SBTSession.sessionAt (session w') sid).
Proof.
  revert w. induction calls as [|[e c] rest IH]; intros w Hrun Hex.
  - injection Hrun as <-. apply session_evolves_refl.
  - simpl in Hrun. apply bind_Ok in Hrun. destruct Hrun as (w1 & Hx & Hrun).
    pose proof (session_evolves_step _ _ _ _ _ sid Hx Hex) as H1.
    eapply session_evolves_trans; [exact H1 |]. apply IH; [exact Hrun |].
    destruct H1 as (_ & _ & _ & _ & Hi & _). congruence.
Qed.

(** X13. Over any sequence of successful calls an existing session keeps
    its id, template, capacity, expiry, issuer and title; its
    [currentMints] never decreases; and once its [active] flag is
    [false] it is never [true] again. *)
Theorem session_only_moves_forward (h : SessionHash)
    (calls : list (Env * Call)) (w w' : World) (sid : bytes32) :
  run h calls w = Ok w' ->
  SBTSession.issuer (SBTSession.sessionAt (session w) sid) <> 0 ->
  session_evolves (SBTSession.sessionAt (session w) sid)
                  (SBTSession.sessionAt (session w') sid).
Proof.
  revert w. induction calls as [|[e c] rest IH]; intros w Hrun Hex.
  - injection Hrun as <-. apply session_evolves_refl.
  - simpl in Hrun. apply bind_Ok in Hrun. destruct Hrun as (w1 & Hx & Hrun).
    pose proof (session_evolves_step _ _ _ _ _ sid Hx Hex) as H1.
    eapply session_evolves_trans; [exact H1 |]. apply IH; [exact Hrun |].
    destruct H1 as (_ & _ & _ & _ & Hi & _). congruence.
Qed.

Lemma session_only_moves_forward_witness :
  session_evolves
    (SBTSession.sessionAt (session Scenario.opened) Scenario.sid)
    (SBTSession.sessionAt (session Scenario.doubled) Scenario.sid).
Proof.
  apply (session_only_moves_forward Scenario.hash Scenario.twice
           Scenario.opened Scenario.doubled Scenario.sid eq_refl).
  discriminate.
Defined.

(** X14. An existing session that is not claimable now (ended, expired
    or full) is not claimable at any later block time, whatever
    successful calls happen in between, and every mint path through it
    then reverts. *)
Theorem unclaimable_stays_unclaimable (h : SessionHash) (e e' : Env)
    (calls : list (Env * Call)) (w w' : World) (sid : bytes32) :
  SBTSession.issuer (SBTSession.sessionAt (session w) sid) <> 0 ->
  SBTSession.isSessionClaimable e sid (session w) = false ->
  run h calls w = Ok w' ->
  block_timestamp e <= block_timestamp e' ->
  SBTSession.isSessionClaimable e' sid (session w') = false /\
  is_ok (exec h e' (ClaimFromSession sid) w') = false /\
  (forall to, is_ok (exec h e' (MintFromSession to sid) w') = false) /\
  (forall rs, is_ok (exec h e' (BatchMintFromSession rs sid) w') = false).
Proof.
  intros Hex Hoff Hrun Htime.
  pose proof (session_evolves_run _ _ _ _ sid Hrun Hex)
    as (_ & _ & Hmax & Hend & _ & _ & Hcur & Hact).
  assert (Hoff' : SBTSession.isSessionClaimable e' sid (session w') = false).
  { destruct (SBTSession.isSessionClaimable e' sid (session w')) eqn:Hon;
      [| reflexivity].
    apply isSessionClaimable_true in Hon. destruct Hon as (_ & Ha & Ht & Hc).
    assert (SBTSession.isSessionClaimable e sid (session w) = true);
      [| congruence].
    apply isSessionClaimable_true. repeat split; auto; lia. }
  split; [exact Hoff' |]. split; [| split].
  - destruct (exec h e' (ClaimFromSession sid) w') eqn:Hx; [| reflexivity].
    simpl in Hx. apply fmap_Ok in Hx. destruct Hx as ([ses1 s1] & Hx & _).
    apply claimFromSession_Ok in Hx. destruct Hx as (_ & Hon & _). congruence.
  - intros to.
    destruct (exec h e' (MintFromSession to sid) w') eqn:Hx; [| reflexivity].
    simpl in Hx. apply fmap_Ok in Hx. destruct Hx as ([ses1 s1] & Hx & _).
    apply mintFromSession_Ok in Hx. destruct Hx as (_ & _ & Hon & _). congruence.
  - intros rs.
    destruct (exec h e' (BatchMintFromSession rs sid) w') eqn:Hx; [| reflexivity].
    simpl in Hx. apply fmap_Ok in Hx. destruct Hx as ([ses1 s1] & Hx & _).
    apply batchMintFromSession_inv in Hx.
    destruct Hx as (_ & _ & _ & Hon & _). congruence.
Qed.

(** The session is ended; after a further call, and at any later time,
    it is still closed to Bob. *)
Lemma unclaimable_stays_unclaimable_witness :
  SBTSession.isSessionClaimable (Scenario.from Scenario.bob 105) Scenario.sid
    (session Examples.ended_later) = false /\
  is_ok (exec Scenario.hash (Scenario.from Scenario.bob 105)
           (ClaimFromSession Scenario.sid) Examples.ended_later) = false.
Proof.
  destruct (unclaimable_stays_unclaimable Scenario.hash
              (Scenario.from Scenario.admin 103)
              (Scenario.from Scenario.bob 105) Examples.later
              Examples.ended Examples.ended_later Scenario.sid)
    as (Hoff & Hclaim & _).
  - discriminate.
  - reflexivity.
  - reflexivity.
  - discriminate.
  - split; [exact Hoff | exact Hclaim].
Defined.

Lemma createSession_Ok h e reg tpl tid mx dur ttl s r :
  SBTSession.createSession h e reg tpl tid mx dur ttl s = Ok r <->
  IssuerRegistry.isAuthorizedIssuer reg (msg_sender e) = true /\
  SBTSession.paused s = false /\
  SBTTemplate.isTemplateActive tpl tid = true /\
  0 < mx /\ 0 < dur /\
  SBTTemplate.issuer (SBTTemplate.templateAt tpl tid) = msg_sender e /\
  block_timestamp e + dur <= MAX_UINT256 /\
  SBTSession._sessionNonce s + 1 <= MAX_UINT256 /\
  (let sid := h (msg_sender e) tid mx (block_timestamp e + dur) ttl
                (block_timestamp e) (block_prevrandao e)
                (SBTSession._sessionNonce s + 1) in
   SBTSession.issuer (SBTSession.sessionAt s sid) = 0 /\
   r = (SBTSession.mkState (SBTSession.owner s) (SBTSession.paused s)
          (<[sid := SBTSession.mkSession sid tid mx 0 (block_timestamp e + dur)
                      (msg_sender e) true ttl]> (SBTSession.sessions s))
          (<[msg_sender e :=
               default [] (SBTSession.issuerSessions s !! msg_sender e) ++ [sid]]>
             (SBTSession.issuerSessions s))
          (SBTSession._sessionNonce s + 1) (SBTSession.sbtTokenContract s),
        sid)).
Proof.
  unfold SBTSession.createSession, SBTSession.generateUniqueSessionId,
    SBTSession.onlyAuthorizedIssuer, SBTSession.whenNotPaused. split.
  - intros H. inv_ok. subst. simpl in *. inv_ok. subst. simpl in *.
    match goal with H : SBTTemplate.getTemplate _ _ = Ok _ |- _ =>
      apply getTemplate_Ok in H; destruct H as (? & ? & ->) end.
    repeat match goal with
           | H : (_ =? _) = true |- _ => apply N.eqb_eq in H
           | H : (_ <? _) = true |- _ => apply N.ltb_lt in H
           end.
    auto 12.
  - intros (H1 & H2 & H3 & H4 & H5 & H6 & H7 & H8 & H9 & ->).
    rewrite H1, H2, H3. simpl.
    apply N.ltb_lt in H4. apply N.ltb_lt in H5. rewrite H4, H5. simpl.
    apply isTemplateActive_true in H3. destruct H3 as (Ha & Hb & _).
    rewrite (proj2 (getTemplate_Ok tid tpl _) (conj Ha (conj Hb eq_refl))).
    simpl. apply N.eqb_eq in H6. rewrite H6. simpl.
    rewrite (proj2 (checked_add_Ok _ _ _) (conj eq_refl H7)). simpl.
    rewrite (proj2 (checked_add_Ok _ _ _) (conj eq_refl H8)). simpl.
    unfold SBTSession.sessionAt in H9 |- *. simpl.
    apply N.eqb_eq in H9. rewrite H9. simpl. rewrite H2. reflexivity.
Qed.

(** X15. [createSession] succeeds exactly when the caller is an
    authorized issuer, the manager is not paused, the template is
    active and owned by the caller, capacity and duration are positive,
    expiry and nonce do not overflow, and the generated id is free. A
    session created by a non-zero caller is stored with zero mints,
    active, expiring at block time plus duration; it is claimable in the
    same block, [getSessionStats] reports the full capacity and the full
    duration as remaining, the id is appended to the caller's index, and
    no other session changes. *)
Theorem createSession_spec (h : SessionHash) (e : Env)
    (reg : IssuerRegistry.state) (tpl : SBTTemplate.state)
    (tid mx dur : uint256) (ttl : string) (s : SBTSession.state) :
  (is_ok (SBTSession.createSession h e reg tpl tid mx dur ttl s) = true <->
   IssuerRegistry.isAuthorizedIssuer reg (msg_sender e) = true /\
   SBTSession.paused s = false /\
   SBTTemplate.isTemplateActive tpl tid = true /\
   0 < mx /\ 0 < dur /\
   SBTTemplate.issuer (SBTTemplate.templateAt tpl tid) = msg_sender e /\
   block_timestamp e + dur <= MAX_UINT256 /\
   SBTSession._sessionNonce s + 1 <= MAX_UINT256 /\
   SBTSession.issuer
     (SBTSession.sessionAt s
        (h (msg_sender e) tid mx (block_timestamp e + dur) ttl
           (block_timestamp e) (block_prevrandao e)
           (SBTSession._sessionNonce s + 1))) = 0) /\
  (forall s' sid,
     msg_sender e <> 0 ->
     SBTSession.createSession h e reg tpl tid mx dur ttl s = Ok (s', sid) ->
     SBTSession.getSession sid s' =
       Ok (SBTSession.mkSession sid tid mx 0 (block_timestamp e + dur)
             (msg_sender e) true ttl) /\
     SBTSession.isSessionClaimable e sid s' = true /\
     SBTSession.getSessionStats e sid s' = Ok (0, mx, mx, dur) /\
     SBTSession.getIssuerSessions s' (msg_sender e) =
       SBTSession.getIssuerSessions s (msg_sender e) ++ [sid] /\
     (forall x, x <> sid -> SBTSession.sessionAt s' x = SBTSession.sessionAt s x)).
Proof.
  split.
  - rewrite is_ok_true. split.
    + intros (r & H). apply createSession_Ok in H. simpl in H. tauto.
    + intros (H1 & H2 & H3 & H4 & H5 & H6 & H7 & H8 & H9). eexists.
      apply createSession_Ok. simpl. auto 12.
  - intros s' sid0 Hs H. apply createSession_Ok in H.
    destruct H as (_ & _ & _ & Hmx & Hdur & _ & _ & _ & _ & [= -> ->]).
    set (sid := h _ _ _ _ _ _ _ _).
    set (x := SBTSession.mkSession sid tid mx 0 (block_timestamp e + dur)
                (msg_sender e) true ttl).
    assert (Hat : forall y,
              SBTSession.sessionAt
                (SBTSession.mkState (SBTSession.owner s) (SBTSession.paused s)
                   (<[sid := x]> (SBTSession.sessions s))
                   (<[msg_sender e :=
                        default [] (SBTSession.issuerSessions s !! msg_sender e)
                        ++ [sid]]> (SBTSession.issuerSessions s))
                   (SBTSession._sessionNonce s + 1)
                   (SBTSession.sbtTokenContract s)) y =
              if decide (sid = y) then x else SBTSession.sessionAt s y).
    { intros y. unfold SBTSession.sessionAt. simpl. rewrite lookup_insert.
      destruct (decide _); reflexivity. }
    split; [| split; [| split; [| split]]].
    + apply getSession_Ok. rewrite Hat, decide_True by reflexivity. auto.
    + apply isSessionClaimable_true. rewrite Hat, decide_True by reflexivity.
      simpl. repeat split; auto. lia.
    + unfold SBTSession.getSessionStats.
      rewrite (proj2 (sessionExists_Ok _ _ tt)); simpl;
        rewrite Hat, decide_True by reflexivity; [| exact Hs].
      simpl. apply N.ltb_lt in Hmx. rewrite Hmx.
      assert (Hlt : (block_timestamp e <? block_timestamp e + dur) = true)
        by (apply N.ltb_lt; lia).
      rewrite Hlt. repeat f_equal; lia.
    + unfold SBTSession.getIssuerSessions. simpl. rewrite lookup_insert_eq.
      reflexivity.
    + intros y Hy. rewrite Hat, decide_False by auto. reflexivity.
Qed.

Lemma createSession_spec_witness :
  SBTSession.isSessionClaimable (Scenario.from Scenario.admin 102)
    Scenario.sid (session Scenario.opened) = true /\
  SBTSession.getSessionStats (Scenario.from Scenario.admin 102)
    Scenario.sid (session Scenario.opened) = Ok (0, 2, 2, 3600).
Proof.
  pose proof (createSession_spec Scenario.hash
                (Scenario.from Scenario.admin 102)
                (registry Scenario.opened) (template Scenario.opened)
                1 2 3600 "Morning"
                (session (Scenario.world_of
                            (exec Scenario.hash (Scenario.from Scenario.admin 101)
                               (CreateTemplate "Workshop" "Attended the workshop")
                               Scenario.genesis)))) as (_ & Heff).
  destruct (Heff (session Scenario.opened) Scenario.sid) as (_ & Hcl & Hst & _).
  - discriminate.
  - reflexivity.
  - split; [exact Hcl | exact Hst].
Defined.


(** A call changes the template store or the session manager, not both. *)
Lemma exec_template_or_session h e c w w' :
  exec h e c w = Ok w' ->
  template w' = template w \/ session w' = session w.
Proof.
  destruct c; simpl; intros Hx; apply fmap_Ok in Hx;
    destruct Hx as (r & _ & ->); auto.
Qed.

Lemma sessions_linked_set tpl ses sid x :
  sessions_linked tpl ses ->
  SBTSession.issuer (SBTSession.sessionAt ses sid) <> 0 ->
  session_evolves (SBTSession.sessionAt ses sid) x ->
  sessions_linked tpl (SBTSession.set_session sid x ses).
Proof.
  intros (H1 & H2 & H3) Hex (E1 & E2 & E3 & E4 & E5 & _).
  assert (Hstored : SBTSession.sessions ses !! sid
                    = Some (SBTSession.sessionAt ses sid)).
  { unfold SBTSession.sessionAt in *.
    destruct (SBTSession.sessions ses !! sid); [reflexivity | contradiction]. }
  destruct (H1 _ _ Hstored) as (A1 & A2 & A3 & A4).
  split; [| split].
  - intros y z. simpl. rewrite lookup_insert.
    destruct (decide (sid = y)) as [<- |]; [| apply H1].
    intros [= <-]. rewrite E1, E2, E3, E5. auto.
  - intros a y. unfold SBTSession.getIssuerSessions. simpl.
    specialize (H2 a y). unfold SBTSession.getIssuerSessions in H2.
    rewrite H2, lookup_insert.
    destruct (decide (sid = y)) as [<- |]; [| reflexivity].
    rewrite Hstored. split; intros (z & [= <-] & Hz); eexists; split; eauto;
      congruence.
  - exact H3.
Qed.

Lemma sessions_linked_exec h e c w w' :
  exec h e c w = Ok w' ->
  registry_ok (registry w) ->
  sessions_ok (template w) (session w) ->
  sessions_linked (template w) (session w) ->
  sessions_linked (template w') (session w').
Proof.
  intros Hx (_ & _ & Hauth) Hs Hl.
  destruct (exec_template_or_session _ _ _ _ _ Hx) as [Ht | Hses].
  - rewrite Ht.
    destruct (exec_session_cases _ _ _ _ _ Hx)
      as [-> | [(tid & mx & dur & ttl & r & Hc & -> & _) | [(x & Hi) | [(x & He) |
          [Hp | [Hp | (x & n & _ & Hcl & _ & ->)]]]]]].
    + exact Hl.
    + apply createSession_Ok in Hc.
      destruct Hc as (Ha & _ & _ & Hmx & _ & Hiss & _ & _ & Hfree & ->).
      set (sid := h _ _ _ _ _ _ _ _) in *. simpl.
      destruct (Hauth _ Ha) as (_ & Hnz).
      destruct Hl as (H1 & H2 & H3).
      assert (Hnone : SBTSession.sessions (session w) !! sid = None).
      { destruct (SBTSession.sessions (session w) !! sid) as [z|] eqn:Hz;
          [| reflexivity].
        destruct (H1 _ _ Hz) as (_ & Hzi & _).
        unfold SBTSession.sessionAt in Hfree. rewrite Hz in Hfree.
        contradiction. }
      split; [| split].
      * intros y z. simpl. rewrite lookup_insert.
        destruct (decide (sid = y)) as [<- |]; [| apply H1].
        intros [= <-]. simpl. auto.
      * intros a y. unfold SBTSession.getIssuerSessions. simpl.
        specialize (H2 a y). unfold SBTSession.getIssuerSessions in H2.
        rewrite !lookup_insert.
        destruct (decide (msg_sender e = a)) as [<- | Hne];
          destruct (decide (sid = y)) as [<- | Hy]; simpl.
        -- rewrite elem_of_app, list_elem_of_singleton. split; [eauto | auto].
        -- rewrite elem_of_app, list_elem_of_singleton, H2. split.
           ++ intros [Hin | Heq]; [exact Hin | congruence].
           ++ auto.
        -- rewrite H2, Hnone. split.
           ++ intros (z & Hz & _). discriminate.
           ++ intros (z & [= <-] & Hz). simpl in Hz. contradiction.
        -- apply H2.
      * intros a. unfold SBTSession.getIssuerSessions. simpl.
        rewrite lookup_insert.
        destruct (decide (msg_sender e = a)) as [<- |]; [| apply H3].
        simpl. apply NoDup_app. split; [apply H3 |].
        split; [| apply NoDup_singleton].
        intros y Hy Hys. apply list_elem_of_singleton in Hys. subst y.
        apply H2 in Hy. destruct Hy as (z & Hz & _). congruence.
    + apply incrementMintCount_Ok in Hi. destruct Hi as (_ & Hex & _ & ->).
      apply sessions_linked_set; auto.
      pose proof (session_evolves_counted 1 x (session w) x) as Hev.
      rewrite sessionAt_counted, decide_True in Hev by reflexivity. exact Hev.
    + pose proof He as He'. apply endSession_inv in He'. rewrite He'.
      unfold SBTSession.endSession in He. inv_ok.
      match goal with H : SBTSession.sessionExists _ _ = Ok _ |- _ =>
        apply sessionExists_Ok in H end.
      apply sessions_linked_set; auto.
      unfold session_evolves. simpl. repeat split; auto; try lia; discriminate.
    + unfold SBTSession.pause in Hp. inv_ok.
      match goal with H : SBTSession.set_paused _ _ = _ |- _ => rewrite <- H end.
      exact Hl.
    + unfold SBTSession.unpause in Hp. inv_ok.
      match goal with H : SBTSession.set_paused _ _ = _ |- _ => rewrite <- H end.
      exact Hl.
    + apply isSessionClaimable_true in Hcl. destruct Hcl as (Hex & _).
      apply sessions_linked_set; auto.
      pose proof (session_evolves_counted n x (session w) x) as Hev.
      rewrite sessionAt_counted, decide_True in Hev by reflexivity. exact Hev.
  - rewrite Hses. destruct Hl as (H1 & H2 & H3).
    split; [| split]; auto.
    intros sid x Hsx. destruct (H1 _ _ Hsx) as (A1 & A2 & A3 & A4).
    destruct (Hs _ _ Hsx) as (_ & _ & B1 & B2).
    destruct (template_identity_step _ _ _ _ _ (SBTSession.templateId x) Hx
                (conj B1 B2)) as (_ & _ & Hi & _).
    repeat split; auto. congruence.
Qed.

Lemma sessions_linked_reachable h w :
  reachable h w -> sessions_linked (template w) (session w).
Proof.
  induction 1 as [e ro to ta w Hd | w e c w' Hr IH _ _ Hx].
  - unfold deploy, SBTSession.constructor, SBTSession.setSBTTokenContract in Hd.
    inv_ok. subst. simpl. split; [| split]; simpl.
    + intros sid z Hz. rewrite lookup_empty in Hz. discriminate.
    + intros a sid. unfold SBTSession.getIssuerSessions. simpl.
      rewrite lookup_empty. simpl. split.
      * intros Hin. inversion Hin.
      * intros (z & Hz & _). rewrite lookup_empty in Hz. discriminate.
    + intros a. unfold SBTSession.getIssuerSessions. simpl.
      rewrite lookup_empty. constructor.
  - eapply sessions_linked_exec; eauto.
    + eapply registry_ok_reachable; eauto.
    + apply reachable_wf in Hr. apply Hr.
Qed.

(** X17. In every reachable state a session that [getSession] returns
    carries the id it was asked for and a positive capacity, its
    template exists, and its issuer is the issuer of that template. The
    per-issuer index [getIssuerSessions] has no repetition and lists
    exactly the sessions of that issuer. *)
Theorem session_issuer_is_template_issuer (h : SessionHash) (w : World)
    (sid : bytes32) :
  reachable h w ->
  (forall x,
     SBTSession.getSession sid (session w) = Ok x ->
     SBTSession.sessionId x = sid /\
     0 < SBTSession.maxMints x /\
     exists t,
       SBTTemplate.getTemplate (SBTSession.templateId x) (template w) = Ok t /\
       SBTTemplate.issuer t = SBTSession.issuer x) /\
  (forall a,
     NoDup (SBTSession.getIssuerSessions (session w) a) /\
     (sid ∈ SBTSession.getIssuerSessions (session w) a <->
      exists x, SBTSession.getSession sid (session w) = Ok x /\
                SBTSession.issuer x = a)).
Proof.
  intros Hr. pose proof (sessions_linked_reachable _ _ Hr) as (H1 & H2 & H3).
  apply reachable_wf in Hr. destruct Hr as [_ _ Hs _].
  assert (Hget : forall x,
            SBTSession.getSession sid (session w) = Ok x <->
            SBTSession.sessions (session w) !! sid = Some x).
  { intros x. rewrite getSession_Ok. unfold SBTSession.sessionAt. split.
    - intros (Hnz & ->).
      destruct (SBTSession.sessions (session w) !! sid); [reflexivity |].
      contradiction.
    - intros Hx. rewrite Hx. simpl. split; [apply (H1 _ _ Hx) | reflexivity]. }
  split.
  - intros x Hx. apply Hget in Hx.
    destruct (H1 _ _ Hx) as (A1 & A2 & A3 & A4).
    destruct (Hs _ _ Hx) as (_ & _ & B1 & B2).
    split; [exact A1 |]. split; [exact A3 |].
    eexists. split; [apply getTemplate_Ok; eauto | auto].
  - intros a. split; [apply H3 |]. rewrite H2. split.
    + intros (x & Hx & Hi). exists x. split; [apply Hget, Hx | exact Hi].
    + intros (x & Hx & Hi). exists x. split; [apply Hget, Hx | exact Hi].
Qed.

Lemma session_issuer_is_template_issuer_witness :
  SBTSession.getIssuerSessions (session Scenario.doubled) Scenario.admin
    = [Scenario.sid] /\
  NoDup (SBTSession.getIssuerSessions (session Scenario.doubled) Scenario.admin).
Proof.
  split; [reflexivity |].
  apply (proj2 (session_issuer_is_template_issuer Scenario.hash
                  Scenario.doubled Scenario.sid doubled_reachable)
           Scenario.admin).
Defined.

(** ** The token ledger: what a call can do to it *)

(** The first loop of a batch only passes when the ids it hands out have
    no owner. *)
Lemma batchMint_loop_fresh e t x sid rs s s' :
  SBTToken.batchMint_loop e t x sid rs s = Ok s' ->
  forall i, (i < length rs)%nat ->
    SBTToken._ownerOf s (SBTToken._nextTokenId s + N.of_nat i) = 0.
Proof.
  revert s. induction rs as [|to rest IH]; intros s H i Hi; simpl in Hi; [lia |].
  apply batchMint_loop_cons in H. destruct H as (_ & Hc & H).
  destruct i as [|j].
  - rewrite N.add_0_r. apply Hc.
  - assert (Hj : (j < length rest)%nat) by lia.
    specialize (IH _ H j Hj).
    unfold SBTToken._ownerOf in *. simpl in IH.
    rewrite lookup_insert_ne in IH by lia.
    replace (SBTToken._nextTokenId s + N.of_nat (S j))
      with (SBTToken._nextTokenId s + 1 + N.of_nat j) by lia.
    exact IH.
Qed.

Lemma batchMintFromSession_fresh e self reg tpl rs sid ses s r :
  SBTToken.batchMintFromSession e self reg tpl rs sid (ses, s) = Ok r ->
  forall i, (i < length rs)%nat ->
    SBTToken._ownerOf s (SBTToken._nextTokenId s + N.of_nat i) = 0.
Proof.
  unfold SBTToken.batchMintFromSession. intros H. inv_ok.
  match goal with H : SBTToken.batchMint_loop _ _ _ _ _ _ = Ok _ |- _ =>
    exact (batchMint_loop_fresh _ _ _ _ _ _ _ H) end.
Qed.

(** A batch writes the ids from [_nextTokenId] on and no other. *)
Lemma batch_issued_other rs d s id :
  id < SBTToken._nextTokenId s \/
  SBTToken._nextTokenId s + N.of_nat (length rs) <= id ->
  SBTToken.sbtData (batch_issued rs d s) !! id = SBTToken.sbtData s !! id /\
  SBTToken._owners (batch_issued rs d s) !! id = SBTToken._owners s !! id.
Proof.
  revert s. induction rs as [|to rest IH]; intros s Hid; simpl.
  - auto.
  - simpl length in Hid.
    destruct (IH (session_issued to d s)) as (H1 & H2); [simpl; lia |].
    rewrite H1, H2. simpl. rewrite !lookup_insert_ne by lia. auto.
Qed.

Lemma batch_issued_frame rs d s :
  SBTToken._nextTokenId (batch_issued rs d s)
    = SBTToken._nextTokenId s + N.of_nat (length rs) /\
  SBTToken.owner (batch_issued rs d s) = SBTToken.owner s /\
  SBTToken.paused (batch_issued rs d s) = SBTToken.paused s.
Proof.
  revert s. induction rs as [|to rest IH]; intros s; simpl.
  - repeat split; auto. lia.
  - destruct (IH (session_issued to d s)) as (H1 & H2 & H3).
    rewrite H1, H2, H3. simpl. repeat split; auto. lia.
Qed.

(** A property of the ledger that every single session mint keeps is kept
    by a batch. *)
Lemma batch_issued_keeps (P : SBTToken.state -> Prop) e d :
  (forall s to,
     P s -> to <> 0 ->
     (to, SBTToken.sessionId d) ∉ SBTToken.hasTokenFromSession s ->
     P (session_issued to d s)) ->
  forall rs s,
    P s ->
    Forall (batch_recipient_ok e (SBTToken.sessionId d) s) rs ->
    NoDup rs ->
    P (batch_issued rs d s).
Proof.
  intros Hstep rs. induction rs as [|to rest IH]; intros s HP Hall Hnd; simpl.
  - exact HP.
  - apply Forall_cons in Hall. destruct Hall as ((Hto & Hm & _) & Hall).
    apply NoDup_cons in Hnd. destruct Hnd as (Hnin & Hnd).
    apply IH; auto.
    rewrite Forall_forall in Hall |- *. intros a Ha.
    destruct (Hall a Ha) as (H1 & H2 & H3).
    repeat split; auto. simpl.
    assert (Hne : a <> to) by (intros ->; contradiction).
    rewrite elem_of_union, elem_of_singleton.
    intros [[= Heq] | Hin]; contradiction.
Qed.

(** Every successful call leaves the ledger alone, issues one token from
    a template, issues one token per recipient through a claimable
    session and counts them, revokes a token, or sets the pause flag. *)
Lemma exec_token_cases h e c w w' :
  exec h e c w = Ok w' ->
  (is_mint c = false /\ token w' = token w) \/
  (exists to d,
     can_issue e to (token w) /\
     SBTToken.sessionId d = 0 /\ SBTToken.revoked d = false /\
     token w' = issued to d (token w) /\ session w' = session w) \/
  (exists rs d,
     (0 < length rs)%nat /\
     SBTToken.revoked d = false /\
     SBTSession.isSessionClaimable e (SBTToken.sessionId d) (session w) = true /\
     Forall (batch_recipient_ok e (SBTToken.sessionId d) (token w)) rs /\
     NoDup rs /\
     (forall i, (i < length rs)%nat ->
        SBTToken._ownerOf (token w)
          (SBTToken._nextTokenId (token w) + N.of_nat i) = 0) /\
     token w' = batch_issued rs d (token w) /\
     session w' = counted (N.of_nat (length rs)) (SBTToken.sessionId d)
                    (session w)) \/
  (exists id,
     SBTToken.revokeSBT e id (token w) = Ok (token w') /\
     session w' = session w) \/
  (exists b,
     token w' = SBTToken.set_paused b (token w) /\ session w' = session w).
Proof.
  intros Hx.
  destruct c; simpl in Hx; apply fmap_Ok in Hx; destruct Hx as (r & Hx & ->);
    simpl; auto.
  - apply mintFromTemplate_Ok in Hx.
    destruct Hx as (_ & _ & _ & _ & _ & Hc & ->).
    right. left.
    exists to,
      (SBTToken.mkSBTData
         (SBTTemplate.name (SBTTemplate.templateAt (template w) templateId))
         (SBTTemplate.description
            (SBTTemplate.templateAt (template w) templateId))
         (msg_sender e) (block_timestamp e) templateId 0 false).
    split; [exact Hc |]. simpl. auto.
  - destruct r as [ses' s']. apply mintFromSession_Ok in Hx.
    destruct Hx as (_ & _ & Hcl & Hm & _ & _ & _ & Hc & _ & _ & [= -> ->]).
    right. right. left.
    exists [to],
      (session_record e (template w)
         (SBTSession.sessionAt (session w) sessionId) sessionId (msg_sender e)).
    simpl. split; [lia |]. split; [reflexivity |]. split; [exact Hcl |].
    destruct Hc as (Hto & Hmax & Hfree & Hacc).
    split; [repeat constructor; auto |].
    split; [repeat constructor; apply not_elem_of_nil |].
    split; [| split; reflexivity].
    intros i Hi. assert (i = 0%nat) as -> by lia.
    rewrite N.add_0_r. exact Hfree.
  - destruct r as [ses' s'].
    pose proof (batchMintFromSession_fresh _ _ _ _ _ _ _ _ _ Hx) as Hfree.
    apply batchMintFromSession_inv in Hx.
    destruct Hx as (_ & _ & Hlen & Hcl & _ & _ & Hall & Hnd & [= -> ->]).
    right. right. left.
    exists recipients,
      (session_record e (template w)
         (SBTSession.sessionAt (session w) sessionId) sessionId (msg_sender e)).
    simpl. split; [lia |]. repeat split; auto.
  - destruct r as [ses' s']. apply claimFromSession_Ok in Hx.
    destruct Hx as (_ & Hcl & Hm & _ & _ & Hc & _ & _ & [= -> ->]).
    right. right. left.
    exists [msg_sender e],
      (session_record e (template w)
         (SBTSession.sessionAt (session w) sessionId) sessionId
         (SBTSession.issuer (SBTSession.sessionAt (session w) sessionId))).
    simpl. split; [lia |]. split; [reflexivity |]. split; [exact Hcl |].
    destruct Hc as (Hto & Hmax & Hfree & Hacc).
    split; [repeat constructor; auto |].
    split; [repeat constructor; apply not_elem_of_nil |].
    split; [| split; reflexivity].
    intros i Hi. assert (i = 0%nat) as -> by lia.
    rewrite N.add_0_r. exact Hfree.
  - do 3 right. left. eauto.
  - do 4 right. exists true. unfold SBTToken.pause in Hx. inv_ok. subst. auto.
  - do 4 right. exists false. unfold SBTToken.unpause in Hx. inv_ok. subst. auto.
Qed.

(** ** Tokens are permanent *)

Lemma record_kept_refl d : record_kept d d.
Proof. unfold record_kept. repeat split; auto. Qed.

Lemma record_kept_trans a b c :
  record_kept a b -> record_kept b c -> record_kept a c.
Proof.
  unfold record_kept.
  intros (A1 & A2 & A3 & A4 & A5 & A6 & A7) (B1 & B2 & B3 & B4 & B5 & B6 & B7).
  repeat split; try congruence. auto.
Qed.

Lemma token_kept_step h e c w w' id :
  exec h e c w = Ok w' ->
  SBTToken._ownerOf (token w) id <> 0 ->
  SBTToken._ownerOf (token w') id = SBTToken._ownerOf (token w) id /\
  record_kept (SBTToken.dataAt (token w) id) (SBTToken.dataAt (token w') id).
Proof.
  intros Hx Hown.
  destruct (exec_token_cases _ _ _ _ _ Hx)
    as [(_ & ->) | [(to & d & Hc & _ & _ & -> & _) |
        [(rs & d & _ & _ & _ & _ & _ & Hfree & -> & _) |
        [(id0 & Hr & _) | (b & -> & _)]]]].
  - split; [reflexivity | apply record_kept_refl].
  - destruct Hc as (_ & _ & Hnew & _).
    assert (Hne : SBTToken._nextTokenId (token w) <> id) by congruence.
    unfold SBTToken._ownerOf, SBTToken.dataAt. simpl.
    rewrite !lookup_insert_ne by exact Hne.
    split; [reflexivity | apply record_kept_refl].
  - assert (Hout : id < SBTToken._nextTokenId (token w) \/
                   SBTToken._nextTokenId (token w) + N.of_nat (length rs) <= id).
    { destruct (N.lt_ge_cases id (SBTToken._nextTokenId (token w))) as [|Hge];
        [left; assumption |].
      destruct (N.lt_ge_cases id
                  (SBTToken._nextTokenId (token w) + N.of_nat (length rs)))
        as [Hlt|]; [| right; assumption].
      exfalso. apply Hown.
      assert (Hi : (N.to_nat (id - SBTToken._nextTokenId (token w))
                    < length rs)%nat) by lia.
      specialize (Hfree _ Hi).
      replace (SBTToken._nextTokenId (token w)
               + N.of_nat (N.to_nat (id - SBTToken._nextTokenId (token w))))
        with id in Hfree by lia.
      exact Hfree. }
    destruct (batch_issued_other rs d (token w) id Hout) as (H1 & H2).
    unfold SBTToken._ownerOf, SBTToken.dataAt. rewrite H1, H2.
    split; [reflexivity | apply record_kept_refl].
  - apply revokeSBT_frame in Hr.
    destruct Hr as (_ & Ho & _ & _ & _ & _ & Hd).
    unfold SBTToken._ownerOf, SBTToken.dataAt. rewrite Ho, Hd.
    split; [reflexivity |].
    destruct (decide (id0 = id)) as [-> |].
    + rewrite lookup_insert_eq. simpl.
      unfold record_kept. simpl. repeat split; auto.
    + rewrite lookup_insert_ne by assumption. apply record_kept_refl.
  - split; [reflexivity | apply record_kept_refl].
Qed.

(** X18. A token, once minted, stays: over any sequence of successful
    calls it keeps its owner and every field of its record except
    [revoked], which never goes back from [true] to [false]; and the
    transfer hook [_update] refuses to move it to any other account. *)
Theorem tokens_are_permanent h calls w w' id :
  run h calls w = Ok w' ->
  SBTToken._ownerOf (token w) id <> 0 ->
  SBTToken._ownerOf (token w') id = SBTToken._ownerOf (token w) id /\
  record_kept (SBTToken.dataAt (token w) id) (SBTToken.dataAt (token w') id) /\
  (forall to,
     to <> 0 ->
     SBTToken._update to id (token w') =
     Revert "SBTToken: Soulbound tokens cannot be transferred").
Proof.
  intros Hrun Hown.
  assert (Hkeep :
    SBTToken._ownerOf (token w') id = SBTToken._ownerOf (token w) id /\
    record_kept (SBTToken.dataAt (token w) id) (SBTToken.dataAt (token w') id)).
  { revert w Hrun Hown. induction calls as [|[e c] rest IH]; intros w Hrun Hown.
    - injection Hrun as <-. split; [reflexivity | apply record_kept_refl].
    - simpl in Hrun. apply bind_Ok in Hrun. destruct Hrun as (w1 & Hx & Hrun).
      destruct (token_kept_step _ _ _ _ _ id Hx Hown) as (Ho & Hk).
      destruct (IH w1 Hrun) as (Ho' & Hk'); [congruence |].
      split; [congruence |]. eapply record_kept_trans; eassumption. }
  destruct Hkeep as (Ho & Hk). split; [exact Ho |]. split; [exact Hk |].
  intros to Hto. unfold SBTToken._update. rewrite Ho.
  destruct (N.eqb_spec (SBTToken._ownerOf (token w) id) 0); [contradiction |].
  destruct (N.eqb_spec to 0); [contradiction |]. reflexivity.
Qed.

Lemma tokens_are_permanent_witness :
  SBTToken._ownerOf (token LedgerExamples.settled) 1
    = SBTToken._ownerOf (token Scenario.one_left) 1 /\
  record_kept (SBTToken.dataAt (token Scenario.one_left) 1)
              (SBTToken.dataAt (token LedgerExamples.settled) 1) /\
  (forall to,
     to <> 0 ->
     SBTToken._update to 1 (token LedgerExamples.settled) =
     Revert "SBTToken: Soulbound tokens cannot be transferred").
Proof.
  apply (tokens_are_permanent Scenario.hash LedgerExamples.aftermath
           Scenario.one_left LedgerExamples.settled 1 eq_refl).
  vm_compute. discriminate.
Defined.

(** ** Token ids are handed out without gaps *)

Lemma ledger_dense_mint s s' to d :
  ledger_dense s ->
  to <> 0 ->
  SBTToken._nextTokenId s' = SBTToken._nextTokenId s + 1 ->
  SBTToken._owners s' = <[SBTToken._nextTokenId s := to]> (SBTToken._owners s) ->
  SBTToken.sbtData s' = <[SBTToken._nextTokenId s := d]> (SBTToken.sbtData s) ->
  ledger_dense s'.
Proof.
  unfold ledger_dense, SBTToken._ownerOf.
  intros (H1 & H2 & H3) Hto -> -> ->.
  split; [lia |]. split; intros id.
  - destruct (decide (SBTToken._nextTokenId s = id)) as [<- | Hne].
    + rewrite lookup_insert_eq. simpl. split; [lia | auto].
    + rewrite lookup_insert_ne by exact Hne. rewrite H2. lia.
  - rewrite lookup_insert_is_Some, H3. lia.
Qed.

Lemma ledger_dense_same s s' :
  ledger_dense s ->
  SBTToken._nextTokenId s' = SBTToken._nextTokenId s ->
  SBTToken._owners s' = SBTToken._owners s ->
  (forall id, is_Some (SBTToken.sbtData s' !! id)
              <-> is_Some (SBTToken.sbtData s !! id)) ->
  ledger_dense s'.
Proof.
  unfold ledger_dense, SBTToken._ownerOf.
  intros (H1 & H2 & H3) -> -> Hd.
  split; [exact H1 |]. split; [exact H2 |].
  intros id. rewrite Hd. apply H3.
Qed.

Lemma ledger_dense_batch_issued e rs d s :
  ledger_dense s ->
  Forall (batch_recipient_ok e (SBTToken.sessionId d) s) rs ->
  NoDup rs ->
  ledger_dense (batch_issued rs d s).
Proof.
  apply (batch_issued_keeps ledger_dense e d).
  intros s0 to Hd Hto _.
  apply (ledger_dense_mint s0 _ to d Hd Hto); reflexivity.
Qed.

Lemma ledger_dense_exec h e c w w' :
  ledger_dense (token w) -> exec h e c w = Ok w' -> ledger_dense (token w').
Proof.
  intros Hd Hx.
  destruct (exec_token_cases _ _ _ _ _ Hx)
    as [(_ & ->) | [(to & d & Hc & _ & _ & -> & _) |
        [(rs & d & _ & _ & _ & Hall & Hnd & _ & -> & _) |
        [(id0 & Hr & _) | (b & -> & _)]]]].
  - exact Hd.
  - destruct Hc as (Hto & _).
    apply (ledger_dense_mint (token w) _ to d Hd Hto); reflexivity.
  - eapply ledger_dense_batch_issued; eassumption.
  - pose proof (proj1 (revokeSBT_Ok _ _ _ _) Hr) as (Hown & _).
    apply revokeSBT_frame in Hr.
    destruct Hr as (Hn & Ho & _ & _ & _ & _ & Hdat).
    apply (ledger_dense_same (token w)); auto.
    intros id. rewrite Hdat, lookup_insert_is_Some.
    destruct Hd as (_ & H2 & H3).
    split.
    + intros [<- | (_ & H)]; [| exact H].
      apply H3, H2, Hown.
    + intros H. destruct (decide (id0 = id)); auto.
  - apply (ledger_dense_same (token w)); auto.
Qed.

Lemma ledger_dense_reachable h w : reachable h w -> ledger_dense (token w).
Proof.
  induction 1 as [e ro to ta w Hd | w e c w' _ IH _ _ Hx].
  - unfold deploy in Hd. inv_ok.
    unfold SBTToken.constructor in *. inv_ok. subst. simpl.
    unfold ledger_dense, SBTToken._ownerOf. simpl.
    split; [lia |]. split; intros id.
    + rewrite lookup_empty. simpl. lia.
    + rewrite lookup_empty. split; [intros [? [=]] | lia].
  - eapply ledger_dense_exec; eassumption.
Qed.

(** X19. In every reachable state the tokens are exactly the ids from 1
    up to, not including, [getNextTokenId]: for such an id [getSBTInfo]
    returns the stored record and [getSBTBasicInfo] five of its fields,
    and the token has an owner; for every other id, zero included, both
    revert with "Token does not exist". *)
Theorem token_ids_dense h w id :
  reachable h w ->
  (0 < id < SBTToken.getNextTokenId (token w) ->
   exists d,
     SBTToken.sbtData (token w) !! id = Some d /\
     SBTToken._ownerOf (token w) id <> 0 /\
     SBTToken.getSBTInfo id (token w) = Ok d /\
     SBTToken.getSBTBasicInfo id (token w) =
       Ok (SBTToken.name d, SBTToken.description d, SBTToken.issuer d,
           SBTToken.mintedAt d, SBTToken.revoked d)) /\
  (~ 0 < id < SBTToken.getNextTokenId (token w) ->
   SBTToken.getSBTInfo id (token w) = Revert "SBTToken: Token does not exist" /\
   SBTToken.getSBTBasicInfo id (token w) =
     Revert "SBTToken: Token does not exist").
Proof.
  intros Hr. apply ledger_dense_reachable in Hr.
  destruct Hr as (_ & H2 & H3).
  unfold SBTToken.getNextTokenId, SBTToken.getSBTInfo, SBTToken.getSBTBasicInfo.
  split; intros Hid.
  - destruct (proj2 (H3 id) Hid) as (d & Hd). exists d.
    pose proof (proj2 (H2 id) Hid) as Hown.
    split; [exact Hd |]. split; [exact Hown |].
    unfold SBTToken.dataAt. rewrite Hd.
    destruct (N.eqb_spec (SBTToken._ownerOf (token w) id) 0); [contradiction |].
    simpl. auto.
  - destruct (N.eqb_spec (SBTToken._ownerOf (token w) id) 0) as [|Hne].
    + simpl. auto.
    + apply H2 in Hne. contradiction.
Qed.

Lemma token_ids_dense_witness :
  (0 < 1 < SBTToken.getNextTokenId (token Scenario.one_left) ->
   exists d,
     SBTToken.sbtData (token Scenario.one_left) !! 1 = Some d /\
     SBTToken._ownerOf (token Scenario.one_left) 1 <> 0 /\
     SBTToken.getSBTInfo 1 (token Scenario.one_left) = Ok d /\
     SBTToken.getSBTBasicInfo 1 (token Scenario.one_left) =
       Ok (SBTToken.name d, SBTToken.description d, SBTToken.issuer d,
           SBTToken.mintedAt d, SBTToken.revoked d)) /\
  (~ 0 < 1 < SBTToken.getNextTokenId (token Scenario.one_left) ->
   SBTToken.getSBTInfo 1 (token Scenario.one_left)
     = Revert "SBTToken: Token does not exist" /\
   SBTToken.getSBTBasicInfo 1 (token Scenario.one_left) =
     Revert "SBTToken: Token does not exist").
Proof.
  exact (token_ids_dense Scenario.hash Scenario.one_left 1 one_left_reachable).
Defined.

(** ** One live token per owner and session *)









(** ** The mint counter of a session counts its tokens *)

Lemma session_count_insert_new (m : gmap N SBTToken.SBTData) id d sid :
  m !! id = None ->
  size (filter (fun kv => SBTToken.sessionId (snd kv) = sid) (<[id := d]> m)) =
  ((if decide (SBTToken.sessionId d = sid) then 1 else 0)
   + size (filter (fun kv => SBTToken.sessionId (snd kv) = sid) m))%nat.
Proof.
  intros Hn. destruct (decide (SBTToken.sessionId d = sid)) as [Heq | Hne].
  - rewrite map_filter_insert_True by exact Heq.
    rewrite map_size_insert_None; [reflexivity |].
    apply map_lookup_filter_None. left. exact Hn.
  - rewrite map_filter_insert_False by exact Hne.
    rewrite delete_id by exact Hn. reflexivity.
Qed.

Lemma session_count_insert_same (m : gmap N SBTToken.SBTData) id d d' sid :
  m !! id = Some d ->
  SBTToken.sessionId d' = SBTToken.sessionId d ->
  size (filter (fun kv => SBTToken.sessionId (snd kv) = sid) (<[id := d']> m)) =
  size (filter (fun kv => SBTToken.sessionId (snd kv) = sid) m).
Proof.
  intros Hd Hs. destruct (decide (SBTToken.sessionId d' = sid)) as [Heq | Hne].
  - rewrite map_filter_insert_True by exact Heq.
    apply map_size_insert_Some. exists d.
    apply map_lookup_filter_Some. split; [exact Hd |]. simpl. congruence.
  - rewrite map_filter_insert_False by exact Hne.
    rewrite map_filter_delete. rewrite delete_id; [reflexivity |].
    apply map_lookup_filter_None. right. intros x Hx. simpl. congruence.
Qed.

Lemma ledger_dense_next_free s :
  ledger_dense s ->
  SBTToken.sbtData s !! SBTToken._nextTokenId s = None.
Proof.
  intros (_ & _ & H3).
  destruct (SBTToken.sbtData s !! SBTToken._nextTokenId s) eqn:E; [| reflexivity].
  assert (Hs : is_Some (SBTToken.sbtData s !! SBTToken._nextTokenId s))
    by (rewrite E; eauto).
  apply H3 in Hs. lia.
Qed.

Lemma session_tokens_batch rs d s sid :
  ledger_dense s ->
  Forall (fun to => to <> 0) rs ->
  session_tokens (batch_issued rs d s) sid =
  ((if decide (SBTToken.sessionId d = sid) then length rs else 0)
   + session_tokens s sid)%nat.
Proof.
  revert s. induction rs as [|to rest IH]; intros s Hd Hall; simpl.
  - destruct (decide (SBTToken.sessionId d = sid)); reflexivity.
  - apply Forall_cons in Hall. destruct Hall as (Hto & Hall).
    rewrite IH; [| apply (ledger_dense_mint s _ to d Hd Hto); reflexivity
                 | exact Hall].
    assert (E : session_tokens (session_issued to d s) sid =
                ((if decide (SBTToken.sessionId d = sid) then 1 else 0)
                 + session_tokens s sid)%nat).
    { unfold session_tokens. simpl.
      apply session_count_insert_new, ledger_dense_next_free, Hd. }
    rewrite E. destruct (decide (SBTToken.sessionId d = sid)); lia.
Qed.

(** Outside the mint paths no call changes the counter of any session. *)
Lemma nonmint_counts h e c w w' sid :
  is_mint c = false ->
  SBTSession.sbtTokenContract (session w) = token_address w ->
  msg_sender e <> token_address w ->
  sessions_linked (template w) (session w) ->
  exec h e c w = Ok w' ->
  SBTSession.currentMints (SBTSession.sessionAt (session w') sid)
    = SBTSession.currentMints (SBTSession.sessionAt (session w) sid).
Proof.
  intros Hm Hw Hs (Hl & _) Hx.
  destruct c; try discriminate Hm;
    simpl in Hx; apply fmap_Ok in Hx; destruct Hx as (r & Hx & ->);
    simpl; auto.
  - apply createSession_inv in Hx.
    destruct Hx as (_ & _ & _ & _ & _ & _ & endTs & nonce & _ & _ & _ & Hfree
                    & Hses & _).
    unfold SBTSession.sessionAt at 1. rewrite Hses, lookup_insert.
    destruct (decide (snd r = sid)) as [<- |]; [| reflexivity].
    simpl. unfold SBTSession.sessionAt in *.
    destruct (SBTSession.sessions (session w) !! snd r) as [x |] eqn:E;
      [| reflexivity].
    destruct (Hl _ _ E) as (_ & Hnz & _). simpl in Hfree. contradiction.
  - apply incrementMintCount_Ok in Hx. destruct Hx as (Hsender & _).
    congruence.
  - apply endSession_inv in Hx. rewrite Hx, sessionAt_set_session.
    destruct (decide (sessionId = sid)) as [<- |]; reflexivity.
  - unfold SBTSession.pause in Hx. inv_ok. subst. reflexivity.
  - unfold SBTSession.unpause in Hx. inv_ok. subst. reflexivity.
Qed.

Lemma mints_counted_exec h e c w w' :
  SBTSession.sbtTokenContract (session w) = token_address w ->
  sessions_linked (template w) (session w) ->
  ledger_dense (token w) ->
  mints_counted w ->
  msg_sender e <> token_address w ->
  exec h e c w = Ok w' ->
  mints_counted w'.
Proof.
  intros Hw Hl Hd Hc Hs Hx sid Hsid.
  destruct (exec_token_cases _ _ _ _ _ Hx)
    as [(Hm & Ht) | [(to & d & Hcan & Hs0 & _ & Ht & Hses) |
        [(rs & d & _ & _ & _ & Hall & _ & _ & Ht & Hses) |
        [(id0 & Hr & Hses) | (b & Ht & Hses)]]]].
  - rewrite Ht, (nonmint_counts _ _ _ _ _ sid Hm Hw Hs Hl Hx). apply Hc, Hsid.
  - rewrite Ht, Hses, (Hc sid Hsid). f_equal.
    unfold session_tokens. simpl.
    rewrite session_count_insert_new by (apply ledger_dense_next_free, Hd).
    destruct (decide (SBTToken.sessionId d = sid)); [congruence | reflexivity].
  - rewrite Ht, Hses, sessionAt_counted, session_tokens_batch; [| exact Hd |].
    + pose proof (Hc sid Hsid) as Hcount.
      destruct (decide (SBTToken.sessionId d = sid)) as [Heq |]; simpl.
      * rewrite Heq, Hcount. lia.
      * rewrite Hcount. lia.
    + eapply Forall_impl; [exact Hall |]. intros a (Ha & _). exact Ha.
  - rewrite Hses, (Hc sid Hsid). f_equal.
    pose proof (proj1 (revokeSBT_Ok _ _ _ _) Hr) as (Hown & _).
    apply revokeSBT_frame in Hr.
    destruct Hr as (_ & _ & _ & _ & _ & _ & Hdat).
    unfold session_tokens. rewrite Hdat.
    destruct Hd as (_ & H2 & H3).
    destruct (proj2 (H3 id0) (proj1 (H2 id0) Hown)) as (x & Hx0).
    unfold SBTToken.dataAt. rewrite Hx0. simpl.
    symmetry. apply (session_count_insert_same _ id0 x); [exact Hx0 | reflexivity].
  - rewrite Ht, Hses. apply Hc, Hsid.
Qed.

Lemma mints_counted_reachable h w : reachable h w -> mints_counted w.
Proof.
  induction 1 as [e ro to ta w Hd | w e c w' Hr IH Hs _ Hx].
  - unfold deploy, SBTSession.constructor, SBTSession.setSBTTokenContract,
      SBTToken.constructor in Hd.
    inv_ok. subst. intros sid _. reflexivity.
  - eapply mints_counted_exec; [| | | exact IH | exact Hs | exact Hx].
    + apply reachable_wf in Hr. apply Hr.
    + eapply sessions_linked_reachable. exact Hr.
    + eapply ledger_dense_reachable. exact Hr.
Qed.

Lemma settled_reachable : reachable Scenario.hash LedgerExamples.settled.
Proof.
  apply (reachable_run Scenario.hash LedgerExamples.aftermath Scenario.one_left).
  - exact one_left_reachable.
  - repeat constructor; discriminate.
  - reflexivity.
Qed.


(** * The URI-based ledger *)

Section URILedgerFacts.

Import SBTTokenURI.

Lemma uri_safeMint_Ok e to id s s' :
  _safeMint e to id s = Ok s' <->
  to <> 0 /\ _ownerOf s id = 0 /\ receiver_accepts e to = true /\
  s' = set_owner_of id to s.
Proof.
  unfold _safeMint, _update.
  destruct (N.eqb_spec to 0) as [-> | Hto]; simpl.
  { split; [discriminate | intros (? & _); contradiction]. }
  destruct (N.eqb_spec (_ownerOf s id) 0) as [Hz | Hnz]; simpl.
  - rewrite Hz. simpl. destruct (receiver_accepts e to); simpl.
    + split; [intros [= <-]; auto | intros (_ & _ & _ & ->); reflexivity].
    + split; [discriminate | intros (_ & _ & ? & _); discriminate].
  - split; [discriminate | intros (_ & ? & _); contradiction].
Qed.



(** With the caller authorized and the ledger not paused, the loop of a
    batch does what the single mints do one after the other. *)
Lemma batchMint_loop_mint_each e reg rs uris s :
  IssuerRegistry.isAuthorizedIssuer reg (msg_sender e) = true ->
  paused s = false ->
  length rs = length uris ->
  batchMint_loop e rs uris s = mint_each e reg (zip rs uris) s.
Proof.
  intros Ha. revert uris s.
  induction rs as [|to rest IH]; intros [|uri us] s Hp Hlen;
    try discriminate Hlen; [reflexivity |].
  injection Hlen as Hlen.
  cbn [batchMint_loop zip zip_with mint_each].
  unfold mintSBT, onlyAuthorizedIssuer, whenNotPaused.
  rewrite Ha, Hp. cbn [negb require mbind result_bind].
  destruct (negb (to =? 0)); cbn [require mbind result_bind]; [| reflexivity].
  destruct (nonempty uri); cbn [require mbind result_bind]; [| reflexivity].
  destruct (negb (bool_decide ((to, msg_sender e) ∈ hasTokenFromIssuer s)));
    cbn [require mbind result_bind]; [| reflexivity].
  destruct (checked_add (_nextTokenId s) 1) as [next |];
    cbn [mbind result_bind]; [| reflexivity].
  destruct (_safeMint e to (_nextTokenId s) (set_nextTokenId next s))
    as [s1 |] eqn:Hs1; cbn [mbind result_bind]; [| reflexivity].
  apply IH; [| exact Hlen].
  apply uri_safeMint_Ok in Hs1. destruct Hs1 as (_ & _ & _ & ->).
  exact Hp.
Qed.

(** X22. [batchMintSBT] by an authorized issuer on a ledger that is not
    paused reverts on an empty recipient list, on lists of different
    lengths and on more than 100 recipients (checked in this order);
    otherwise it is exactly the single [mintSBT] calls for the
    recipients and URIs in order: the same resulting state when all of
    them succeed, and the revert of the first one that fails. *)
Theorem batchMintSBT_as_mints e reg rs uris s :
  IssuerRegistry.isAuthorizedIssuer reg (msg_sender e) = true ->
  paused s = false ->
  batchMintSBT e reg rs uris s =
  if decide (rs = []) then Revert "SBTToken: Empty recipients array"
  else if decide (length rs <> length uris)
       then Revert "SBTToken: Arrays length mismatch"
  else if decide (100 < length rs)%nat
       then Revert "SBTToken: Batch size too large"
  else mint_each e reg (zip rs uris) s.
Proof.
  intros Ha Hp. unfold batchMintSBT, onlyAuthorizedIssuer, whenNotPaused.
  rewrite Ha, Hp. cbn [negb require mbind result_bind].
  destruct (decide (rs = [])) as [-> | Hne]; [reflexivity |].
  assert (Hpos : (0 <? N.of_nat (length rs)) = true).
  { apply N.ltb_lt. destruct rs; [contradiction | simpl; lia]. }
  rewrite Hpos. cbn [require mbind result_bind].
  destruct (decide (length rs <> length uris)) as [Hlen | Hlen].
  - assert (E : (N.of_nat (length rs) =? N.of_nat (length uris)) = false)
      by (apply N.eqb_neq; lia).
    rewrite E. reflexivity.
  - assert (Hlen' : length rs = length uris)
      by (destruct (decide (length rs = length uris)); [assumption | contradiction]).
    assert (E : (N.of_nat (length rs) =? N.of_nat (length uris)) = true)
      by (apply N.eqb_eq; lia).
    rewrite E. cbn [require mbind result_bind].
    destruct (decide (100 < length rs)%nat) as [Hbig | Hsmall].
    + assert (E' : (N.of_nat (length rs) <=? 100) = false)
        by (apply N.leb_gt; lia).
      rewrite E'. reflexivity.
    + assert (E' : (N.of_nat (length rs) <=? 100) = true)
        by (apply N.leb_le; lia).
      rewrite E'. cbn [require mbind result_bind].
      apply batchMint_loop_mint_each; assumption.
Qed.

(** A batch of two in the example: the result of the two single mints;
    and the revert of a batch with one URI too few. *)
Lemma batchMintSBT_as_mints_witness :
  batchMintSBT (Scenario.from Scenario.admin 200) URIExamples.reg
    [Scenario.alice; Scenario.bob] ["ipfs://a"; "ipfs://b"] URIExamples.start
  = mint_each (Scenario.from Scenario.admin 200) URIExamples.reg
      [(Scenario.alice, "ipfs://a"); (Scenario.bob, "ipfs://b")]
      URIExamples.start /\
  batchMintSBT (Scenario.from Scenario.admin 200) URIExamples.reg
    [Scenario.alice; Scenario.bob] ["ipfs://a"] URIExamples.start
  = Revert "SBTToken: Arrays length mismatch".
Proof.
  split.
  - exact (batchMintSBT_as_mints (Scenario.from Scenario.admin 200)
             URIExamples.reg [Scenario.alice; Scenario.bob]
             ["ipfs://a"; "ipfs://b"] URIExamples.start eq_refl eq_refl).
  - exact (batchMintSBT_as_mints (Scenario.from Scenario.admin 200)
             URIExamples.reg [Scenario.alice; Scenario.bob]
             ["ipfs://a"] URIExamples.start eq_refl eq_refl).
Defined.

(** *** Invariants of the URI-based ledger *)






















End URILedgerFacts.

(** * The system with its owners' calls *)

(** ** What the re-configuration calls touch *)

(** Takes a successful owner call apart: the world afterwards differs
    from the one before in one owner field or in [sbtTokenContract]. *)
Ltac owner_inv H :=
  match type of H with
  | exec_owner _ ?c _ = Ok _ =>
      destruct c as [? | [] ? | []]; simpl in H; apply fmap_Ok in H;
      destruct H as (? & H & ->);
      unfold SBTSession.setSBTTokenContract,
        IssuerRegistry.transferOwnership, IssuerRegistry.renounceOwnership,
        SBTTemplate.transferOwnership, SBTTemplate.renounceOwnership,
        SBTSession.transferOwnership, SBTSession.renounceOwnership,
        SBTToken.transferOwnership, SBTToken.renounceOwnership in H;
      inv_ok; subst; simpl
  end.

Lemma exec_owner_token_address e c w w' :
  exec_owner e c w = Ok w' -> token_address w' = token_address w.
Proof. intros H. owner_inv H; reflexivity. Qed.

Lemma perform_token_address h e a w w' :
  perform h e a w = Ok w' -> token_address w' = token_address w.
Proof.
  destruct a as [c | c]; simpl.
  - apply exec_token_address.
  - apply exec_owner_token_address.
Qed.

(** An owner call leaves the issuers, the templates, the sessions and the
    tokens as they are. *)
Lemma exec_owner_frame e c w w' :
  exec_owner e c w = Ok w' ->
  (forall a, IssuerRegistry.isAuthorizedIssuer (registry w') a
             = IssuerRegistry.isAuthorizedIssuer (registry w) a) /\
  registry_ok (registry w') = registry_ok (registry w) /\
  sessions_ok (template w') (session w')
    = sessions_ok (template w) (session w) /\
  sessions_linked (template w') (session w')
    = sessions_linked (template w) (session w) /\
  ledger_dense (token w') = ledger_dense (token w) /\
  mints_counted w' = mints_counted w /\
  SBTSession.sessions (session w') = SBTSession.sessions (session w).
Proof. intros H. owner_inv H; repeat split; reflexivity. Qed.

(** ** The reachability relations *)

Lemma reaches_holds h P w : reaches h P w -> P w.
Proof. destruct 1; assumption. Qed.

Lemma reaches_weaken h (P Q : World -> Prop) w :
  (forall x, P x -> Q x) -> reaches h P w -> reaches h Q w.
Proof.
  intros HPQ. induction 1 as [e ro to ta w Hd HP | w e a w' _ IH Hs Hty Hx HP].
  - eapply reaches_deploy; eauto.
  - eapply reaches_step; eauto.
Qed.

(** The states reached by the calls of [Call] alone are reached with the
    wiring of the deployment and the registry's first owner in place. *)
Lemma reachable_reaches h w :
  reachable h w ->
  reaches h (fun x => wired x /\ owned_by (IssuerRegistry.owner (registry w)) x) w.
Proof.
  induction 1 as [e ro to ta w Hd | w e c w' Hr IH Hs Hty Hx].
  - eapply reaches_deploy; [exact Hd |].
    split; [| reflexivity]. apply (deploy_wf _ _ _ _ _ Hd).
  - pose proof (exec_registry_owner _ _ _ _ _ Hx) as Ho.
    apply (reaches_step h _ w e (Entry c)); auto.
    + rewrite Ho. exact IH.
    + split; [| reflexivity].
      assert (Hr' : reachable h w') by (eapply reachable_step; eauto).
      apply reachable_wf in Hr'. apply Hr'.
Qed.

Lemma reachable_wired h w : reachable h w -> reaches h wired w.
Proof.
  intros Hr. apply reachable_reaches in Hr.
  eapply reaches_weaken; [| exact Hr]. intros x (Hx & _). exact Hx.
Qed.

Lemma reachable_owned h w :
  reachable h w -> reaches h (owned_by (IssuerRegistry.owner (registry w))) w.
Proof.
  intros Hr. apply reachable_reaches in Hr.
  eapply reaches_weaken; [| exact Hr]. intros x (_ & Hx). exact Hx.
Qed.

Lemma reaches_play h l w w' :
  reaches h unrestricted w ->
  external_actions w l ->
  play h l w = Ok w' ->
  reaches h unrestricted w'.
Proof.
  revert w. induction l as [|[e a] rest IH]; intros w Hr Hext Hp.
  - injection Hp as <-. exact Hr.
  - simpl in Hp. apply bind_Ok in Hp. destruct Hp as (w1 & Hx & Hp).
    apply Forall_cons in Hext. destruct Hext as ((Hs & Hty) & Hext).
    apply (IH w1); [| | exact Hp].
    + eapply reaches_step; eauto. exact I.
    + unfold external_actions in *.
      rewrite (perform_token_address _ _ _ _ _ Hx). exact Hext.
Qed.

(** ** Invariants that need the wiring, not the ownership *)

(** While the session manager listens to the ledger, every call of
    [Call] keeps the stored sessions within their capacity and on
    existing templates. *)
Lemma exec_sessions_ok h e c w w' :
  wired w ->
  sessions_ok (template w) (session w) ->
  msg_sender e <> token_address w ->
  call_typed c = true ->
  exec h e c w = Ok w' ->
  sessions_ok (template w') (session w').
Proof.
  unfold wired. intros Hw Hs Hsender Hty H.
  destruct c; simpl in H; apply fmap_Ok in H; destruct H as (r & H & ->);
    simpl; auto.
  - eapply sessions_ok_grow; [| exact Hs].
    rewrite (createTemplate_counter _ _ _ _ _ _ H). lia.
  - eapply sessions_ok_grow; [| exact Hs].
    rewrite (updateTemplate_counter _ _ _ _ _ _ H). lia.
  - eapply sessions_ok_grow; [| exact Hs].
    rewrite (deactivateTemplate_counter _ _ _ _ H). lia.
  - eapply sessions_ok_grow; [| exact Hs].
    rewrite (reactivateTemplate_counter _ _ _ _ H). lia.
  - eapply sessions_ok_grow; [| exact Hs].
    rewrite (pause_counter _ _ _ H). lia.
  - eapply sessions_ok_grow; [| exact Hs].
    rewrite (unpause_counter _ _ _ H). lia.
  - apply createSession_inv in H.
    destruct H as (_ & _ & Hact & Hmx & _ & _ & endTs & nonce & _ & _ & _ & _
                   & Hses & _).
    apply isTemplateActive_true in Hact. destruct Hact as (Ht1 & Ht2 & _).
    simpl in Hty. apply andb_true_iff in Hty. destruct Hty as (Hty & _).
    apply andb_true_iff in Hty. destruct Hty as (_ & Hty).
    apply N.leb_le in Hty.
    intros sid x. rewrite Hses, lookup_insert.
    destruct (decide _).
    + intros [= <-]. repeat split; simpl; auto. lia.
    + apply Hs.
  - apply incrementMintCount_Ok in H. destruct H as (Hc & _). congruence.
  - unfold SBTSession.endSession in H. inv_ok.
    match goal with H : SBTSession.sessionExists _ _ = Ok _ |- _ =>
      apply sessionExists_Ok in H;
      pose proof (sessions_ok_full _ _ _ Hs H) as Hfull end.
    subst r. apply sessions_ok_set; [exact Hs | exact Hfull].
  - unfold SBTSession.pause in H. inv_ok. subst r. exact Hs.
  - unfold SBTSession.unpause in H. inv_ok. subst r. exact Hs.
  - destruct r as [ses' s']. apply mintFromSession_Ok in H.
    destruct H as (_ & _ & Hcl & _ & _ & _ & _ & _ & _ & _ & [= -> ->]).
    apply isSessionClaimable_true in Hcl. destruct Hcl as (Hi & _ & _ & Hlt).
    apply sessions_ok_counted; auto. lia.
  - destruct r as [ses' s']. apply batchMintFromSession_inv in H.
    destruct H as (_ & _ & _ & Hcl & _ & Hcap & _ & _ & [= -> ->]).
    apply isSessionClaimable_true in Hcl. destruct Hcl as (Hi & _).
    apply sessions_ok_counted; auto.
  - destruct r as [ses' s']. apply claimFromSession_Ok in H.
    destruct H as (_ & Hcl & _ & _ & _ & _ & _ & _ & [= -> ->]).
    apply isSessionClaimable_true in Hcl. destruct Hcl as (Hi & _ & _ & Hlt).
    apply sessions_ok_counted; auto. lia.
Qed.

(** What holds in every state reached with the wiring in place, whoever
    owns the contracts. *)
Lemma wired_invariants h w :
  reaches h wired w ->
  registry_ok (registry w) /\
  sessions_ok (template w) (session w) /\
  sessions_linked (template w) (session w) /\
  ledger_dense (token w) /\
  mints_counted w.
Proof.
  induction 1 as [e ro to ta w Hd _ | w e a w' Hr IH Hs Hty Hx _].
  - assert (Hstart : reachable h w) by (eapply reachable_deploy; exact Hd).
    split; [eapply registry_ok_reachable; exact Hstart |].
    split; [apply (reachable_wf _ _ Hstart) |].
    split; [eapply sessions_linked_reachable; exact Hstart |].
    split; [eapply ledger_dense_reachable; exact Hstart |].
    eapply mints_counted_reachable; exact Hstart.
  - destruct IH as (Hreg & Hses & Hl & Hd & Hc).
    pose proof (reaches_holds _ _ _ Hr) as Hw.
    destruct a as [c | c]; simpl in Hx.
    + split; [eapply registry_ok_exec; eauto |].
      split; [eapply exec_sessions_ok; eauto |].
      split; [eapply sessions_linked_exec; eauto |].
      split; [eapply ledger_dense_exec; eauto |].
      eapply mints_counted_exec; eauto.
    + destruct (exec_owner_frame _ _ _ _ Hx)
        as (_ & E1 & E2 & E3 & E4 & E5 & _).
      rewrite E1, E2, E3, E4, E5. auto.
Qed.

(** The registry's owner is an authorized issuer for as long as the
    ownership stays where it is. *)
Lemma owner_authorized h a w :
  reaches h (owned_by a) w ->
  IssuerRegistry.isAuthorizedIssuer (registry w) a = true /\
  registry_ok (registry w).
Proof.
  induction 1 as [e ro to ta w Hd Ho | w e c w' Hr IH Hs Hty Hx Ho].
  - assert (Hstart : reachable h w) by (eapply reachable_deploy; exact Hd).
    split; [| eapply registry_ok_reachable; exact Hstart].
    unfold owned_by in Ho. rewrite <- Ho.
    apply (reachable_wf _ _ Hstart).
  - destruct IH as (Ha & Hreg).
    pose proof (reaches_holds _ _ _ Hr) as Ho0. unfold owned_by in Ho, Ho0.
    destruct c as [c | c]; simpl in Hx.
    + split; [| eapply registry_ok_exec; eauto].
      rewrite <- Ho.
      apply (exec_registry_preserves h e c w w' admin_ok); auto.
      * intros i n o s s'. apply addIssuer_admin.
      * intros i s s'. apply removeIssuer_admin.
      * intros i n o s s'. apply updateIssuer_admin.
      * intros s s'. apply pause_admin.
      * intros s s'. apply unpause_admin.
      * unfold admin_ok. rewrite Ho0. exact Ha.
    + destruct (exec_owner_frame _ _ _ _ Hx) as (E0 & E1 & _).
      rewrite E0, E1. auto.
Qed.

(** ** Session capacity *)

(** C3, as stated, fails: [setSBTTokenContract] can be called again after
    the deployment. Once the owner of the session manager has pointed
    [sbtTokenContract] to another account, that account's
    [incrementMintCount] calls pass [onlySBTToken], and nothing in them
    looks at the capacity: the session of the example, with two places,
    reaches a count of three. *)
Lemma capacity_exceeded_after_rewiring :
  reaches Scenario.hash unrestricted Rewiring.over /\
  ~ SBTSession.currentMints
      (SBTSession.sessionAt (session Rewiring.over) Scenario.sid)
    <= SBTSession.maxMints
         (SBTSession.sessionAt (session Rewiring.over) Scenario.sid).
Proof.
  split.
  - apply (reaches_play Scenario.hash Rewiring.steps Scenario.opened).
    + eapply reaches_weaken; [| apply reachable_wired, opened_reachable].
      intros x _. exact I.
    + repeat constructor; discriminate.
    + reflexivity.
  - assert (E1 : SBTSession.currentMints
                   (SBTSession.sessionAt (session Rewiring.over) Scenario.sid)
                 = 3) by reflexivity.
    assert (E2 : SBTSession.maxMints
                   (SBTSession.sessionAt (session Rewiring.over) Scenario.sid)
                 = 2) by reflexivity.
    rewrite E1, E2. lia.
Qed.

(** C3, amended. In every state reached through states in all of which
    [sbtTokenContract] is the ledger, as the deployment sets it,
    whatever else the owners do (transfers of ownership included) and
    whoever calls [incrementMintCount] from outside,
    [currentMints <= maxMints] holds for every session. And from any state at all, a successful
    [mintFromTemplate], [mintFromSession], [batchMintFromSession] or
    [claimFromSession] leaves every session either untouched or within
    its capacity: the mint paths never push a counter past [maxMints]. *)
Theorem capacity_kept_while_wired (h : SessionHash) :
  (forall w sid,
     reaches h wired w ->
     SBTSession.currentMints (SBTSession.sessionAt (session w) sid)
       <= SBTSession.maxMints (SBTSession.sessionAt (session w) sid)) /\
  (forall e c w w' sid,
     is_mint c = true ->
     exec h e c w = Ok w' ->
     SBTSession.sessionAt (session w') sid = SBTSession.sessionAt (session w) sid \/
     SBTSession.currentMints (SBTSession.sessionAt (session w') sid)
       <= SBTSession.maxMints (SBTSession.sessionAt (session w') sid)).
Proof.
  split.
  - intros w sid Hr. apply wired_invariants in Hr.
    destruct Hr as (_ & Hs & _). apply (sessions_ok_at (template w)). exact Hs.
  - intros e c w w' sid Hm Hx.
    destruct c; try discriminate Hm;
      simpl in Hx; apply fmap_Ok in Hx; destruct Hx as (r & Hx & ->); simpl.
    + left. reflexivity.
    + destruct r as [ses' s']. apply mintFromSession_Ok in Hx.
      destruct Hx as (_ & _ & Hcl & _ & _ & _ & _ & _ & _ & _ & [= -> ->]).
      apply isSessionClaimable_true in Hcl. destruct Hcl as (_ & _ & _ & Hlt).
      simpl. rewrite sessionAt_counted.
      destruct (decide (sessionId = sid)) as [<- |]; [right | left; reflexivity].
      simpl. lia.
    + destruct r as [ses' s']. apply batchMintFromSession_inv in Hx.
      destruct Hx as (_ & _ & _ & _ & _ & Hcap & _ & _ & [= -> ->]).
      simpl. rewrite sessionAt_counted.
      destruct (decide (sessionId = sid)) as [<- |]; [right | left; reflexivity].
      simpl. exact Hcap.
    + destruct r as [ses' s']. apply claimFromSession_Ok in Hx.
      destruct Hx as (_ & Hcl & _ & _ & _ & _ & _ & _ & [= -> ->]).
      apply isSessionClaimable_true in Hcl. destruct Hcl as (_ & _ & _ & Hlt).
      simpl. rewrite sessionAt_counted.
      destruct (decide (sessionId = sid)) as [<- |]; [right | left; reflexivity].
      simpl. lia.
Qed.

Lemma capacity_kept_while_wired_witness :
  SBTSession.currentMints
    (SBTSession.sessionAt (session Scenario.doubled) Scenario.sid)
  <= SBTSession.maxMints
       (SBTSession.sessionAt (session Scenario.doubled) Scenario.sid).
Proof.
  apply (proj1 (capacity_kept_while_wired Scenario.hash)).
  apply reachable_wired. exact doubled_reachable.
Defined.

(** ** The bootstrap administrator *)

(** C7, as stated, fails: the guard of [removeIssuer] protects the
    current [owner()], and the registry inherits [transferOwnership].
    After the deployer has handed the registry over, the new owner
    removes the deployer from the issuers. *)
Lemma bootstrap_administrator_removed :
  IssuerRegistry.isAuthorizedIssuer (registry Scenario.genesis) Scenario.admin
    = true /\
  reaches Scenario.hash unrestricted Handover.deposed /\
  IssuerRegistry.isAuthorizedIssuer (registry Handover.deposed) Scenario.admin
    = false.
Proof.
  split; [reflexivity |]. split; [| reflexivity].
  apply (reaches_play Scenario.hash Handover.steps Scenario.genesis).
  - eapply reaches_weaken; [| apply reachable_wired, genesis_reachable].
    intros x _. exact I.
  - repeat constructor; discriminate.
  - reflexivity.
Qed.

(** C7, amended. [removeIssuer] reverts on an identity that is not
    authorized and on the current owner of the registry. No entry point
    of [Call] changes that owner, so for as long as the ownership is not
    transferred or renounced the owner, who is the bootstrap
    administrator, is an authorized issuer in every state reached and
    cannot be removed. A successful [removeIssuer] leaves
    [isAuthorizedIssuer] false for the issuer removed. *)
Theorem removeIssuer_spec (h : SessionHash) :
  (forall e a s,
     IssuerRegistry.isAuthorizedIssuer s a = false ->
     is_ok (IssuerRegistry.removeIssuer e a s) = false) /\
  (forall e s,
     is_ok (IssuerRegistry.removeIssuer e (IssuerRegistry.owner s) s) = false) /\
  (forall e c w w',
     exec h e c w = Ok w' ->
     IssuerRegistry.owner (registry w') = IssuerRegistry.owner (registry w)) /\
  (forall a w,
     reaches h (owned_by a) w ->
     IssuerRegistry.isAuthorizedIssuer (registry w) a = true /\
     forall e, is_ok (exec h e (RemoveIssuer a) w) = false) /\
  (forall e a s s',
     IssuerRegistry.removeIssuer e a s = Ok s' ->
     IssuerRegistry.isAuthorizedIssuer s' a = false).
Proof.
  assert (Howner : forall e s,
            is_ok (IssuerRegistry.removeIssuer e (IssuerRegistry.owner s) s)
            = false).
  { intros e s.
    destruct (IssuerRegistry.removeIssuer e (IssuerRegistry.owner s) s)
      as [s'|r] eqn:H; [|reflexivity].
    apply removeIssuer_inv in H. destruct H as (_ & _ & _ & _ & Hne & _).
    contradiction. }
  split; [| split; [exact Howner | split; [| split]]].
  - intros e a s Hna.
    destruct (IssuerRegistry.removeIssuer e a s) as [s'|r] eqn:H; [|reflexivity].
    apply removeIssuer_inv in H. destruct H as (_ & _ & _ & Hauth & _).
    congruence.
  - apply exec_registry_owner.
  - intros a w Hr.
    pose proof (reaches_holds _ _ _ Hr) as Ho. unfold owned_by in Ho.
    split; [apply (owner_authorized h a w Hr) |].
    intros e. simpl. rewrite is_ok_fmap, <- Ho. apply Howner.
  - intros e a s s' H. apply removeIssuer_inv in H.
    destruct H as (_ & _ & _ & _ & _ & _ & Hauth).
    rewrite Hauth, decide_True by reflexivity. reflexivity.
Qed.

Lemma removeIssuer_spec_witness :
  is_ok (IssuerRegistry.removeIssuer (Scenario.from Scenario.admin 200)
           Scenario.alice (registry Scenario.doubled)) = false /\
  is_ok (IssuerRegistry.removeIssuer (Scenario.from Scenario.admin 200)
           Scenario.admin (registry Scenario.doubled)) = false /\
  IssuerRegistry.isAuthorizedIssuer (registry Scenario.doubled)
    Scenario.admin = true /\
  is_ok (exec Scenario.hash (Scenario.from Scenario.admin 200)
           (RemoveIssuer Scenario.admin) Scenario.doubled) = false /\
  IssuerRegistry.isAuthorizedIssuer (registry Scenario.with_bob)
    Scenario.bob = true /\
  IssuerRegistry.isAuthorizedIssuer (registry Scenario.without_bob)
    Scenario.bob = false.
Proof.
  destruct (removeIssuer_spec Scenario.hash) as (H1 & H2 & _ & H4 & H5).
  destruct (H4 Scenario.admin Scenario.doubled
              (reachable_owned _ _ doubled_reachable)) as (Hauth & Hkeep).
  split; [| split; [| split; [| split; [| split]]]].
  - apply H1. reflexivity.
  - apply (H2 (Scenario.from Scenario.admin 200) (registry Scenario.doubled)).
  - exact Hauth.
  - apply Hkeep.
  - reflexivity.
  - apply (H5 (Scenario.from Scenario.admin 102) Scenario.bob
             (registry Scenario.with_bob)).
    reflexivity.
Defined.

(** X5. The owner of the registry is authorized by the constructor, and
    for as long as the ownership of the registry is not transferred or
    renounced it stays so; hence an [addIssuer] for the owner's own
    address, which is what the deployment script attempts after
    deploying, reverts with "Issuer already exists" whenever it gets
    that far (caller is the owner, registry not paused, name given). *)
Theorem owner_is_already_issuer (h : SessionHash) (e : Env) (n o : string)
    (a : address) (w : World) :
  reaches h (owned_by a) w ->
  msg_sender e = a ->
  IssuerRegistry.paused (registry w) = false ->
  n <> EmptyString ->
  exec h e (AddIssuer a n o) w
    = Revert "IssuerRegistry: Issuer already exists".
Proof.
  intros Hr Hs Hp Hn.
  pose proof (reaches_holds _ _ _ Hr) as Ho. unfold owned_by in Ho.
  destruct (owner_authorized h a w Hr) as (Ha & (_ & _ & Hauth)).
  destruct (Hauth _ Ha) as (_ & Hnz).
  simpl. unfold IssuerRegistry.addIssuer, IssuerRegistry.onlyOwner,
    IssuerRegistry.whenNotPaused.
  rewrite <- Ho in Hs. apply N.eqb_eq in Hs.
  apply N.eqb_neq in Hnz. apply nonempty_true in Hn.
  unfold IssuerRegistry.isAuthorizedIssuer in Ha.
  rewrite Hs, Hp, Hnz, Hn, Ha. reflexivity.
Qed.

Lemma owner_is_already_issuer_witness :
  exec Scenario.hash (Scenario.from Scenario.admin 101)
    (AddIssuer Scenario.admin "System Admin"
       "Initial system administrator for testing") Scenario.genesis
  = Revert "IssuerRegistry: Issuer already exists".
Proof.
  apply (owner_is_already_issuer Scenario.hash
           (Scenario.from Scenario.admin 101) "System Admin"
           "Initial system administrator for testing" Scenario.admin
           Scenario.genesis (reachable_owned _ _ genesis_reachable)).
  - reflexivity.
  - reflexivity.
  - discriminate.
Defined.

(** ** Session statistics and counters *)

(** X16. In any state of the session manager [getSessionStats] and
    [getSession] revert on an id without a session. For an existing
    session the remaining mints are [maxMints - currentMints] while the
    counter is below the capacity and zero from there on, so that
    current plus remaining is the capacity whenever the counter is
    within it; the remaining time is positive exactly before the expiry
    and then adds up to it; and the session is claimable exactly when it
    is active, has mints remaining and the block time is not past the
    expiry. In the expiry block itself the remaining time reads zero
    while the session can still be claimed. *)
Theorem getSessionStats_spec (e : Env) (sid : bytes32) (s : SBTSession.state) :
  (SBTSession.issuer (SBTSession.sessionAt s sid) = 0 ->
   is_ok (SBTSession.getSessionStats e sid s) = false /\
   is_ok (SBTSession.getSession sid s) = false) /\
  (SBTSession.issuer (SBTSession.sessionAt s sid) <> 0 ->
   exists cur mx rem tr,
     SBTSession.getSessionStats e sid s = Ok (cur, mx, rem, tr) /\
     cur = SBTSession.currentMints (SBTSession.sessionAt s sid) /\
     mx = SBTSession.maxMints (SBTSession.sessionAt s sid) /\
     (cur <= mx -> cur + rem = mx) /\
     (mx <= cur -> rem = 0) /\
     (0 < tr <->
      block_timestamp e < SBTSession.endTimestamp (SBTSession.sessionAt s sid)) /\
     (0 < tr ->
      block_timestamp e + tr
        = SBTSession.endTimestamp (SBTSession.sessionAt s sid)) /\
     (SBTSession.isSessionClaimable e sid s = true <->
      SBTSession.active (SBTSession.sessionAt s sid) = true /\
      0 < rem /\
      block_timestamp e <= SBTSession.endTimestamp (SBTSession.sessionAt s sid))).
Proof.
  set (x := SBTSession.sessionAt s sid) in *.
  split.
  - intros Hz. unfold SBTSession.getSessionStats, SBTSession.getSession,
      SBTSession.sessionExists. fold x. rewrite Hz. simpl. auto.
  - intros Hnz. unfold SBTSession.getSessionStats.
    rewrite (proj2 (sessionExists_Ok sid s tt) Hnz). simpl. fold x.
    eexists _, _, _, _. split; [reflexivity |].
    split; [reflexivity |]. split; [reflexivity |].
    split; [| split; [| split; [| split]]].
    + destruct (N.ltb_spec (SBTSession.currentMints x) (SBTSession.maxMints x));
        lia.
    + destruct (N.ltb_spec (SBTSession.currentMints x) (SBTSession.maxMints x));
        lia.
    + destruct (N.ltb_spec (block_timestamp e) (SBTSession.endTimestamp x)); lia.
    + destruct (N.ltb_spec (block_timestamp e) (SBTSession.endTimestamp x)); lia.
    + rewrite isSessionClaimable_true. fold x.
      destruct (N.ltb_spec (SBTSession.currentMints x) (SBTSession.maxMints x));
        intuition lia.
Qed.

(** The session of the example expires at time 3702; in that very block
    the statistics show no time left, yet the session is claimable. With
    the counter pushed to three on two places, none remain. *)
Lemma getSessionStats_spec_witness :
  SBTSession.getSessionStats (Scenario.from Scenario.alice 3702) Scenario.sid
    (session Scenario.opened) = Ok (0, 2, 2, 0) /\
  SBTSession.isSessionClaimable (Scenario.from Scenario.alice 3702)
    Scenario.sid (session Scenario.opened) = true /\
  is_ok (SBTSession.getSessionStats (Scenario.from Scenario.alice 3702) 77
           (session Scenario.opened)) = false /\
  SBTSession.getSessionStats (Scenario.from Scenario.alice 200) Scenario.sid
    (session Rewiring.over) = Ok (3, 2, 0, 3502).
Proof.
  destruct (getSessionStats_spec (Scenario.from Scenario.alice 3702)
              Scenario.sid (session Scenario.opened)) as (_ & Hex).
  destruct (getSessionStats_spec (Scenario.from Scenario.alice 3702) 77
              (session Scenario.opened)) as (Hno & _).
  split; [reflexivity |]. split; [| split; [| reflexivity]].
  - destruct Hex as (cur & mx & rem & tr & Hst & _ & _ & _ & _ & _ & _ & Hcl).
    + discriminate.
    + apply Hcl. vm_compute in Hst. injection Hst as <- <- <- <-.
      repeat split; try reflexivity; discriminate.
  - apply Hno. reflexivity.
Defined.

(** X21. In every state reached through states in all of which
    [sbtTokenContract] is the ledger, as the deployment sets it, the
    counter [currentMints] of a session
    (with an id other than zero) is the number of tokens whose record
    carries that session id, revoked tokens included: every mint through
    the session adds one to both, and a revocation changes neither. So
    at most [maxMints] tokens are ever issued through a session, and no
    token names a session that does not exist. *)
Theorem currentMints_counts_tokens h w sid :
  reaches h wired w ->
  sid <> 0 ->
  SBTSession.currentMints (SBTSession.sessionAt (session w) sid)
    = N.of_nat (session_tokens (token w) sid) /\
  N.of_nat (session_tokens (token w) sid)
    <= SBTSession.maxMints (SBTSession.sessionAt (session w) sid) /\
  (SBTSession.issuer (SBTSession.sessionAt (session w) sid) = 0 ->
   session_tokens (token w) sid = 0%nat).
Proof.
  intros Hr Hsid. apply wired_invariants in Hr.
  destruct Hr as (_ & Hs & (Hl & _) & _ & Hcount).
  pose proof (Hcount sid Hsid) as Hc.
  destruct (sessions_ok_at _ _ sid Hs) as (Hcap & _).
  split; [exact Hc |]. split; [rewrite <- Hc; exact Hcap |].
  intros Hz. unfold SBTSession.sessionAt in *.
  destruct (SBTSession.sessions (session w) !! sid) as [x |] eqn:E.
  - destruct (Hl _ _ E) as (_ & Hnz & _). simpl in Hz. contradiction.
  - simpl in Hc. lia.
Qed.

(** In the example Alice's token is revoked and Bob has claimed: two
    tokens carry the session id, and the counter reads two. *)
Lemma currentMints_counts_tokens_witness :
  SBTSession.currentMints
    (SBTSession.sessionAt (session LedgerExamples.settled) Scenario.sid)
    = N.of_nat (session_tokens (token LedgerExamples.settled) Scenario.sid) /\
  N.of_nat (session_tokens (token LedgerExamples.settled) Scenario.sid)
    <= SBTSession.maxMints
         (SBTSession.sessionAt (session LedgerExamples.settled) Scenario.sid) /\
  (SBTSession.issuer
     (SBTSession.sessionAt (session LedgerExamples.settled) Scenario.sid) = 0 ->
   session_tokens (token LedgerExamples.settled) Scenario.sid = 0%nat).
Proof.
  apply (currentMints_counts_tokens Scenario.hash LedgerExamples.settled
           Scenario.sid (reachable_wired _ _ settled_reachable)).
  discriminate.
Defined.

(** ** Revocation *)

Lemma ledger_dense_ownerOf s :
  ledger_dense s -> SBTToken._ownerOf s (SBTToken._nextTokenId s) = 0.
Proof.
  intros (_ & H2 & _).
  destruct (N.eq_dec (SBTToken._ownerOf s (SBTToken._nextTokenId s)) 0)
    as [|Hne]; [assumption |].
  apply H2 in Hne. lia.
Qed.

Lemma full_reachable : reachable Scenario.hash Examples.full.
Proof.
  apply (reachable_step Scenario.hash Scenario.one_left
           (Scenario.from Scenario.bob 104) (ClaimFromSession Scenario.sid)).
  - exact one_left_reachable.
  - discriminate.
  - reflexivity.
  - reflexivity.
Qed.

Lemma emptied_by_revocation :
  exec Scenario.hash (Scenario.from Scenario.admin 105) (RevokeSBT 1)
    Examples.full = Ok Refill.emptied.
Proof. vm_compute. reflexivity. Qed.

(** C5, as stated, fails: revocation clears the markers but gives no
    place back. In the example both places of the session are taken;
    after the administrator has revoked Alice's token, neither her own
    claim nor a mint by the session's issuer gets her a token of that
    session again. *)
Lemma revoked_place_is_not_returned :
  reaches Scenario.hash wired Examples.full /\
  exec Scenario.hash (Scenario.from Scenario.admin 105) (RevokeSBT 1)
    Examples.full = Ok Refill.emptied /\
  SBTToken._ownerOf (token Examples.full) 1 = Scenario.alice /\
  SBTToken.sessionId (SBTToken.dataAt (token Examples.full) 1) = Scenario.sid /\
  exec Scenario.hash (Scenario.from Scenario.alice 106)
    (ClaimFromSession Scenario.sid) Refill.emptied
    = Revert "SBTToken: Session is not claimable" /\
  exec Scenario.hash (Scenario.from Scenario.admin 106)
    (MintFromSession Scenario.alice Scenario.sid) Refill.emptied
    = Revert "SBTToken: Session is not claimable".
Proof.
  split; [apply reachable_wired, full_reachable |].
  split; [exact emptied_by_revocation |].
  split; [vm_compute; reflexivity |].
  split; [vm_compute; reflexivity |].
  split; vm_compute; reflexivity.
Qed.

(** C5, amended. A successful [revokeSBT] implies that the caller is the
    recorded issuer of the token or the owner of the ledger, that the
    token exists and was not revoked; it sets [revoked], clears the
    (owner, template) marker, clears the (owner, session) marker when
    the token carries a session id, and leaves the session manager,
    hence every [currentMints], as it was. So a following
    [mintFromTemplate] of the same template to that owner succeeds
    whenever the other checks of that path pass; and, the other checks
    passed, a following [mintFromSession] or [claimFromSession] on the
    same session for that owner succeeds exactly when the session is
    still claimable: the place of the revoked token is not given back,
    and on a session whose counter has reached the capacity both
    revert. *)
Theorem revokeSBT_spec (h : SessionHash) (e : Env) (id : uint256)
    (w w' : World) :
  reaches h wired w ->
  exec h e (RevokeSBT id) w = Ok w' ->
  let d := SBTToken.dataAt (token w) id in
  let o := SBTToken._ownerOf (token w) id in
  (msg_sender e = SBTToken.issuer d \/ msg_sender e = SBTToken.owner (token w)) /\
  o <> 0 /\
  SBTToken.revoked d = false /\
  SBTToken.revoked (SBTToken.dataAt (token w') id) = true /\
  ((o, SBTToken.templateId d) ∉ SBTToken.hasTokenFromTemplate (token w')) /\
  (SBTToken.sessionId d <> 0 ->
   (o, SBTToken.sessionId d) ∉ SBTToken.hasTokenFromSession (token w')) /\
  session w' = session w /\
  (forall e2,
     IssuerRegistry.isAuthorizedIssuer (registry w') (msg_sender e2) = true ->
     SBTTemplate.isTemplateActive (template w') (SBTToken.templateId d) = true ->
     SBTTemplate.issuer
       (SBTTemplate.templateAt (template w') (SBTToken.templateId d))
       = msg_sender e2 ->
     SBTToken._nextTokenId (token w') + 1 <= MAX_UINT256 ->
     receiver_accepts e2 o = true ->
     is_ok (exec h e2 (MintFromTemplate o (SBTToken.templateId d)) w') = true) /\
  (forall e2,
     SBTToken.sessionId d <> 0 ->
     IssuerRegistry.isAuthorizedIssuer (registry w') (msg_sender e2) = true ->
     SBTSession.issuer
       (SBTSession.sessionAt (session w') (SBTToken.sessionId d))
       = msg_sender e2 ->
     SBTToken._nextTokenId (token w') + 1 <= MAX_UINT256 ->
     receiver_accepts e2 o = true ->
     (is_ok (exec h e2 (MintFromSession o (SBTToken.sessionId d)) w') = true <->
      SBTSession.isSessionClaimable e2 (SBTToken.sessionId d) (session w) = true)) /\
  (forall e2,
     SBTToken.sessionId d <> 0 ->
     msg_sender e2 = o ->
     SBTToken._nextTokenId (token w') + 1 <= MAX_UINT256 ->
     receiver_accepts e2 o = true ->
     (is_ok (exec h e2 (ClaimFromSession (SBTToken.sessionId d)) w') = true <->
      SBTSession.isSessionClaimable e2 (SBTToken.sessionId d) (session w) = true)) /\
  (SBTSession.maxMints (SBTSession.sessionAt (session w) (SBTToken.sessionId d))
     <= SBTSession.currentMints
          (SBTSession.sessionAt (session w) (SBTToken.sessionId d)) ->
   forall e2,
     is_ok (exec h e2 (ClaimFromSession (SBTToken.sessionId d)) w') = false /\
     is_ok (exec h e2 (MintFromSession o (SBTToken.sessionId d)) w') = false).
Proof.
  intros Hr Hx d o.
  pose proof (reaches_holds _ _ _ Hr) as Hw. unfold wired in Hw.
  destruct (wired_invariants _ _ Hr) as (_ & Hs & _ & Hdense & _).
  pose proof (ledger_dense_exec _ _ _ _ _ Hdense Hx) as Hdense'.
  simpl in Hx. apply fmap_Ok in Hx. destruct Hx as (s' & Hx & ->).
  simpl in Hdense'.
  pose proof (revokeSBT_frame _ _ _ _ Hx)
    as (Hnext & Howners & Hpaused & _ & Hmt & Hms & Hdata).
  apply revokeSBT_Ok in Hx. destruct Hx as (Ho & Hrev & Hp & Hcaller & _).
  fold d in Hrev, Hcaller, Hmt, Hms, Hdata. fold o in Ho, Hmt, Hms.
  assert (Hp' : SBTToken.paused s' = false) by congruence.
  assert (Hmark : SBTToken.sessionId d <> 0 ->
                  (o, SBTToken.sessionId d) ∉ SBTToken.hasTokenFromSession s').
  { intros Hsid. apply N.eqb_neq in Hsid. rewrite Hms, Hsid. simpl.
    apply not_elem_of_difference. right. apply elem_of_singleton. reflexivity. }
  assert (Htpl : (o, SBTToken.templateId d) ∉ SBTToken.hasTokenFromTemplate s').
  { rewrite Hmt. apply not_elem_of_difference. right.
    apply elem_of_singleton. reflexivity. }
  assert (Hissue : forall e2,
            SBTToken._nextTokenId s' + 1 <= MAX_UINT256 ->
            receiver_accepts e2 o = true -> can_issue e2 o s').
  { intros e2 Hn Hacc. repeat split; auto. apply ledger_dense_ownerOf, Hdense'. }
  assert (Hclaim : forall e2,
            SBTToken.sessionId d <> 0 ->
            msg_sender e2 = o ->
            SBTToken._nextTokenId s' + 1 <= MAX_UINT256 ->
            receiver_accepts e2 o = true ->
            SBTSession.isSessionClaimable e2 (SBTToken.sessionId d) (session w)
              = true ->
            is_ok (exec h e2 (ClaimFromSession (SBTToken.sessionId d))
                     (with_token w s')) = true).
  { intros e2 Hsid Hsender Hn Hacc Hcl.
    pose proof (proj1 (isSessionClaimable_true _ _ _) Hcl) as (Hi & _ & _ & Hlt).
    destruct (sessions_ok_template _ _ _ Hs Hi) as (Ht1 & Ht2).
    destruct (sessions_ok_at _ _ (SBTToken.sessionId d) Hs) as (_ & Hmax).
    eapply exec_ok_intro. apply claimFromSession_Ok.
    rewrite Hsender.
    split; [exact Hp' |]. split; [exact Hcl |]. split; [auto |].
    split; [exact Ht1 |]. split; [exact Ht2 |].
    split; [apply Hissue; auto |]. split; [symmetry; exact Hw |].
    split; [simpl; lia | reflexivity]. }
  assert (Hmint : forall e2,
            SBTToken.sessionId d <> 0 ->
            IssuerRegistry.isAuthorizedIssuer (registry w) (msg_sender e2) = true ->
            SBTSession.issuer
              (SBTSession.sessionAt (session w) (SBTToken.sessionId d))
              = msg_sender e2 ->
            SBTToken._nextTokenId s' + 1 <= MAX_UINT256 ->
            receiver_accepts e2 o = true ->
            SBTSession.isSessionClaimable e2 (SBTToken.sessionId d) (session w)
              = true ->
            is_ok (exec h e2 (MintFromSession o (SBTToken.sessionId d))
                     (with_token w s')) = true).
  { intros e2 Hsid Hauth Hiss Hn Hacc Hcl.
    pose proof (proj1 (isSessionClaimable_true _ _ _) Hcl) as (Hi & _ & _ & Hlt).
    destruct (sessions_ok_template _ _ _ Hs Hi) as (Ht1 & Ht2).
    destruct (sessions_ok_at _ _ (SBTToken.sessionId d) Hs) as (_ & Hmax).
    eapply exec_ok_intro. apply mintFromSession_Ok.
    split; [exact Hauth |]. split; [exact Hp' |]. split; [exact Hcl |].
    split; [auto |]. split; [exact Hiss |].
    split; [exact Ht1 |]. split; [exact Ht2 |].
    split; [apply Hissue; auto |]. split; [symmetry; exact Hw |].
    split; [simpl; lia | reflexivity]. }
  assert (Hneeds_claim : forall e2,
            is_ok (exec h e2 (ClaimFromSession (SBTToken.sessionId d))
                     (with_token w s')) = true ->
            SBTSession.isSessionClaimable e2 (SBTToken.sessionId d) (session w)
              = true).
  { intros e2 Hok. apply is_ok_true in Hok. destruct Hok as (w2 & Hx2).
    simpl in Hx2. apply fmap_Ok in Hx2. destruct Hx2 as (r & Hx2 & _).
    apply claimFromSession_Ok in Hx2. apply Hx2. }
  assert (Hneeds_mint : forall e2,
            is_ok (exec h e2 (MintFromSession o (SBTToken.sessionId d))
                     (with_token w s')) = true ->
            SBTSession.isSessionClaimable e2 (SBTToken.sessionId d) (session w)
              = true).
  { intros e2 Hok. apply is_ok_true in Hok. destruct Hok as (w2 & Hx2).
    simpl in Hx2. apply fmap_Ok in Hx2. destruct Hx2 as (r & Hx2 & _).
    apply mintFromSession_Ok in Hx2. apply Hx2. }
  unfold with_token in *. cbn [registry template session token] in *.
  split; [exact Hcaller |]. split; [exact Ho |]. split; [exact Hrev |].
  split; [unfold SBTToken.dataAt; rewrite Hdata, lookup_insert_eq; reflexivity |].
  split; [exact Htpl |]. split; [exact Hmark |]. split; [reflexivity |].
  split; [| split; [| split]].
  - intros e2 Hauth Hact Hiss Hn Hacc.
    eapply exec_ok_intro. apply mintFromTemplate_Ok.
    split; [exact Hauth |]. split; [exact Hp' |]. split; [exact Hact |].
    split; [exact Htpl |]. split; [exact Hiss |].
    split; [apply Hissue; auto | reflexivity].
  - intros e2 Hsid Hauth Hiss Hn Hacc. split.
    + apply Hneeds_mint.
    + apply Hmint; auto.
  - intros e2 Hsid Hsender Hn Hacc. split.
    + apply Hneeds_claim.
    + apply Hclaim; auto.
  - intros Hfull e2.
    assert (Hnot : SBTSession.isSessionClaimable e2 (SBTToken.sessionId d)
                     (session w) = false).
    { destruct (SBTSession.isSessionClaimable e2 (SBTToken.sessionId d)
                  (session w)) eqn:Hcl; [| reflexivity].
      apply isSessionClaimable_true in Hcl. destruct Hcl as (_ & _ & _ & Hlt).
      lia. }
    split.
    + apply not_true_is_false. intros Hok.
      apply Hneeds_claim in Hok. congruence.
    + apply not_true_is_false. intros Hok.
      apply Hneeds_mint in Hok. congruence.
Qed.

(** Alice's session token is revoked by the administrator. While a place
    of the session is free she claims from it again; with both places
    taken she does not. *)
Lemma revokeSBT_spec_witness :
  SBTToken.revoked (SBTToken.dataAt (token Scenario.revoked) 1) = true /\
  session Scenario.revoked = session Scenario.one_left /\
  is_ok (exec Scenario.hash (Scenario.from Scenario.alice 120)
           (ClaimFromSession Scenario.sid) Scenario.revoked) = true /\
  is_ok (exec Scenario.hash (Scenario.from Scenario.alice 120)
           (ClaimFromSession Scenario.sid) Refill.emptied) = false.
Proof.
  destruct (revokeSBT_spec Scenario.hash (Scenario.from Scenario.admin 105) 1
              Scenario.one_left Scenario.revoked
              (reachable_wired _ _ one_left_reachable) eq_refl)
    as (_ & _ & _ & Hrev & _ & _ & Hses & _ & _ & Hclaim & _).
  destruct (revokeSBT_spec Scenario.hash (Scenario.from Scenario.admin 105) 1
              Examples.full Refill.emptied
              (reachable_wired _ _ full_reachable) emptied_by_revocation)
    as (_ & _ & _ & _ & _ & _ & _ & _ & _ & _ & Hfull).
  split; [exact Hrev |]. split; [exact Hses |]. split.
  - apply (Hclaim (Scenario.from Scenario.alice 120)).
    + discriminate.
    + reflexivity.
    + vm_compute. discriminate.
    + reflexivity.
    + reflexivity.
  - apply (Hfull ltac:(vm_compute; discriminate)
             (Scenario.from Scenario.alice 120)).
Defined.
